(** * rk3399 chipset power sequencing (power/rk3399.c)

    A shallow embedding of the power state machine of the Chrome EC rk3399
    chipset module, and the properties of its specification.

    The C code runs in one task and talks to the rest of the firmware through
    calls (GPIO writes, sleeps, signal queries, hooks).  Here every such call
    is an [event] appended to a trace; the answers of the queries come from an
    [environment], indexed by the number of calls made so far.  The two
    file-level variables of the C code ([forcing_shutdown] and the function
    static [sys_reset_asserted]) live in the [world] that a small state monad
    threads through the code. *)

From Stdlib Require Import ZArith List Bool Lia String.
Import ListNotations.
Local Open Scope Z_scope.

(** ** Data *)

(** [enum power_state] of include/power.h. *)
Inductive power_state : Set :=
| POWER_G3 | POWER_S5 | POWER_S3 | POWER_S0
| POWER_G3S5 | POWER_S5S3 | POWER_S3S0 | POWER_S0S3 | POWER_S3S5 | POWER_S5G3.



(** The members of [enum gpio_signal] that the sequencing tables and
    [chipset_reset] name, over the three sequencing versions. *)
Inductive gpio_signal : Set :=
| GPIO_SYS_RST_L | GPIO_AP_CORE_EN
(* version 2 *)
| GPIO_PP900_S3_EN | GPIO_PP3300_S3_EN | GPIO_PP1800_S3_EN | GPIO_PP1250_S3_EN
| GPIO_PP900_S0_EN | GPIO_PP1800_USB_EN | GPIO_PP3300_S0_EN | GPIO_PP1800_S0_EN
(* versions 0 and 1 *)
| GPIO_PPVAR_LOGIC_EN | GPIO_PP900_AP_EN | GPIO_PP900_PCIE_EN
| GPIO_PP900_PMU_EN | GPIO_PP900_PLL_EN | GPIO_PP900_USB_EN
| GPIO_PP1800_PMU_EN_L | GPIO_LPDDR_PWR_EN | GPIO_PP1800_USB_EN_L
| GPIO_PP3300_USB_EN_L | GPIO_PP5000_EN | GPIO_PP3300_TRACKPAD_EN_L
| GPIO_PP1800_LID_EN_L | GPIO_PP1800_SIXAXIS_EN_L | GPIO_PP1800_SENSOR_EN_L
| GPIO_PPVAR_CLOGIC_EN | GPIO_PP900_DDRPLL_EN | GPIO_PP1800_AP_AVDD_EN_L
| GPIO_PP1800_S0_EN_L | GPIO_PP3300_S0_EN_L.

(** The hooks the state machine notifies. *)
Inductive hook_type : Set :=
| HOOK_CHIPSET_STARTUP | HOOK_CHIPSET_RESUME
| HOOK_CHIPSET_SUSPEND | HOOK_CHIPSET_SHUTDOWN.

(** [struct power_seq_op]: the signal (an [enum gpio_signal] kept in eight
    bits, [BUILD_ASSERT(GPIO_COUNT < 256)]), the level, and the number of
    milliseconds to wait after the write; level and delay are [uint8_t]. *)
Record power_seq_op : Set := mk_op {
  signal : gpio_signal;
  level : Z;
  delay : Z
}.

Definition op_in_range (op : power_seq_op) : Prop :=
  0 <= level op < 256 /\ 0 <= delay op < 256.

(** The addresses of the four static tables; [power_seq_run] compares the
    pointer it is given with the address of [s0s3_power_seq]. *)
Inductive seq_addr : Set :=
| addr_s5s3_power_seq | addr_s3s0_power_seq
| addr_s0s3_power_seq | addr_s3s5_power_seq.

Definition seq_addr_eqb (a b : seq_addr) : bool :=
  match a, b with
  | addr_s5s3_power_seq, addr_s5s3_power_seq
  | addr_s3s0_power_seq, addr_s3s0_power_seq
  | addr_s0s3_power_seq, addr_s0s3_power_seq
  | addr_s3s5_power_seq, addr_s3s5_power_seq => true
  | _, _ => false
  end.

(** ** The calls of the chipset task *)

Inductive event : Set :=
| EvGpioSetLevel (s : gpio_signal) (lvl : Z)
| EvMsleep (ms : Z)
| EvUsleep (us : Z)
| EvUdelay (us : Z)
| EvHookNotify (h : hook_type)
| EvHookCallDeferred (delay_us : Z)      (* on force_shutdown_data *)
| EvEnableSleep                          (* SLEEP_MASK_AP_RUN *)
| EvDisableSleep                         (* SLEEP_MASK_AP_RUN *)
| EvTaskWake                             (* TASK_ID_CHIPSET *)
| EvChipsetExitHardOff
| EvPrintRtc
| EvCprints (msg : string) (args : list Z)
| EvPowerGetSignals (result : Z)
| EvPowerHasSignals (want result : Z)
| EvPowerWaitSignals (want result : Z)
| EvPowerWaitSignalsTimeout (want timeout result : Z)
| EvChargePreventPowerOn (power_button_pressed result : Z)
| EvChargeWantShutdown (result : Z)
| EvPowerButtonIsPressed (result : Z)
| EvSystemJumped (result : Z)
| EvSystemGetResetFlags (result : Z)
| EvInInterruptContext (result : Z)
| EvLidIsOpen (result : Z)
| EvChipsetInState (mask result : Z).

(** The rail writes of a trace, in order. *)
Fixpoint gpio_writes (tr : list event) : list (gpio_signal * Z) :=
  match tr with
  | [] => []
  | EvGpioSetLevel s l :: tr' => (s, l) :: gpio_writes tr'
  | _ :: tr' => gpio_writes tr'
  end.

Definition op_write (op : power_seq_op) : gpio_signal * Z :=
  (signal op, level op).

(** What the callees that are not part of this file answer, as functions of
    the number of calls the task has made before.  [shutdown_request_at] says
    whether another task calls [chipset_force_shutdown] (or the deferred
    [force_shutdown] fires) while the chipset task is blocked in that call. *)
Record environment : Type := mk_env {
  power_get_signals_at : nat -> Z;
  power_has_signals_at : nat -> Z -> Z;
  power_wait_signals_at : nat -> Z -> Z;
  power_wait_signals_timeout_at : nat -> Z -> Z -> Z;
  charge_prevent_power_on_at : nat -> Z -> Z;
  charge_want_shutdown_at : nat -> Z;
  power_button_is_pressed_at : nat -> Z;
  system_jumped_to_this_image_at : nat -> Z;
  system_get_reset_flags_at : nat -> Z;
  in_interrupt_context_at : nat -> Z;
  lid_is_open_at : nat -> Z;
  chipset_in_state_at : nat -> Z -> Z;
  shutdown_request_at : nat -> bool
}.

(** The variables of the C file, the count of calls made, and the trace. *)
Record world : Type := mk_world {
  forcing_shutdown : Z;
  sys_reset_asserted : Z;
  now : nat;
  trace : list event
}.

Definition set_forcing_shutdown (v : Z) (w : world) : world :=
  mk_world v (sys_reset_asserted w) (now w) (trace w).

Definition set_sys_reset_asserted (v : Z) (w : world) : world :=
  mk_world (forcing_shutdown w) v (now w) (trace w).

Definition log (e : event) (w : world) : world :=
  mk_world (forcing_shutdown w) (sys_reset_asserted w) (S (now w))
           (trace w ++ [e]).

(** The world at boot: both variables are zero-initialised statics. *)
Definition boot_world : world := mk_world 0 0 O [].

(** ** The state monad of the task *)

Definition M (A : Type) : Type := world -> A * world.

Definition ret {A : Type} (a : A) : M A := fun w => (a, w).

Definition bind {A B : Type} (c : M A) (k : A -> M B) : M B :=
  fun w => let (a, w') := c w in k a w'.

Notation "x <- c1 ;; c2" := (bind c1 (fun x => c2))
  (at level 61, c1 at next level, right associativity).
Notation "c1 ;; c2" := (bind c1 (fun _ => c2))
  (at level 61, right associativity).

Definition emit (e : event) : M unit := fun w => (tt, log e w).

Definition read_forcing_shutdown : M Z := fun w => (forcing_shutdown w, w).
Definition write_forcing_shutdown (v : Z) : M unit :=
  fun w => (tt, set_forcing_shutdown v w).
Definition read_sys_reset_asserted : M Z := fun w => (sys_reset_asserted w, w).
Definition write_sys_reset_asserted (v : Z) : M unit :=
  fun w => (tt, set_sys_reset_asserted v w).

(** C truth of an [int]. *)
Definition truthy (v : Z) : bool := negb (v =? 0).

(** ** Build configuration and header constants

    What the C file takes from its build configuration and from headers of
    the firmware: the sequencing version, the positions of the power signals
    in [enum power_signal], the numeric values of [enum power_state], and a
    few constants.  [POWER_S3S0_nonzero] is the file's
    [BUILD_ASSERT(POWER_S3S0 != 0)]. *)
Class Platform : Type := {
  CONFIG_CHIPSET_POWER_SEQ_VERSION : Z;
  CONFIG_CMD_RTC : bool;
  PP1250_S3_PWR_GOOD : Z;
  PP900_S0_PWR_GOOD : Z;
  PP5000_PWR_GOOD : Z;
  SYS_PWR_GOOD : Z;
  AP_PWR_GOOD : Z;
  SUSPEND_DEASSERTED : Z;
  EC_ERROR_TIMEOUT : Z;
  MSEC : Z;
  SECOND : Z;
  RESET_FLAG_AP_OFF : Z;
  CHIPSET_STATE_ANY_OFF : Z;
  power_state_value : power_state -> Z;
  POWER_S3S0_nonzero : power_state_value POWER_S3S0 <> 0
}.

(** A board of sequencing version 0 (the gru family) and one of version 2,
    with the values the firmware headers give.  A version does not use the
    positions of the power signals it lacks. *)
Definition enum_power_state (s : power_state) : Z :=
  match s with
  | POWER_G3 => 0 | POWER_S5 => 1 | POWER_S3 => 2 | POWER_S0 => 3
  | POWER_G3S5 => 4 | POWER_S5S3 => 5 | POWER_S3S0 => 6 | POWER_S0S3 => 7
  | POWER_S3S5 => 8 | POWER_S5G3 => 9
  end.

Definition enum_power_state_S3S0 : enum_power_state POWER_S3S0 <> 0.
Proof. discriminate. Defined.

Definition board_v0 : Platform := {|
  CONFIG_CHIPSET_POWER_SEQ_VERSION := 0;
  CONFIG_CMD_RTC := true;
  PP1250_S3_PWR_GOOD := 0;
  PP900_S0_PWR_GOOD := 1;
  PP5000_PWR_GOOD := 0;
  SYS_PWR_GOOD := 1;
  AP_PWR_GOOD := 2;
  SUSPEND_DEASSERTED := 3;
  EC_ERROR_TIMEOUT := 4;
  MSEC := 1000;
  SECOND := 1000000;
  RESET_FLAG_AP_OFF := 4096;
  CHIPSET_STATE_ANY_OFF := 3;
  power_state_value := enum_power_state;
  POWER_S3S0_nonzero := enum_power_state_S3S0
|}.

Definition board_v2 : Platform := {|
  CONFIG_CHIPSET_POWER_SEQ_VERSION := 2;
  CONFIG_CMD_RTC := true;
  PP1250_S3_PWR_GOOD := 0;
  PP900_S0_PWR_GOOD := 1;
  PP5000_PWR_GOOD := 0;
  SYS_PWR_GOOD := 1;
  AP_PWR_GOOD := 2;
  SUSPEND_DEASSERTED := 3;
  EC_ERROR_TIMEOUT := 4;
  MSEC := 1000;
  SECOND := 1000000;
  RESET_FLAG_AP_OFF := 4096;
  CHIPSET_STATE_ANY_OFF := 3;
  power_state_value := enum_power_state;
  POWER_S3S0_nonzero := enum_power_state_S3S0
|}.

(** ** The code of power/rk3399.c *)

Section Rk3399.

Context {P : Platform} (env : environment).

(** *** Callees *)

Definition gpio_set_level (s : gpio_signal) (lvl : Z) : M unit :=
  emit (EvGpioSetLevel s lvl).

Definition hook_notify (h : hook_type) : M unit := emit (EvHookNotify h).
Definition hook_call_deferred (delay_us : Z) : M unit :=
  emit (EvHookCallDeferred delay_us).
Definition enable_sleep : M unit := emit EvEnableSleep.
Definition disable_sleep : M unit := emit EvDisableSleep.
Definition task_wake : M unit := emit EvTaskWake.
Definition chipset_exit_hard_off : M unit := emit EvChipsetExitHardOff.
Definition print_system_rtc : M unit := emit EvPrintRtc.
Definition CPRINTS (msg : string) (args : list Z) : M unit :=
  emit (EvCprints msg args).
Definition udelay (us : Z) : M unit := emit (EvUdelay us).

(** A query: the environment answers, the call and its answer are logged. *)
Definition query (answer : nat -> Z) (ev : Z -> event) : M Z :=
  fun w => let r := answer (now w) in (r, log (ev r) w).

(** A call in which the task blocks: other tasks run, and one of them may
    request a shutdown, which writes 1 to [forcing_shutdown]. *)
Definition while_blocked {A : Type} (c : M A) : M A :=
  fun w =>
    let (a, w') := c w in
    (a, if shutdown_request_at env (now w)
        then set_forcing_shutdown 1 w' else w').

Definition msleep (ms : Z) : M unit := while_blocked (emit (EvMsleep ms)).
Definition usleep (us : Z) : M unit := while_blocked (emit (EvUsleep us)).

Definition power_get_signals : M Z :=
  query (power_get_signals_at env) EvPowerGetSignals.
Definition power_has_signals (want : Z) : M Z :=
  query (fun t => power_has_signals_at env t want) (EvPowerHasSignals want).
Definition power_wait_signals (want : Z) : M Z :=
  while_blocked
    (query (fun t => power_wait_signals_at env t want)
           (EvPowerWaitSignals want)).
Definition power_wait_signals_timeout (want timeout : Z) : M Z :=
  while_blocked
    (query (fun t => power_wait_signals_timeout_at env t want timeout)
           (EvPowerWaitSignalsTimeout want timeout)).
Definition charge_prevent_power_on (power_button_pressed : Z) : M Z :=
  query (fun t => charge_prevent_power_on_at env t power_button_pressed)
        (EvChargePreventPowerOn power_button_pressed).
Definition charge_want_shutdown : M Z :=
  query (charge_want_shutdown_at env) EvChargeWantShutdown.
Definition power_button_is_pressed : M Z :=
  query (power_button_is_pressed_at env) EvPowerButtonIsPressed.
Definition system_jumped_to_this_image : M Z :=
  query (system_jumped_to_this_image_at env) EvSystemJumped.
Definition system_get_reset_flags : M Z :=
  query (system_get_reset_flags_at env) EvSystemGetResetFlags.
Definition in_interrupt_context : M Z :=
  query (in_interrupt_context_at env) EvInInterruptContext.
Definition lid_is_open : M Z := query (lid_is_open_at env) EvLidIsOpen.
Definition chipset_in_state (mask : Z) : M Z :=
  query (fun t => chipset_in_state_at env t mask) (EvChipsetInState mask).

(** *** Input state flags *)

Definition POWER_SIGNAL_MASK (x : Z) : Z := Z.shiftl 1 x.

Definition IN_PGOOD_PP1250_S3 : Z := POWER_SIGNAL_MASK PP1250_S3_PWR_GOOD.
Definition IN_PGOOD_PP900_S0 : Z := POWER_SIGNAL_MASK PP900_S0_PWR_GOOD.
Definition IN_PGOOD_PP5000 : Z := POWER_SIGNAL_MASK PP5000_PWR_GOOD.
Definition IN_PGOOD_SYS : Z := POWER_SIGNAL_MASK SYS_PWR_GOOD.
Definition IN_PGOOD_AP : Z := POWER_SIGNAL_MASK AP_PWR_GOOD.
Definition IN_SUSPEND_DEASSERTED : Z := POWER_SIGNAL_MASK SUSPEND_DEASSERTED.

(** Rails required for S3 and S0. *)
Definition IN_PGOOD_S3 : Z :=
  if CONFIG_CHIPSET_POWER_SEQ_VERSION =? 2
  then IN_PGOOD_PP1250_S3
  else IN_PGOOD_PP5000.

Definition IN_PGOOD_S0 : Z :=
  if CONFIG_CHIPSET_POWER_SEQ_VERSION =? 2
  then Z.lor (Z.lor IN_PGOOD_S3 IN_PGOOD_PP900_S0) IN_PGOOD_AP
  else Z.lor (Z.lor IN_PGOOD_S3 IN_PGOOD_AP) IN_PGOOD_SYS.

(** All inputs in the right state for S0. *)
Definition IN_ALL_S0 : Z := Z.lor IN_PGOOD_S0 IN_SUSPEND_DEASSERTED.

(** Long power key press to force shutdown in S0. *)
Definition FORCED_SHUTDOWN_DELAY : Z := 8 * SECOND.

Definition CHARGER_INITIALIZED_DELAY_MS : Z := 100.
Definition CHARGER_INITIALIZED_TRIES : Z := 40.

Definition SYS_RST_HOLD_US : Z := 1 * MSEC.
Definition PGOOD_AP_DEBOUNCE_TIMEOUT : Z := 100 * MSEC.
Definition SLEEP_INTERVAL_MS : Z := 5.

(** *** The sequencing tables *)

Definition s5s3_power_seq : list power_seq_op :=
  if CONFIG_CHIPSET_POWER_SEQ_VERSION =? 2 then
    [ mk_op GPIO_PP900_S3_EN 1 2;
      mk_op GPIO_SYS_RST_L 1 0;
      mk_op GPIO_PP3300_S3_EN 1 2;
      mk_op GPIO_PP1800_S3_EN 1 2;
      mk_op GPIO_PP1250_S3_EN 1 2 ]
  else
    [ mk_op GPIO_PPVAR_LOGIC_EN 1 0;
      mk_op GPIO_PP900_AP_EN 1 0;
      mk_op GPIO_PP900_PCIE_EN 1 2 ]
    ++ (if CONFIG_CHIPSET_POWER_SEQ_VERSION =? 0 then
          [ mk_op GPIO_PP900_PMU_EN 1 0;
            mk_op GPIO_PP900_PLL_EN 1 0 ]
        else [])
    ++ [ mk_op GPIO_PP900_USB_EN 1 2;
         mk_op GPIO_SYS_RST_L 0 0;
         mk_op GPIO_PP1800_PMU_EN_L 0 2;
         mk_op GPIO_LPDDR_PWR_EN 1 2;
         mk_op GPIO_PP1800_USB_EN_L 0 2;
         mk_op GPIO_PP3300_USB_EN_L 0 0;
         mk_op GPIO_PP5000_EN 1 0;
         mk_op GPIO_PP3300_TRACKPAD_EN_L 0 1;
         mk_op GPIO_PP1800_LID_EN_L 0 0;
         mk_op GPIO_PP1800_SIXAXIS_EN_L 0 2;
         mk_op GPIO_PP1800_SENSOR_EN_L 0 0 ].

Definition s3s0_power_seq : list power_seq_op :=
  if CONFIG_CHIPSET_POWER_SEQ_VERSION =? 2 then
    [ mk_op GPIO_PP900_S0_EN 1 2;
      mk_op GPIO_PP1800_USB_EN 1 2;
      mk_op GPIO_PP3300_S0_EN 1 2;
      mk_op GPIO_AP_CORE_EN 1 2;
      mk_op GPIO_PP1800_S0_EN 1 0 ]
  else
    [ mk_op GPIO_PPVAR_CLOGIC_EN 1 2;
      mk_op GPIO_PP900_DDRPLL_EN 1 2;
      mk_op GPIO_PP1800_AP_AVDD_EN_L 0 2;
      mk_op GPIO_AP_CORE_EN 1 2;
      mk_op GPIO_PP1800_S0_EN_L 0 2;
      mk_op GPIO_PP3300_S0_EN_L 0 0 ].

Definition s0s3_power_seq : list power_seq_op :=
  if CONFIG_CHIPSET_POWER_SEQ_VERSION =? 2 then
    [ mk_op GPIO_PP1800_S0_EN 0 1;
      mk_op GPIO_AP_CORE_EN 0 20;
      mk_op GPIO_PP3300_S0_EN 0 20;
      mk_op GPIO_PP1800_USB_EN 0 1;
      mk_op GPIO_PP900_S0_EN 0 1 ]
  else
    [ mk_op GPIO_PP3300_S0_EN_L 1 20;
      mk_op GPIO_PP1800_S0_EN_L 1 1;
      mk_op GPIO_AP_CORE_EN 0 20;
      mk_op GPIO_PP1800_AP_AVDD_EN_L 1 1;
      mk_op GPIO_PP900_DDRPLL_EN 0 1;
      mk_op GPIO_PPVAR_CLOGIC_EN 0 0 ].

Definition s3s5_power_seq : list power_seq_op :=
  if CONFIG_CHIPSET_POWER_SEQ_VERSION =? 2 then
    [ mk_op GPIO_PP1250_S3_EN 0 2;
      mk_op GPIO_PP1800_S3_EN 0 2;
      mk_op GPIO_PP3300_S3_EN 0 2;
      mk_op GPIO_PP900_S3_EN 0 0 ]
  else
    [ mk_op GPIO_PP1800_SENSOR_EN_L 1 0;
      mk_op GPIO_PP1800_SIXAXIS_EN_L 1 0;
      mk_op GPIO_PP1800_LID_EN_L 1 0;
      mk_op GPIO_PP3300_TRACKPAD_EN_L 1 0;
      mk_op GPIO_PP5000_EN 0 0;
      mk_op GPIO_PP3300_USB_EN_L 1 20;
      mk_op GPIO_PP1800_USB_EN_L 1 10;
      mk_op GPIO_LPDDR_PWR_EN 0 20;
      mk_op GPIO_PP1800_PMU_EN_L 1 2 ]
    ++ (if CONFIG_CHIPSET_POWER_SEQ_VERSION =? 0 then
          [ mk_op GPIO_PP900_PLL_EN 0 0;
            mk_op GPIO_PP900_PMU_EN 0 0 ]
        else [])
    ++ [ mk_op GPIO_PP900_USB_EN 0 6;
         mk_op GPIO_PP900_PCIE_EN 0 0;
         mk_op GPIO_PP900_AP_EN 0 0;
         mk_op GPIO_PPVAR_LOGIC_EN 0 0 ].

(** The table at an address, and [ARRAY_SIZE] of it. *)
Definition seq_at (a : seq_addr) : list power_seq_op :=
  match a with
  | addr_s5s3_power_seq => s5s3_power_seq
  | addr_s3s0_power_seq => s3s0_power_seq
  | addr_s0s3_power_seq => s0s3_power_seq
  | addr_s3s5_power_seq => s3s5_power_seq
  end.

Definition ARRAY_SIZE (a : seq_addr) : nat := List.length (seq_at a).

(** *** chipset_force_shutdown, chipset_reset, power_chipset_init *)

Definition chipset_force_shutdown : M unit :=
  CPRINTS "chipset_force_shutdown()" [] ;;
  (* Force power off. This condition will reset once the state machine
     transitions to G3. *)
  write_forcing_shutdown 1 ;;
  task_wake.

Definition chipset_reset (cold_reset : Z) : M unit :=
  (if CONFIG_CMD_RTC then print_system_rtc else ret tt) ;;
  CPRINTS "chipset_reset(%d)" [cold_reset] ;;
  (* Pulse SYS_RST *)
  gpio_set_level GPIO_SYS_RST_L 0 ;;
  in_irq <- in_interrupt_context ;;
  (if truthy in_irq then udelay SYS_RST_HOLD_US else usleep SYS_RST_HOLD_US) ;;
  gpio_set_level GPIO_SYS_RST_L 1.

Definition power_chipset_init : M power_state :=
  jumped <- system_jumped_to_this_image ;;
  if truthy jumped then
    signals <- power_get_signals ;;
    if Z.land signals IN_ALL_S0 =? IN_ALL_S0 then
      disable_sleep ;;
      CPRINTS "already in S0" [] ;;
      ret POWER_S0
    else ret POWER_G3
  else
    flags <- system_get_reset_flags ;;
    (if negb (truthy (Z.land flags RESET_FLAG_AP_OFF))
     then (* Auto-power on *) chipset_exit_hard_off
     else ret tt) ;;
    ret POWER_G3.

Definition force_shutdown : M unit :=
  write_forcing_shutdown 1 ;;
  task_wake.

(** *** MSLEEP_CHECK_ABORTED_SUSPEND

    The macro sleeps [msec] milliseconds in intervals of [SLEEP_INTERVAL_MS]
    and makes the enclosing function return [POWER_S3S0] when, after an
    interval, [forcing_shutdown] is clear and the AP has deasserted suspend.
    The model answers [true] where the macro returns from the enclosing
    function; its callers return [POWER_S3S0] then.

    The do-while loop is unfolded [fuel] times; [msleep_intervals] is enough
    for it to end by its own test (lemma [msleep_check_loop_fuel]). *)
Fixpoint msleep_check_loop (fuel : nat) (sleep_remain : Z) : M bool :=
  match fuel with
  | O => ret false
  | S fuel' =>
      msleep (Z.min sleep_remain SLEEP_INTERVAL_MS) ;;
      let sleep_remain := sleep_remain - SLEEP_INTERVAL_MS in
      fs <- read_forcing_shutdown ;;
      resume <- (if negb (truthy fs) then
                   signals <- power_get_signals ;;
                   ret (truthy (Z.land signals IN_SUSPEND_DEASSERTED))
                 else ret false) ;;
      if resume then
        CPRINTS "suspend aborted" [] ;;
        ret true
      else if sleep_remain >? 0 then msleep_check_loop fuel' sleep_remain
      else ret false
  end.

Definition msleep_intervals (msec : Z) : nat :=
  S (Z.to_nat (msec / SLEEP_INTERVAL_MS)).

Definition MSLEEP_CHECK_ABORTED_SUSPEND (msec : Z) : M bool :=
  msleep_check_loop (msleep_intervals msec) msec.

(** *** power_seq_run

    Step through the power sequence table and do the corresponding GPIO
    operations.  [check_abort] is the outcome of the pointer comparison
    [power_seq_ops == s0s3_power_seq]; the result is non-zero if suspend was
    aborted during POWER_S0S3, 0 otherwise. *)
Fixpoint power_seq_run_ops (check_abort : bool) (ops : list power_seq_op)
  : M Z :=
  match ops with
  | [] => ret 0
  | op :: rest =>
      gpio_set_level (signal op) (level op) ;;
      if negb (truthy (delay op)) then power_seq_run_ops check_abort rest
      else if check_abort then
        aborted <- MSLEEP_CHECK_ABORTED_SUSPEND (delay op) ;;
        if aborted then ret (power_state_value POWER_S3S0)
        else power_seq_run_ops check_abort rest
      else
        msleep (delay op) ;;
        power_seq_run_ops check_abort rest
  end.

Definition power_seq_run (power_seq_ops : seq_addr) (op_count : nat) : M Z :=
  power_seq_run_ops (seq_addr_eqb power_seq_ops addr_s0s3_power_seq)
                    (firstn op_count (seq_at power_seq_ops)).

(** *** power_handle_state *)

(** The loop of the G3S5 case,
    [while (charge_prevent_power_on(0) && tries++ < CHARGER_INITIALIZED_TRIES)
       msleep(CHARGER_INITIALIZED_DELAY_MS);]
    which returns the final value of [tries].  [tries] is incremented only
    when the charger prevents power-on, whether or not the comparison of its
    old value succeeds. *)
Fixpoint charger_wait_loop (fuel : nat) (tries : Z) : M Z :=
  match fuel with
  | O => ret tries
  | S fuel' =>
      prevent <- charge_prevent_power_on 0 ;;
      if truthy prevent then
        if tries <? CHARGER_INITIALIZED_TRIES then
          msleep CHARGER_INITIALIZED_DELAY_MS ;;
          charger_wait_loop fuel' (tries + 1)
        else ret (tries + 1)
      else ret tries
  end.

(** From [tries], the loop body runs at most this many times. *)
Definition charger_wait_bound (tries : Z) : nat :=
  S (Z.to_nat (CHARGER_INITIALIZED_TRIES - tries)).

(** The condition the S0 case tests, before and again after its wait:
    [!power_has_signals(IN_PGOOD_S3) || forcing_shutdown ||
     !(power_get_signals() & IN_SUSPEND_DEASSERTED)];
    the signals are read only if the first two disjuncts are false. *)
Definition S0_exit_condition : M bool :=
  pgood <- power_has_signals IN_PGOOD_S3 ;;
  fs <- read_forcing_shutdown ;;
  if negb (truthy pgood) || truthy fs then ret true
  else
    signals <- power_get_signals ;;
    ret (negb (truthy (Z.land signals IN_SUSPEND_DEASSERTED))).

Definition power_handle_state (state : power_state) : M power_state :=
  let tries := 0 in
  match state with
  | POWER_G3 => ret state

  | POWER_S5 =>
      fs <- read_forcing_shutdown ;;
      if truthy fs then ret POWER_S5G3 else ret POWER_S5S3

  | POWER_S3 =>
      pgood <- power_has_signals IN_PGOOD_S3 ;;
      fs <- read_forcing_shutdown ;;
      if negb (truthy pgood) || truthy fs then ret POWER_S3S5
      else
        signals <- power_get_signals ;;
        if truthy (Z.land signals IN_SUSPEND_DEASSERTED) then ret POWER_S3S0
        else ret state

  | POWER_S0 =>
      leave <- S0_exit_condition ;;
      if leave then ret POWER_S0S3
      else if negb (CONFIG_CHIPSET_POWER_SEQ_VERSION =? 2) then
        (* Wait up to PGOOD_AP_DEBOUNCE_TIMEOUT for IN_PGOOD_AP to come back
           before transitioning back to S3; PGOOD_SYS is debounced as well. *)
        rv <- power_wait_signals_timeout (Z.lor IN_PGOOD_AP IN_PGOOD_SYS)
                                         PGOOD_AP_DEBOUNCE_TIMEOUT ;;
        if rv =? EC_ERROR_TIMEOUT then ret POWER_S0S3
        else
          (* power_wait_signals_timeout() can block and consume task wake
             events, so re-verify the state of the world. *)
          leave <- S0_exit_condition ;;
          if leave then ret POWER_S0S3 else ret state
      else ret state

  | POWER_G3S5 =>
      write_forcing_shutdown 0 ;;
      (* Allow time for charger to be initialized, in case we're trying to
         boot the AP with no battery. *)
      tries <- charger_wait_loop (charger_wait_bound tries) tries ;;
      (* Return to G3 if battery level is too low. *)
      want <- charge_want_shutdown ;;
      if truthy want || (tries >? CHARGER_INITIALIZED_TRIES) then
        CPRINTS "power-up inhibited" [] ;;
        chipset_force_shutdown ;;
        ret POWER_G3
      else
        (* Power up to next state *)
        ret POWER_S5

  | POWER_S5S3 =>
      power_seq_run addr_s5s3_power_seq (ARRAY_SIZE addr_s5s3_power_seq) ;;
      (* Assert SYS_RST now, to be released in S3S0, to avoid resetting the
         TPM soon after power-on. *)
      write_sys_reset_asserted 1 ;;
      rv <- power_wait_signals IN_PGOOD_S3 ;;
      if truthy rv then
        chipset_force_shutdown ;;
        ret POWER_S3S5
      else
        (* Call hooks now that rails are up *)
        hook_notify HOOK_CHIPSET_STARTUP ;;
        (* Power up to next state *)
        ret POWER_S3

  | POWER_S3S0 =>
      power_seq_run addr_s3s0_power_seq (ARRAY_SIZE addr_s3s0_power_seq) ;;
      (* Release SYS_RST if we came from S5 *)
      sra <- read_sys_reset_asserted ;;
      (if truthy sra then
         msleep 10 ;;
         gpio_set_level GPIO_SYS_RST_L 1 ;;
         write_sys_reset_asserted 0
       else ret tt) ;;
      rv <- power_wait_signals IN_PGOOD_S0 ;;
      if truthy rv then
        chipset_force_shutdown ;;
        ret POWER_S3S0
      else
        (* Call hooks now that rails are up *)
        hook_notify HOOK_CHIPSET_RESUME ;;
        (* Disable idle task deep sleep. *)
        disable_sleep ;;
        (* Power up to next state *)
        ret POWER_S0

  | POWER_S0S3 =>
      (* Call hooks before we remove power rails *)
      hook_notify HOOK_CHIPSET_SUSPEND ;;
      aborted <- MSLEEP_CHECK_ABORTED_SUSPEND 20 ;;
      if aborted then ret POWER_S3S0
      else
        rv <- power_seq_run addr_s0s3_power_seq
                            (ARRAY_SIZE addr_s0s3_power_seq) ;;
        if truthy rv then ret POWER_S3S0
        else
          (* Enable idle task deep sleep. *)
          enable_sleep ;;
          (* In case the power button is held awaiting power-off timeout,
             power off immediately now that we're entering S3. *)
          pressed <- power_button_is_pressed ;;
          (if truthy pressed then
             write_forcing_shutdown 1 ;;
             hook_call_deferred (-1)
           else ret tt) ;;
          ret POWER_S3

  | POWER_S3S5 =>
      (* Call hooks before we remove power rails *)
      hook_notify HOOK_CHIPSET_SHUTDOWN ;;
      power_seq_run addr_s3s5_power_seq (ARRAY_SIZE addr_s3s5_power_seq) ;;
      (* Start shutting down *)
      ret POWER_S5

  | POWER_S5G3 => ret POWER_G3
  end.

(** *** power_button_changed, lid_changed *)

Definition power_button_changed : M unit :=
  pressed <- power_button_is_pressed ;;
  if truthy pressed then
    off <- chipset_in_state CHIPSET_STATE_ANY_OFF ;;
    (if truthy off then (* Power up from off *) chipset_exit_hard_off
     else ret tt) ;;
    (* Delayed power down from S0/S3, cancel on PB release *)
    hook_call_deferred FORCED_SHUTDOWN_DELAY
  else
    (* Power button released, cancel deferred shutdown *)
    hook_call_deferred (-1).

Definition lid_changed : M unit :=
  (* Power-up from off on lid open *)
  open <- lid_is_open ;;
  if truthy open then
    off <- chipset_in_state CHIPSET_STATE_ANY_OFF ;;
    if truthy off then chipset_exit_hard_off else ret tt
  else ret tt.

(** *** The task loop and the other entry points

    Modelled from the spec: the scheduler loop of the chipset task, which is
    not part of this file: "an external scheduler loop repeatedly invokes the
    state machine's handle_state with the current state and applies the
    returned next state".  [chipset_task n state] makes [n] invocations and
    returns the states they resolved to, in order. *)
Fixpoint chipset_task (n : nat) (state : power_state) : M (list power_state) :=
  match n with
  | O => ret []
  | S n' =>
      next <- power_handle_state state ;;
      rest <- chipset_task n' next ;;
      ret (next :: rest)
  end.



End Rk3399.

(** ** The code of chip/lm4/pwm.c

    The fan module of the LM4: its registers are 32 bits wide and are kept
    in the state, with what the file writes elsewhere (the four 16-bit words
    it keeps at [EC_MEMMAP_FAN]) and the calls it makes to other modules.
    [LM4_FAN_FANCST] and [LM4_FAN_FANSTS] are written by the hardware; the
    file only reads them. *)

Inductive lm4_gpio_port : Set := LM4_GPIO_K | LM4_GPIO_M.

Inductive print_arg : Set :=
| ArgInt (v : Z)
| ArgStr (s : string).

Inductive pwm_call : Set :=
| CallGpioSetAlternateFunction (port : lm4_gpio_port) (mask func : Z)
| CallLpcSetHostEvents (mask : Z)
| CallCputs (outstr : string)
| CallCcprintf (format : string) (args : list print_arg)
| CallThermalToggleAutoFanCtrl (auto_fan_on : Z).

Record lm4 : Type := mk_lm4 {
  LM4_SYSTEM_RCGCFAN : Z;
  LM4_FAN_FANCTL : Z;
  LM4_FAN_FANSTS : Z;
  LM4_FAN_FANCH : Z -> Z;
  LM4_FAN_FANCMD : Z -> Z;
  LM4_FAN_FANCST : Z -> Z;
  lpc_memmap_fan : list Z;
  GPIO_PGOOD_5VALW_level : Z;
  pwm_calls : list pwm_call
}.

Definition set_RCGCFAN (v : Z) (st : lm4) : lm4 :=
  mk_lm4 v (LM4_FAN_FANCTL st) (LM4_FAN_FANSTS st) (LM4_FAN_FANCH st)
    (LM4_FAN_FANCMD st) (LM4_FAN_FANCST st) (lpc_memmap_fan st)
    (GPIO_PGOOD_5VALW_level st) (pwm_calls st).

Definition set_FANCTL (v : Z) (st : lm4) : lm4 :=
  mk_lm4 (LM4_SYSTEM_RCGCFAN st) v (LM4_FAN_FANSTS st) (LM4_FAN_FANCH st)
    (LM4_FAN_FANCMD st) (LM4_FAN_FANCST st) (lpc_memmap_fan st)
    (GPIO_PGOOD_5VALW_level st) (pwm_calls st).

Definition set_FANCH (f : Z -> Z) (st : lm4) : lm4 :=
  mk_lm4 (LM4_SYSTEM_RCGCFAN st) (LM4_FAN_FANCTL st) (LM4_FAN_FANSTS st) f
    (LM4_FAN_FANCMD st) (LM4_FAN_FANCST st) (lpc_memmap_fan st)
    (GPIO_PGOOD_5VALW_level st) (pwm_calls st).

Definition set_FANCMD (f : Z -> Z) (st : lm4) : lm4 :=
  mk_lm4 (LM4_SYSTEM_RCGCFAN st) (LM4_FAN_FANCTL st) (LM4_FAN_FANSTS st)
    (LM4_FAN_FANCH st) f (LM4_FAN_FANCST st) (lpc_memmap_fan st)
    (GPIO_PGOOD_5VALW_level st) (pwm_calls st).

Definition set_memmap_fan (m : list Z) (st : lm4) : lm4 :=
  mk_lm4 (LM4_SYSTEM_RCGCFAN st) (LM4_FAN_FANCTL st) (LM4_FAN_FANSTS st)
    (LM4_FAN_FANCH st) (LM4_FAN_FANCMD st) (LM4_FAN_FANCST st) m
    (GPIO_PGOOD_5VALW_level st) (pwm_calls st).

Definition pwm_call_of (c : pwm_call) (st : lm4) : lm4 :=
  mk_lm4 (LM4_SYSTEM_RCGCFAN st) (LM4_FAN_FANCTL st) (LM4_FAN_FANSTS st)
    (LM4_FAN_FANCH st) (LM4_FAN_FANCMD st) (LM4_FAN_FANCST st)
    (lpc_memmap_fan st) (GPIO_PGOOD_5VALW_level st) (pwm_calls st ++ [c]).

(** A value as a 32-bit register and as a [uint16_t] keep it. *)
Definition u32 (v : Z) : Z := v mod 2 ^ 32.
Definition u16 (v : Z) : Z := v mod 2 ^ 16.

(** The registers of one channel among those of the others. *)
Definition reg_store (f : Z -> Z) (ch v : Z) : Z -> Z :=
  fun c => if c =? ch then u32 v else f c.

(** What pwm.c takes from the board and from headers: the two fan channels,
    whether the thermal task is built, the error codes, the host event, and
    [strtoi], which gives the number read and what it left unread. *)
Class Lm4Board : Type := {
  FAN_CH_CPU : Z;
  FAN_CH_KBLIGHT : Z;
  CONFIG_TASK_THERMAL : bool;
  EC_SUCCESS : Z;
  EC_ERROR_PARAM_COUNT : Z;
  EC_ERROR_PARAM1 : Z;
  EC_HOST_EVENT_MASK_THERMAL : Z;
  strtoi : string -> Z * string
}.

Section Lm4Pwm.

Context {B : Lm4Board}.

(** Maximum RPM for fan controller *)
Definition MAX_RPM : Z := 8191.
(** Max PWM for fan controller *)
Definition MAX_PWM : Z := 511.
(** Scaling factor for requested/actual RPM for CPU fan. *)
Definition CPU_FAN_SCALE : Z := 2.

(** Configures the GPIOs for the fan module. *)
Definition configure_gpios (st : lm4) : lm4 :=
  (* PK6 alternate function 1 = channel 1 PWM *)
  let st := pwm_call_of (CallGpioSetAlternateFunction LM4_GPIO_K 64 1) st in
  (* PM6:7 alternate function 1 = channel 0 PWM/tach *)
  pwm_call_of (CallGpioSetAlternateFunction LM4_GPIO_M 192 1) st.

Definition pwm_enable_fan (enable : Z) (st : lm4) : Z * lm4 :=
  (EC_SUCCESS,
   if truthy enable
   then set_FANCTL
          (u32 (Z.lor (LM4_FAN_FANCTL st) (Z.shiftl 1 FAN_CH_CPU))) st
   else set_FANCTL
          (u32 (Z.land (LM4_FAN_FANCTL st)
                  (Z.lnot (Z.shiftl 1 FAN_CH_CPU)))) st).

Definition pwm_get_fan_rpm (st : lm4) : Z :=
  Z.land (LM4_FAN_FANCST st FAN_CH_CPU) MAX_RPM * CPU_FAN_SCALE.

Definition pwm_get_fan_target_rpm (st : lm4) : Z :=
  Z.land (LM4_FAN_FANCMD st FAN_CH_CPU) MAX_RPM * CPU_FAN_SCALE.

Definition pwm_set_fan_target_rpm (rpm : Z) (st : lm4) : Z * lm4 :=
  (* Apply fan scaling *)
  let rpm := if rpm >? 0 then Z.quot rpm CPU_FAN_SCALE else rpm in
  (* Treat out-of-range requests as requests for maximum fan speed *)
  let rpm := if (rpm <? 0) || (rpm >? MAX_RPM) then MAX_RPM else rpm in
  (EC_SUCCESS,
   set_FANCMD (reg_store (LM4_FAN_FANCMD st) FAN_CH_CPU rpm) st).

Definition pwm_enable_keyboard_backlight (enable : Z) (st : lm4) : Z * lm4 :=
  (EC_SUCCESS,
   if truthy enable
   then set_FANCTL
          (u32 (Z.lor (LM4_FAN_FANCTL st) (Z.shiftl 1 FAN_CH_KBLIGHT))) st
   else set_FANCTL
          (u32 (Z.land (LM4_FAN_FANCTL st)
                  (Z.lnot (Z.shiftl 1 FAN_CH_KBLIGHT)))) st).

Definition pwm_get_keyboard_backlight_enabled (st : lm4) : Z :=
  if truthy (Z.land (LM4_FAN_FANCTL st) (Z.shiftl 1 FAN_CH_KBLIGHT))
  then 1 else 0.

Definition pwm_get_keyboard_backlight (st : lm4) : Z :=
  Z.quot (Z.shiftr (LM4_FAN_FANCMD st FAN_CH_KBLIGHT) 16 * 100
          + Z.quot MAX_PWM 2)
         MAX_PWM.

Definition pwm_set_keyboard_backlight (percent : Z) (st : lm4) : Z * lm4 :=
  (EC_SUCCESS,
   set_FANCMD
     (reg_store (LM4_FAN_FANCMD st) FAN_CH_KBLIGHT
        (Z.shiftl (Z.quot (percent * MAX_PWM + 50) 100) 16)) st).

(** [mapped[i] = v] on the 16-bit words at [EC_MEMMAP_FAN]. *)
Definition store16 (mapped : list Z) (i : nat) (v : Z) : list Z :=
  firstn i mapped ++ u16 v :: skipn (S i) mapped.

Definition update_lpc_mapped_memory (st : lm4) : lm4 :=
  let mapped :=
    fold_left (fun m i => store16 m i 65535) (seq 0 4) (lpc_memmap_fan st) in
  let r := pwm_get_fan_rpm st in
  (* Write fan speed. Or 0xFFFE for fan stalled. *)
  set_memmap_fan
    (if truthy r then store16 mapped 0 r else store16 mapped 0 65534) st.

Definition check_fan_failure (st : lm4) : lm4 :=
  if negb (pwm_get_fan_target_rpm st =? 0)
     && truthy (Z.land (LM4_FAN_FANCTL st) (Z.shiftl 1 FAN_CH_CPU))
     && (Z.land (Z.shiftr (LM4_FAN_FANSTS st) (2 * FAN_CH_CPU)) 3 =? 0)
  then
    (* Fan enabled but stalled. Issues warning. *)
    let st := pwm_call_of (CallLpcSetHostEvents EC_HOST_EVENT_MASK_THERMAL)
                st in
    pwm_call_of (CallCputs "[Fan stalled!]\n") st
  else st.

(** The duty that [command_fan_info] prints. *)
Definition fan_info_duty (st : lm4) : Z :=
  Z.quot (Z.shiftr (LM4_FAN_FANCMD st FAN_CH_CPU) 16 * 100) MAX_PWM.

Definition command_fan_info (argv : list string) (st : lm4) : Z * lm4 :=
  let st := pwm_call_of (CallCcprintf "Actual: %4d rpm\n"
                           [ArgInt (pwm_get_fan_rpm st)]) st in
  let st := pwm_call_of
              (CallCcprintf "Target: %4d rpm\n"
                 [ArgInt (Z.land (LM4_FAN_FANCMD st FAN_CH_CPU) MAX_RPM
                          * CPU_FAN_SCALE)]) st in
  let st := pwm_call_of (CallCcprintf "Duty:   %d%%\n"
                           [ArgInt (fan_info_duty st)]) st in
  let st := pwm_call_of
              (CallCcprintf "Status: %d\n"
                 [ArgInt (Z.land (Z.shiftr (LM4_FAN_FANSTS st)
                                    (2 * FAN_CH_CPU)) 3)]) st in
  let st := pwm_call_of
              (CallCcprintf "Enable: %s\n"
                 [ArgStr (if truthy (Z.land (LM4_FAN_FANCTL st)
                                       (Z.shiftl 1 FAN_CH_CPU))
                          then "yes" else "no")]) st in
  let st := pwm_call_of
              (CallCcprintf "Power:  %s\n"
                 [ArgStr (if truthy (GPIO_PGOOD_5VALW_level st)
                          then "yes" else "no")]) st in
  (EC_SUCCESS, st).

(** [thermal_toggle_auto_fan_ctrl(0)] where the thermal task is built. *)
Definition disable_thermal_auto_fan (st : lm4) : lm4 :=
  if CONFIG_TASK_THERMAL
  then pwm_call_of (CallThermalToggleAutoFanCtrl 0) st
  else st.

Definition command_fan_set (argv : list string) (st : lm4) : Z * lm4 :=
  if (List.length argv <? 2)%nat then (EC_ERROR_PARAM_COUNT, st)
  else
    let (rpm, e) := strtoi (nth 1 argv EmptyString) in
    if negb (String.eqb e EmptyString) then (EC_ERROR_PARAM1, st)
    else
      (* Move the fan to automatic control *)
      let st :=
        if truthy (Z.land (LM4_FAN_FANCH st FAN_CH_CPU) 1) then
          let st := snd (pwm_enable_fan 0 st) in
          set_FANCH
            (reg_store (LM4_FAN_FANCH st) FAN_CH_CPU
               (Z.land (LM4_FAN_FANCH st FAN_CH_CPU) (Z.lnot 1))) st
        else st in
      (* Always enable the fan *)
      let st := snd (pwm_enable_fan 1 st) in
      (* Disable thermal engine automatic fan control. *)
      let st := disable_thermal_auto_fan st in
      pwm_set_fan_target_rpm rpm st.

Definition pwm_set_fan_duty (percent : Z) (st : lm4) : Z * lm4 :=
  let pwm := Z.quot (MAX_PWM * percent) 100 in
  (* Move the fan to manual control *)
  let st :=
    if negb (truthy (Z.land (LM4_FAN_FANCH st FAN_CH_CPU) 1)) then
      let st := snd (pwm_enable_fan 0 st) in
      set_FANCH
        (reg_store (LM4_FAN_FANCH st) FAN_CH_CPU
           (Z.lor (LM4_FAN_FANCH st FAN_CH_CPU) 1)) st
    else st in
  (* Always enable the fan *)
  let st := snd (pwm_enable_fan 1 st) in
  (* Disable thermal engine automatic fan control. *)
  let st := disable_thermal_auto_fan st in
  (* Set the duty cycle *)
  (EC_SUCCESS,
   set_FANCMD (reg_store (LM4_FAN_FANCMD st) FAN_CH_CPU (Z.shiftl pwm 16)) st).

Definition ec_command_fan_duty (argv : list string) (st : lm4) : Z * lm4 :=
  if (List.length argv <? 2)%nat then (EC_ERROR_PARAM_COUNT, st)
  else
    let (percent, e) := strtoi (nth 1 argv EmptyString) in
    if negb (String.eqb e EmptyString) then (EC_ERROR_PARAM1, st)
    else
      let st := pwm_call_of (CallCcprintf "Setting fan duty cycle to %d%%\n"
                               [ArgInt percent]) st in
      let st := snd (pwm_set_fan_duty percent st) in
      (EC_SUCCESS, st).

Definition command_kblight (argv : list string) (st : lm4) : Z * lm4 :=
  let parsed :=
    if (2 <=? List.length argv)%nat then
      let (i, e) := strtoi (nth 1 argv EmptyString) in
      if negb (String.eqb e EmptyString) then inl EC_ERROR_PARAM1
      else inr (pwm_set_keyboard_backlight i st)
    else inr (EC_SUCCESS, st) in
  match parsed with
  | inl err => (err, st)
  | inr (rv, st) =>
      let st := pwm_call_of
                  (CallCcprintf "Keyboard backlight: %d%%\n"
                     [ArgInt (pwm_get_keyboard_backlight st)]) st in
      (rv, st)
  end.

Definition pwm_init (st : lm4) : Z * lm4 :=
  (* Enable the fan module and delay a few clocks *)
  let st := set_RCGCFAN (u32 1) st in
  (* Configure GPIOs *)
  let st := configure_gpios st in
  (* Disable all fans *)
  let st := set_FANCTL (u32 0) st in
  (* Configure CPU fan: 0x802c *)
  let st := set_FANCH (reg_store (LM4_FAN_FANCH st) FAN_CH_CPU 32812) st in
  (* Configure keyboard backlight: 0x0001 *)
  let st := set_FANCH (reg_store (LM4_FAN_FANCH st) FAN_CH_KBLIGHT 1) st in
  (* Set initial fan speed to maximum, backlight off *)
  let st := snd (pwm_set_fan_target_rpm (-1) st) in
  let st := snd (pwm_set_keyboard_backlight 0 st) in
  (* Enable keyboard backlight.  Fan will be enabled later by whatever
     controls the fan power supply. *)
  let st := set_FANCTL
              (u32 (Z.lor (LM4_FAN_FANCTL st) (Z.shiftl 1 FAN_CH_KBLIGHT)))
              st in
  (EC_SUCCESS, st).

Definition pwm_resume (st : lm4) : Z * lm4 :=
  let st := snd (pwm_enable_fan 1 st) in
  (EC_SUCCESS, st).

Definition pwm_suspend (st : lm4) : Z * lm4 :=
  let st := snd (pwm_enable_fan 0 st) in
  (EC_SUCCESS, st).

End Lm4Pwm.

(** The registers hold 32-bit values, and the two channels are two of the
    fan module's channels. *)
Definition lm4_regs_in_range (st : lm4) : Prop :=
  0 <= LM4_FAN_FANCTL st < 2 ^ 32 /\
  (forall ch : Z, 0 <= LM4_FAN_FANCH st ch < 2 ^ 32) /\
  (forall ch : Z, 0 <= LM4_FAN_FANCMD st ch < 2 ^ 32) /\
  (forall ch : Z, 0 <= LM4_FAN_FANCST st ch < 2 ^ 32).

Definition fan_channels_ok {B : Lm4Board} : Prop :=
  0 <= FAN_CH_CPU < 31 /\ 0 <= FAN_CH_KBLIGHT < 31 /\
  FAN_CH_CPU <> FAN_CH_KBLIGHT.

(** ** Vocabulary of the properties *)

(** The delays with which a trace schedules the deferred [force_shutdown]
    (a negative delay cancels it), in order. *)
Fixpoint deferred_calls (tr : list event) : list Z :=
  match tr with
  | [] => []
  | EvHookCallDeferred d :: tr' => d :: deferred_calls tr'
  | _ :: tr' => deferred_calls tr'
  end.

(** The hooks a trace notifies, in order. *)
Fixpoint hooks_notified (tr : list event) : list hook_type :=
  match tr with
  | [] => []
  | EvHookNotify h :: tr' => h :: hooks_notified tr'
  | _ :: tr' => hooks_notified tr'
  end.

(** The transition a steady state starts when it heads for G3. *)
Definition shutdown_transition (s : power_state) : power_state :=
  match s with
  | POWER_S5 => POWER_S5G3
  | POWER_S3 => POWER_S3S5
  | POWER_S0 => POWER_S0S3
  | other => other
  end.

(** The states on the way up to S0. *)
Definition toward_S0 (s : power_state) : bool :=
  match s with
  | POWER_G3S5 | POWER_S5S3 | POWER_S3S0 | POWER_S0 => true
  | _ => false
  end.

(** A read of the power signals that shows the AP asking to run. *)
Definition resume_read {P : Platform} (e : event) : bool :=
  match e with
  | EvPowerGetSignals v => truthy (Z.land v IN_SUSPEND_DEASSERTED)
  | _ => false
  end.

Definition is_msleep_of (ms : Z) (e : event) : bool :=
  match e with
  | EvMsleep m => m =? ms
  | _ => false
  end.

Definition is_deferred_call (delay_us : Z) (e : event) : bool :=
  match e with
  | EvHookCallDeferred d => d =? delay_us
  | _ => false
  end.

Definition is_button_pressed (e : event) : bool :=
  match e with
  | EvPowerButtonIsPressed r => truthy r
  | _ => false
  end.

Definition is_charger_poll (e : event) : bool :=
  match e with
  | EvChargePreventPowerOn _ _ => true
  | _ => false
  end.

(** Between the worlds [w] and [w'], a read of the power signals showed the
    AP asking to run.  The macro reads the signals only when it finds
    [forcing_shutdown] clear. *)
Definition resume_seen {P : Platform} (w w' : world) : Prop :=
  exists new : list event,
    trace w' = trace w ++ new /\ existsb resume_read new = true.

(** How a run that was aborted ends: [forcing_shutdown] is clear, and the
    last calls are the read of the power signals that showed the AP asking
    to run and the console message; no earlier read showed it. *)
Definition ends_in_abort {P : Platform} (w' : world) (new : list event) : Prop :=
  forcing_shutdown w' = 0 /\
  exists (pre : list event) (v : Z),
    new = pre ++ [EvPowerGetSignals v; EvCprints "suspend aborted" []] /\
    resume_read (EvPowerGetSignals v) = true /\
    existsb resume_read pre = false.

(** The checks [MSLEEP_CHECK_ABORTED_SUSPEND] makes in a delay of [d] ms
    that is not aborted: one after each interval of 5 ms, the last interval
    possibly shorter. *)
Definition delay_checks (d : Z) : nat := Z.to_nat ((d + 4) / 5).

(** The calls the task makes in a run of the steps with the abort check that
    is not aborted, while [forcing_shutdown] is clear: for each step the
    rail write and, for each check of its delay, a sleep and a read of the
    power signals. *)
Fixpoint calls_of_run (ops : list power_seq_op) : nat :=
  match ops with
  | [] => O
  | op :: rest => (1 + 2 * delay_checks (delay op) + calls_of_run rest)%nat
  end.

(** From call [t0] up to call [T] of the task, no other task requests a
    shutdown and the power signals show the AP suspended. *)
Definition suspended_until {P : Platform} (env : environment) (t0 T : nat)
  : Prop :=
  forall t : nat,
    (t0 <= t < T)%nat ->
    shutdown_request_at env t = false /\
    Z.land (power_get_signals_at env t) IN_SUSPEND_DEASSERTED = 0.

(** Every result of the computation is in the list. *)
Definition returns_in {A : Type} (c : M A) (l : list A) : Prop :=
  forall w : world, In (fst (c w)) l.

(** The states [power_handle_state] can resolve a state to. *)
Definition successors (s : power_state) : list power_state :=
  match s with
  | POWER_G3 => [POWER_G3]
  | POWER_S5 => [POWER_S5G3; POWER_S5S3]
  | POWER_S3 => [POWER_S3S5; POWER_S3S0; POWER_S3]
  | POWER_S0 => [POWER_S0S3; POWER_S0]
  | POWER_G3S5 => [POWER_G3; POWER_S5]
  | POWER_S5S3 => [POWER_S3S5; POWER_S3]
  | POWER_S3S0 => [POWER_S3S0; POWER_S0]
  | POWER_S0S3 => [POWER_S3S0; POWER_S3]
  | POWER_S3S5 => [POWER_S5]
  | POWER_S5G3 => [POWER_G3]
  end.

(** [Q] holds of the world whatever is logged, and after a shutdown request
    of another task that the environment makes. *)
Definition quiet_closed (env : environment) (Q : world -> Prop) : Prop :=
  (forall (e : event) (w : world), Q w -> Q (log e w)) /\
  (forall (t : nat) (w : world),
     shutdown_request_at env t = true -> Q w -> Q (set_forcing_shutdown 1 w)).

(** The computation keeps [Q]. *)
Definition stable (Q : world -> Prop) {A : Type} (c : M A) : Prop :=
  forall w : world, Q w -> Q (snd (c w)).

(** Modelled from the spec: the round trip "S0 -> (button long-press) -> S3
    -> S5 -> G3 -> (power-on) -> S5 -> S3 -> S0".  The long press makes the
    deferred [force_shutdown] fire while the machine is in S0; the task loop
    then invokes [power_handle_state] six times; the power-on drives the
    machine from G3 into G3S5 (that code is not part of this file), and the
    loop invokes [power_handle_state] five more times.  The result is the
    list of the states the machine went through and the final world. *)
Definition round_trip {P : Platform} (env : environment) (w : world)
  : list power_state * world :=
  let down := chipset_task env 6 POWER_S0 (snd (force_shutdown w)) in
  let up := chipset_task env 5 POWER_G3S5 (snd down) in
  (fst down ++ POWER_G3S5 :: fst up, snd up).

(** The world after [j] rounds of the charger loop in which the charger
    prevented power-on: each round is a poll and a sleep of
    [CHARGER_INITIALIZED_DELAY_MS]. *)
Fixpoint after_rounds {P : Platform} (env : environment) (j : nat) (w : world)
  : world :=
  match j with
  | O => w
  | S j' =>
      after_rounds env j'
        (snd (msleep env CHARGER_INITIALIZED_DELAY_MS
                (snd (charge_prevent_power_on env 0 w))))
  end.

(** The milliseconds the trace spends in [msleep]. *)
Fixpoint slept (tr : list event) : Z :=
  match tr with
  | [] => 0
  | EvMsleep ms :: tr' => ms + slept tr'
  | _ :: tr' => slept tr'
  end.

Definition is_msleep (e : event) : bool :=
  match e with
  | EvMsleep _ => true
  | _ => false
  end.

(** An [msleep] of the trace lasts more than 0 and at most [hi] ms. *)
Definition msleep_at_most (hi : Z) (e : event) : bool :=
  match e with
  | EvMsleep ms => (0 <? ms) && (ms <=? hi)
  | _ => true
  end.

Definition is_power_on_request (e : event) : bool :=
  match e with
  | EvChipsetExitHardOff => true
  | _ => false
  end.

(** The sum of the delays of a table. *)
Definition total_delay (ops : list power_seq_op) : Z :=
  fold_right (fun op acc => delay op + acc) 0 ops.

(** The same rail at the other level. *)
Definition opposite (wr : gpio_signal * Z) : gpio_signal * Z :=
  (fst wr, 1 - snd wr).

Definition gpio_signal_eq_dec (a b : gpio_signal) : {a = b} + {a <> b}.
Proof. decide equality. Defined.

(** The level a rail is left at by a list of writes: that of the last write
    to it, if there is one. *)
Fixpoint final_level (ws : list (gpio_signal * Z)) (g : gpio_signal)
  : option Z :=
  match ws with
  | [] => None
  | (g', l) :: ws' =>
      match final_level ws' g with
      | Some l' => Some l'
      | None => if gpio_signal_eq_dec g' g then Some l else None
      end
  end.

(** The positions of the four inputs of [IN_ALL_S0] in the power signals. *)
Definition S0_inputs {P : Platform} : list Z :=
  if CONFIG_CHIPSET_POWER_SEQ_VERSION =? 2
  then [PP1250_S3_PWR_GOOD; PP900_S0_PWR_GOOD; AP_PWR_GOOD;
        SUSPEND_DEASSERTED]
  else [PP5000_PWR_GOOD; AP_PWR_GOOD; SYS_PWR_GOOD; SUSPEND_DEASSERTED].

(** ** Environments and worlds used as examples *)

(** Power is good, the charger allows power-on, nobody asks for a shutdown;
    the power signals are [signals]. *)
Definition steady_env (signals : nat -> Z) : environment := {|
  power_get_signals_at := signals;
  power_has_signals_at := fun _ _ => 1;
  power_wait_signals_at := fun _ _ => 0;
  power_wait_signals_timeout_at := fun _ _ _ => 0;
  charge_prevent_power_on_at := fun _ _ => 0;
  charge_want_shutdown_at := fun _ => 0;
  power_button_is_pressed_at := fun _ => 0;
  system_jumped_to_this_image_at := fun _ => 0;
  system_get_reset_flags_at := fun _ => 0;
  in_interrupt_context_at := fun _ => 0;
  lid_is_open_at := fun _ => 0;
  chipset_in_state_at := fun _ _ => 0;
  shutdown_request_at := fun _ => false
|}.

(** The AP asks to run (bit 3, SUSPEND_DEASSERTED on the example boards) at
    the tenth call of the task only. *)
Definition resume_at_9 : environment :=
  steady_env (fun t => if Nat.eqb t 9 then 8 else 0).

(** The power button is held; the AP does not ask to run. *)
Definition held_button_env : environment := {|
  power_get_signals_at := fun _ => 0;
  power_has_signals_at := fun _ _ => 1;
  power_wait_signals_at := fun _ _ => 0;
  power_wait_signals_timeout_at := fun _ _ _ => 0;
  charge_prevent_power_on_at := fun _ _ => 0;
  charge_want_shutdown_at := fun _ => 0;
  power_button_is_pressed_at := fun _ => 1;
  system_jumped_to_this_image_at := fun _ => 0;
  system_get_reset_flags_at := fun _ => 0;
  in_interrupt_context_at := fun _ => 0;
  lid_is_open_at := fun _ => 0;
  chipset_in_state_at := fun _ _ => 0;
  shutdown_request_at := fun _ => false
|}.

(** The power good signals never come: every wait for them times out. *)
Definition pgood_lost_env : environment := {|
  power_get_signals_at := fun _ => 8;
  power_has_signals_at := fun _ _ => 0;
  power_wait_signals_at := fun _ _ => 4;
  power_wait_signals_timeout_at := fun _ _ _ => 4;
  charge_prevent_power_on_at := fun _ _ => 0;
  charge_want_shutdown_at := fun _ => 0;
  power_button_is_pressed_at := fun _ => 0;
  system_jumped_to_this_image_at := fun _ => 0;
  system_get_reset_flags_at := fun _ => 0;
  in_interrupt_context_at := fun _ => 0;
  lid_is_open_at := fun _ => 0;
  chipset_in_state_at := fun _ _ => 0;
  shutdown_request_at := fun _ => false
|}.

(** The charger never allows power-on. *)
Definition no_battery_env : environment := {|
  power_get_signals_at := fun _ => 8;
  power_has_signals_at := fun _ _ => 1;
  power_wait_signals_at := fun _ _ => 0;
  power_wait_signals_timeout_at := fun _ _ _ => 0;
  charge_prevent_power_on_at := fun _ _ => 1;
  charge_want_shutdown_at := fun _ => 0;
  power_button_is_pressed_at := fun _ => 0;
  system_jumped_to_this_image_at := fun _ => 0;
  system_get_reset_flags_at := fun _ => 0;
  in_interrupt_context_at := fun _ => 0;
  lid_is_open_at := fun _ => 0;
  chipset_in_state_at := fun _ _ => 0;
  shutdown_request_at := fun _ => false
|}.

(** The charger prevents power-on at the first poll only, and another task
    requests a shutdown during the sleep that follows it (call 1). *)
Definition late_request_env : environment := {|
  power_get_signals_at := fun _ => 8;
  power_has_signals_at := fun _ _ => 1;
  power_wait_signals_at := fun _ _ => 0;
  power_wait_signals_timeout_at := fun _ _ _ => 0;
  charge_prevent_power_on_at := fun t _ => if Nat.eqb t 0 then 1 else 0;
  charge_want_shutdown_at := fun _ => 0;
  power_button_is_pressed_at := fun _ => 0;
  system_jumped_to_this_image_at := fun _ => 0;
  system_get_reset_flags_at := fun _ => 0;
  in_interrupt_context_at := fun _ => 0;
  lid_is_open_at := fun _ => 0;
  chipset_in_state_at := fun _ _ => 0;
  shutdown_request_at := fun t => Nat.eqb t 1
|}.

(** A warm start (a jump between images) with the AP already running: on
    the version 0 board the four inputs of [IN_ALL_S0] are bits 0 to 3. *)
Definition warm_start_env : environment := {|
  power_get_signals_at := fun _ => 15;
  power_has_signals_at := fun _ _ => 1;
  power_wait_signals_at := fun _ _ => 0;
  power_wait_signals_timeout_at := fun _ _ _ => 0;
  charge_prevent_power_on_at := fun _ _ => 0;
  charge_want_shutdown_at := fun _ => 0;
  power_button_is_pressed_at := fun _ => 0;
  system_jumped_to_this_image_at := fun _ => 1;
  system_get_reset_flags_at := fun _ => 0;
  in_interrupt_context_at := fun _ => 0;
  lid_is_open_at := fun _ => 0;
  chipset_in_state_at := fun _ _ => 0;
  shutdown_request_at := fun _ => false
|}.

(** A [strtoi] for the examples: it reads decimal digits and leaves the
    rest of its input. *)
Fixpoint decimal_strtoi (acc : Z) (s : string) : Z * string :=
  match s with
  | EmptyString => (acc, s)
  | String c rest =>
      let d := Z.of_nat (Ascii.nat_of_ascii c) - 48 in
      if (0 <=? d) && (d <=? 9) then decimal_strtoi (10 * acc + d) rest
      else (acc, s)
  end.

(** The link board: the CPU fan on channel 0, the keyboard backlight on
    channel 1. *)
Definition link_board : Lm4Board := {|
  FAN_CH_CPU := 0;
  FAN_CH_KBLIGHT := 1;
  CONFIG_TASK_THERMAL := true;
  EC_SUCCESS := 0;
  EC_ERROR_PARAM_COUNT := 13;
  EC_ERROR_PARAM1 := 14;
  EC_HOST_EVENT_MASK_THERMAL := 256;
  strtoi := decimal_strtoi 0
|}.

(** The fan module with every register zero. *)
Definition lm4_reset_state : lm4 :=
  mk_lm4 0 0 0 (fun _ => 0) (fun _ => 0) (fun _ => 0) [0; 0; 0; 0] 0 [].

(** The fan module with the fan enabled under automatic control, a target
    of 6000 rpm and a measured speed of 5900 rpm, and the backlight enabled
    and dark. *)
Definition lm4_running_state : lm4 :=
  mk_lm4 1 3 1
    (fun ch => if ch =? 0 then 32812 else 1)
    (fun ch => if ch =? 0 then 3000 else 0)
    (fun ch => if ch =? 0 then 2950 else 0)
    [5900; 65535; 65535; 65535] 1 [].

(** A world in which a shutdown has been requested. *)
Definition shutdown_world : world := mk_world 1 0 O [].

(** ** Properties *)

(** Unfolding of the monad and of the callees, for symbolic execution. *)
Ltac mrun :=
  cbv beta iota zeta delta
    [bind ret emit query while_blocked
     read_forcing_shutdown write_forcing_shutdown
     read_sys_reset_asserted write_sys_reset_asserted
     gpio_set_level hook_notify hook_call_deferred enable_sleep disable_sleep
     task_wake chipset_exit_hard_off print_system_rtc CPRINTS udelay msleep
     usleep power_get_signals power_has_signals power_wait_signals
     power_wait_signals_timeout charge_prevent_power_on charge_want_shutdown
     power_button_is_pressed system_jumped_to_this_image
     system_get_reset_flags in_interrupt_context lid_is_open chipset_in_state
     log set_forcing_shutdown set_sys_reset_asserted];
  cbn [fst snd forcing_shutdown sys_reset_asserted now trace].

Lemma truthy_true_iff (v : Z) : truthy v = true <-> v <> 0.
Proof.
  unfold truthy. destruct (Z.eqb_spec v 0); simpl; split; congruence.
Qed.

Lemma truthy_false_iff (v : Z) : truthy v = false <-> v = 0.
Proof.
  unfold truthy. destruct (Z.eqb_spec v 0); simpl; split; congruence.
Qed.

Section Properties.

Context {P : Platform} (env : environment).

(** *** Steady states under a forced shutdown *)

Lemma steady_state_forced :
  forall (s : power_state) (w : world),
    In s [POWER_S5; POWER_S3; POWER_S0] ->
    forcing_shutdown w <> 0 ->
    fst (power_handle_state env s w) = shutdown_transition s.
Proof.
  intros s w Hs Hfs.
  apply truthy_true_iff in Hfs.
  destruct w as [fs sra t tr]; simpl in Hfs.
  simpl in Hs.
  destruct Hs as [<- | [<- | [<- | []]]];
    unfold power_handle_state, S0_exit_condition; mrun;
    rewrite Hfs, ?orb_true_r; reflexivity.
Qed.

(** C1. From each of the steady states S5, S3 and S0, with [forcing_shutdown]
    set, [power_handle_state] returns the transition that heads for G3
    (S5G3, S3S5, S0S3 respectively), which is not a state on the way to S0. *)
Theorem forced_shutdown_heads_for_G3 :
  forall (s : power_state) (w : world),
    In s [POWER_S5; POWER_S3; POWER_S0] ->
    forcing_shutdown w <> 0 ->
    fst (power_handle_state env s w) = shutdown_transition s /\
    toward_S0 (fst (power_handle_state env s w)) = false.
Proof.
  intros s w Hs Hfs.
  rewrite (steady_state_forced s w Hs Hfs). split; [reflexivity |].
  simpl in Hs. destruct Hs as [<- | [<- | [<- | []]]]; reflexivity.
Qed.

(** *** The abort-checking sleep *)

Lemma bind_congr {A B : Type} (c : M A) (k1 k2 : A -> M B) (w : world) :
  (forall (a : A) (w' : world), k1 a w' = k2 a w') ->
  bind c k1 w = bind c k2 w.
Proof.
  intros H. unfold bind. destruct (c w) as [a w']. apply H.
Qed.

Lemma gpio_writes_app (a b : list event) :
  gpio_writes (a ++ b) = gpio_writes a ++ gpio_writes b.
Proof.
  induction a as [| e a IH]; simpl; [reflexivity |].
  destruct e; simpl; rewrite IH; reflexivity.
Qed.

(** More fuel than [msleep_intervals] changes nothing: the do-while loop of
    the macro ends by its own test. *)
Lemma msleep_check_loop_fuel :
  forall (fuel : nat) (rem : Z) (w : world),
    (msleep_intervals rem <= fuel)%nat ->
    msleep_check_loop env fuel rem w =
    msleep_check_loop env (msleep_intervals rem) rem w.
Proof.
  induction fuel as [| fuel IH]; intros rem w Hle.
  - unfold msleep_intervals in Hle. lia.
  - unfold msleep_intervals at 1. cbn [msleep_check_loop].
    apply bind_congr; intros _ w1.
    apply bind_congr; intros fs w2.
    apply bind_congr; intros resume w3.
    destruct resume; [reflexivity |].
    destruct (rem - SLEEP_INTERVAL_MS >? 0) eqn:Hgt; [| reflexivity].
    assert (Hn : msleep_intervals (rem - SLEEP_INTERVAL_MS) =
                 Z.to_nat (rem / SLEEP_INTERVAL_MS)).
    { unfold msleep_intervals, SLEEP_INTERVAL_MS in *.
      apply Z.gtb_lt in Hgt.
      replace (rem - 5) with (rem + (-1) * 5) by lia.
      rewrite Z.div_add by lia.
      assert (1 <= rem / 5) by (apply Z.div_le_lower_bound; lia).
      lia. }
    rewrite <- Hn. apply IH.
    unfold msleep_intervals in Hle |- *. unfold msleep_intervals in Hn. lia.
Qed.

(** The macro, as its loop reads. *)
Lemma MSLEEP_CHECK_ABORTED_SUSPEND_eq (msec : Z) (w : world) :
  MSLEEP_CHECK_ABORTED_SUSPEND env msec w =
  (msleep env (Z.min msec SLEEP_INTERVAL_MS) ;;
   fs <- read_forcing_shutdown ;;
   resume <- (if negb (truthy fs) then
                signals <- power_get_signals env ;;
                ret (truthy (Z.land signals IN_SUSPEND_DEASSERTED))
              else ret false) ;;
   if resume then
     CPRINTS "suspend aborted" [] ;;
     ret true
   else if msec - SLEEP_INTERVAL_MS >? 0
        then MSLEEP_CHECK_ABORTED_SUSPEND env (msec - SLEEP_INTERVAL_MS)
        else ret false) w.
Proof.
  unfold MSLEEP_CHECK_ABORTED_SUSPEND at 1.
  unfold msleep_intervals. cbn [msleep_check_loop].
  apply bind_congr; intros _ w1.
  apply bind_congr; intros fs w2.
  apply bind_congr; intros resume w3.
  destruct resume; [reflexivity |].
  destruct (msec - SLEEP_INTERVAL_MS >? 0) eqn:Hgt; [| reflexivity].
  unfold MSLEEP_CHECK_ABORTED_SUSPEND.
  apply msleep_check_loop_fuel.
  unfold msleep_intervals, SLEEP_INTERVAL_MS in *.
  apply Z.gtb_lt in Hgt.
  replace (msec - 5) with (msec + (-1) * 5) by lia.
  rewrite Z.div_add by lia.
  assert (1 <= msec / 5) by (apply Z.div_le_lower_bound; lia).
  lia.
Qed.

Lemma ends_in_abort_extend (w' : world) (pre new : list event) :
  existsb resume_read pre = false ->
  ends_in_abort w' new -> ends_in_abort w' (pre ++ new).
Proof.
  intros Hpre [Hfs (pre' & v & -> & Hv & Hq)].
  split; [exact Hfs |].
  exists (pre ++ pre'), v. rewrite app_assoc. split; [reflexivity |].
  split; [exact Hv |]. rewrite existsb_app, Hpre, Hq. reflexivity.
Qed.

Lemma ends_in_abort_resume (w' : world) (new : list event) :
  ends_in_abort w' new -> existsb resume_read new = true.
Proof.
  intros [_ (pre & v & -> & Hv & _)].
  rewrite existsb_app. cbn [existsb]. rewrite Hv. cbn [orb].
  apply orb_true_r.
Qed.

(** The loop of the macro: it writes no rail and leaves [sys_reset_asserted]
    alone; it answers false only if no read showed the AP asking to run, and
    true only at such a read, made with [forcing_shutdown] clear. *)
Lemma msleep_check_loop_spec :
  forall (fuel : nat) (rem : Z) (w : world),
    exists new : list event,
      trace (snd (msleep_check_loop env fuel rem w)) = trace w ++ new /\
      gpio_writes new = [] /\
      sys_reset_asserted (snd (msleep_check_loop env fuel rem w)) =
        sys_reset_asserted w /\
      (fst (msleep_check_loop env fuel rem w) = false ->
       existsb resume_read new = false) /\
      (fst (msleep_check_loop env fuel rem w) = true ->
       ends_in_abort (snd (msleep_check_loop env fuel rem w)) new).
Proof.
  induction fuel as [| fuel IH]; intros rem w.
  - exists []. cbn. rewrite app_nil_r.
    refine (conj eq_refl (conj eq_refl (conj eq_refl (conj _ _))));
      [reflexivity | discriminate].
  - cbn [msleep_check_loop]. destruct w as [fs sra t tr]. mrun.
    set (fs1 := if shutdown_request_at env t then 1 else fs).
    set (sl := EvMsleep (Z.min rem SLEEP_INTERVAL_MS)).
    replace (if shutdown_request_at env t
             then mk_world 1 sra (S t) (tr ++ [sl])
             else mk_world fs sra (S t) (tr ++ [sl]))
      with (mk_world fs1 sra (S t) (tr ++ [sl]))
      by (unfold fs1; destruct (shutdown_request_at env t); reflexivity).
    mrun.
    destruct (truthy fs1) eqn:Hfs1; cbn [negb]; mrun.
    + (* a shutdown is being forced: no read *)
      destruct (rem - SLEEP_INTERVAL_MS >? 0).
      * destruct (IH (rem - SLEEP_INTERVAL_MS)
                    (mk_world fs1 sra (S t) (tr ++ [sl])))
          as (new & Htr & Hgw & Hsra & Hf & Ht).
        exists (sl :: new). cbn [trace sys_reset_asserted] in Htr, Hsra.
        split; [rewrite Htr, <- app_assoc; reflexivity |].
        refine (conj Hgw (conj Hsra (conj _ _))).
        -- intros Hb. cbn [existsb resume_read sl]. rewrite (Hf Hb).
           reflexivity.
        -- intros Hb. apply (ends_in_abort_extend _ [sl] new);
             [reflexivity | exact (Ht Hb)].
      * exists [sl]. cbn [fst snd trace sys_reset_asserted].
        refine (conj eq_refl (conj eq_refl (conj eq_refl (conj _ _))));
          [reflexivity | discriminate].
    + apply truthy_false_iff in Hfs1.
      set (v := power_get_signals_at env (S t)).
      destruct (truthy (Z.land v IN_SUSPEND_DEASSERTED)) eqn:Hv.
      * (* the AP asks to run *)
        exists [sl; EvPowerGetSignals v; EvCprints "suspend aborted" []].
        cbn [fst snd trace sys_reset_asserted forcing_shutdown].
        split; [rewrite <- !app_assoc; reflexivity |].
        refine (conj eq_refl (conj eq_refl (conj _ _))); [discriminate |].
        intros _. split; [exact Hfs1 |].
        exists [sl], v. split; [reflexivity |]. split; [exact Hv | reflexivity].
      * destruct (rem - SLEEP_INTERVAL_MS >? 0).
        -- destruct (IH (rem - SLEEP_INTERVAL_MS)
                       (mk_world fs1 sra (S (S t))
                          ((tr ++ [sl]) ++ [EvPowerGetSignals v])))
             as (new & Htr & Hgw & Hsra & Hf & Ht).
           exists (sl :: EvPowerGetSignals v :: new).
           cbn [trace sys_reset_asserted] in Htr, Hsra.
           split; [rewrite Htr, <- !app_assoc; reflexivity |].
           refine (conj Hgw (conj Hsra (conj _ _))).
           ++ intros Hb. cbn [existsb resume_read sl]. rewrite Hv, (Hf Hb).
              reflexivity.
           ++ intros Hb.
              apply (ends_in_abort_extend _ [sl; EvPowerGetSignals v] new);
                [| exact (Ht Hb)].
              cbn [existsb resume_read sl]. rewrite Hv. reflexivity.
        -- exists [sl; EvPowerGetSignals v].
           cbn [fst snd trace sys_reset_asserted].
           split; [rewrite <- !app_assoc; reflexivity |].
           refine (conj eq_refl (conj eq_refl (conj _ _))); [| discriminate].
           intros _. cbn [existsb resume_read sl]. rewrite Hv. reflexivity.
Qed.

(** *** The tables *)

(** The levels and delays of the tables fit their eight bits. *)
Lemma tables_in_range (a : seq_addr) : Forall op_in_range (seq_at a).
Proof.
  destruct a; cbn [seq_at];
    unfold s5s3_power_seq, s3s0_power_seq, s0s3_power_seq, s3s5_power_seq;
    destruct (CONFIG_CHIPSET_POWER_SEQ_VERSION =? 2);
    try destruct (CONFIG_CHIPSET_POWER_SEQ_VERSION =? 0);
    cbn [app]; repeat constructor; cbn; lia.
Qed.

(** *** The sequence executor *)

(** One turn of the loop of [power_seq_run]. *)
Lemma power_seq_run_ops_cons
  (check_abort : bool) (op : power_seq_op) (rest : list power_seq_op)
  (w : world) :
  power_seq_run_ops env check_abort (op :: rest) w =
  let w1 := log (EvGpioSetLevel (signal op) (level op)) w in
  if negb (truthy (delay op)) then power_seq_run_ops env check_abort rest w1
  else if check_abort then
    if fst (MSLEEP_CHECK_ABORTED_SUSPEND env (delay op) w1)
    then (power_state_value POWER_S3S0,
          snd (MSLEEP_CHECK_ABORTED_SUSPEND env (delay op) w1))
    else power_seq_run_ops env check_abort rest
           (snd (MSLEEP_CHECK_ABORTED_SUSPEND env (delay op) w1))
  else power_seq_run_ops env check_abort rest (snd (msleep env (delay op) w1)).
Proof.
  cbn [power_seq_run_ops]. unfold bind at 1, gpio_set_level, emit.
  cbv zeta.
  destruct (negb (truthy (delay op))); [reflexivity |].
  destruct check_abort; unfold bind.
  - destruct (MSLEEP_CHECK_ABORTED_SUSPEND env (delay op) _) as [[] w2];
      reflexivity.
  - destruct (msleep env (delay op) _) as [[] w2]. reflexivity.
Qed.

(** What a run of the executor adds to the trace.  A run that returns 0 has
    written the whole table, in order, and no read showed the AP asking to
    run; a run that returns non-zero is a run of the S0S3 table that returns
    [POWER_S3S0], ends in the abort, and has written the steps up to the one
    whose delay it was in. *)
Lemma power_seq_run_ops_spec :
  forall (check_abort : bool) (ops : list power_seq_op) (w : world),
    exists new : list event,
      trace (snd (power_seq_run_ops env check_abort ops w)) = trace w ++ new /\
      sys_reset_asserted (snd (power_seq_run_ops env check_abort ops w)) =
        sys_reset_asserted w /\
      (fst (power_seq_run_ops env check_abort ops w) = 0 ->
       gpio_writes new = map op_write ops /\
       existsb resume_read new = false) /\
      (fst (power_seq_run_ops env check_abort ops w) <> 0 ->
       check_abort = true /\
       fst (power_seq_run_ops env check_abort ops w) =
         power_state_value POWER_S3S0 /\
       ends_in_abort (snd (power_seq_run_ops env check_abort ops w)) new /\
       exists k : nat,
         (k < List.length ops)%nat /\
         gpio_writes new = map op_write (firstn (S k) ops)).
Proof.
  intros check_abort ops. induction ops as [| op rest IH]; intros w.
  - exists []. cbn. rewrite app_nil_r.
    refine (conj eq_refl (conj eq_refl (conj _ _))); [auto | congruence].
  - rewrite power_seq_run_ops_cons. cbv zeta.
    set (wr := EvGpioSetLevel (signal op) (level op)).
    assert (Hwr : trace (log wr w) = trace w ++ [wr]) by reflexivity.
    assert (Hstep : forall w2 pre,
               trace w2 = trace (log wr w) ++ pre ->
               sys_reset_asserted w2 = sys_reset_asserted w ->
               gpio_writes pre = [] ->
               existsb resume_read pre = false ->
               exists new : list event,
                 trace (snd (power_seq_run_ops env check_abort rest w2)) =
                   trace w ++ new /\
                 sys_reset_asserted
                   (snd (power_seq_run_ops env check_abort rest w2)) =
                   sys_reset_asserted w /\
                 (fst (power_seq_run_ops env check_abort rest w2) = 0 ->
                  gpio_writes new = map op_write (op :: rest) /\
                  existsb resume_read new = false) /\
                 (fst (power_seq_run_ops env check_abort rest w2) <> 0 ->
                  check_abort = true /\
                  fst (power_seq_run_ops env check_abort rest w2) =
                    power_state_value POWER_S3S0 /\
                  ends_in_abort
                    (snd (power_seq_run_ops env check_abort rest w2)) new /\
                  exists k : nat,
                    (k < List.length (op :: rest))%nat /\
                    gpio_writes new = map op_write (firstn (S k) (op :: rest)))).
    { intros w2 pre Htr Hsra Hgw Hrr.
      destruct (IH w2) as (new & Htr' & Hsra' & Hok & Hab).
      exists (wr :: pre ++ new).
      split; [rewrite Htr', Htr, Hwr, <- !app_assoc; reflexivity |].
      split; [congruence |].
      assert (Hg : gpio_writes (wr :: pre ++ new) =
                   op_write op :: gpio_writes new).
      { cbn [gpio_writes wr]. rewrite gpio_writes_app, Hgw. reflexivity. }
      assert (He : existsb resume_read (wr :: pre ++ new) =
                   existsb resume_read new).
      { cbn [existsb resume_read wr]. rewrite existsb_app, Hrr. reflexivity. }
      split.
      - intros H0. destruct (Hok H0) as [Hm Hq].
        rewrite Hg, He, Hm. split; [reflexivity | exact Hq].
      - intros Hn. destruct (Hab Hn) as (Hc & Hr & He' & k & Hk & Hm).
        refine (conj Hc (conj Hr (conj _ _))).
        + apply (ends_in_abort_extend _ (wr :: pre) new); [| exact He'].
          cbn [existsb resume_read wr]. exact Hrr.
        + exists (S k). split; [cbn [List.length]; lia |].
          rewrite Hg, Hm. reflexivity. }
    destruct (truthy (delay op)) eqn:Hd; cbn [negb].
    + destruct check_abort.
      * (* the S0S3 table: the abort-checking sleep *)
        destruct (msleep_check_loop_spec (msleep_intervals (delay op))
                    (delay op) (log wr w))
          as (pre & Htr & Hgw & Hsra & Hf & Ht).
        fold (MSLEEP_CHECK_ABORTED_SUSPEND env (delay op)) in Htr, Hsra, Hf, Ht.
        destruct (MSLEEP_CHECK_ABORTED_SUSPEND env (delay op) (log wr w))
          as [aborted w2].
        cbn [fst snd] in *.
        destruct aborted.
        -- exists (wr :: pre). cbn [fst snd].
           split; [rewrite Htr, Hwr, <- app_assoc; reflexivity |].
           split; [exact Hsra |].
           split; [intros H0; exfalso; exact (POWER_S3S0_nonzero H0) |].
           intros _. refine (conj eq_refl (conj eq_refl (conj _ _))).
           ++ apply (ends_in_abort_extend _ [wr] pre); [reflexivity | auto].
           ++ exists O. split; [cbn [List.length]; lia |].
              cbn [gpio_writes wr firstn map]. rewrite Hgw. reflexivity.
        -- apply (Hstep w2 pre); auto.
      * apply (Hstep _ [EvMsleep (delay op)]); try reflexivity;
          unfold msleep, while_blocked, emit; cbn [fst snd];
          destruct (shutdown_request_at env (now (log wr w))); reflexivity.
    + apply (Hstep (log wr w) []); try reflexivity.
      rewrite app_nil_r. reflexivity.
Qed.

(** A table that is not the S0S3 table always runs to its end. *)
Lemma power_seq_run_ops_plain_completes :
  forall (ops : list power_seq_op) (w : world),
    fst (power_seq_run_ops env false ops w) = 0.
Proof.
  intros ops w.
  destruct (Z.eq_dec (fst (power_seq_run_ops env false ops w)) 0) as [E | N];
    [exact E |].
  destruct (power_seq_run_ops_spec false ops w) as (new & _ & _ & _ & Hab).
  destruct (Hab N) as [Hc _]. discriminate.
Qed.

(** [power_seq_run] on a whole table is the executor on its steps. *)
Lemma power_seq_run_whole_table (a : seq_addr) (w : world) :
  power_seq_run env a (ARRAY_SIZE a) w =
  power_seq_run_ops env (seq_addr_eqb a addr_s0s3_power_seq) (seq_at a) w.
Proof.
  unfold power_seq_run, ARRAY_SIZE. rewrite firstn_all. reflexivity.
Qed.

(** C3. A completed run of the sequence executor (one that returns 0) has
    made the rail writes of the table, each once, in the order of the table,
    whatever the delays.  This holds of [power_seq_run] on each table of the
    file and each count of steps [op_count] (the first [op_count] steps are
    written; with [ARRAY_SIZE], as [power_handle_state] calls it, the whole
    table), and of its loop on any list of steps, with or without the abort
    check; a run on a table other than the S0S3 table, and a run of the
    loop without the abort check, always completes. *)
Theorem sequence_order_preserved :
  forall (a : seq_addr) (op_count : nat) (check_abort : bool)
         (ops : list power_seq_op) (w : world),
    (a <> addr_s0s3_power_seq -> fst (power_seq_run env a op_count w) = 0) /\
    (fst (power_seq_run env a op_count w) = 0 ->
     gpio_writes (trace (snd (power_seq_run env a op_count w))) =
     gpio_writes (trace w) ++ map op_write (firstn op_count (seq_at a))) /\
    (fst (power_seq_run env a (ARRAY_SIZE a) w) = 0 ->
     gpio_writes (trace (snd (power_seq_run env a (ARRAY_SIZE a) w))) =
     gpio_writes (trace w) ++ map op_write (seq_at a)) /\
    (check_abort = false ->
     fst (power_seq_run_ops env check_abort ops w) = 0) /\
    (fst (power_seq_run_ops env check_abort ops w) = 0 ->
     gpio_writes (trace (snd (power_seq_run_ops env check_abort ops w))) =
     gpio_writes (trace w) ++ map op_write ops).
Proof.
  intros a op_count check_abort ops w.
  assert (Hloop : forall (c : bool) (l : list power_seq_op),
             fst (power_seq_run_ops env c l w) = 0 ->
             gpio_writes (trace (snd (power_seq_run_ops env c l w))) =
             gpio_writes (trace w) ++ map op_write l).
  { intros c l H0.
    destruct (power_seq_run_ops_spec c l w) as (new & Htr & _ & Hok & _).
    destruct (Hok H0) as [Hm _].
    rewrite Htr, gpio_writes_app, Hm. reflexivity. }
  split; [| split; [| split; [| split]]].
  - intros Ha. unfold power_seq_run.
    replace (seq_addr_eqb a addr_s0s3_power_seq) with false
      by (destruct a; try reflexivity; contradiction).
    apply power_seq_run_ops_plain_completes.
  - unfold power_seq_run. apply Hloop.
  - rewrite power_seq_run_whole_table. apply Hloop.
  - intros ->. apply power_seq_run_ops_plain_completes.
  - apply Hloop.
Qed.

(** *** Suspend abort *)

(** Steps that ran without an abort are followed by the remaining ones. *)
Lemma power_seq_run_ops_app :
  forall (check_abort : bool) (pre post : list power_seq_op) (w : world),
    fst (power_seq_run_ops env check_abort pre w) = 0 ->
    power_seq_run_ops env check_abort (pre ++ post) w =
    power_seq_run_ops env check_abort post
      (snd (power_seq_run_ops env check_abort pre w)).
Proof.
  intros check_abort pre post. induction pre as [| op pre IH]; intros w H0.
  - reflexivity.
  - rewrite <- app_comm_cons. rewrite power_seq_run_ops_cons in H0 |- *.
    rewrite (power_seq_run_ops_cons check_abort op pre).
    cbv zeta in *.
    destruct (negb (truthy (delay op))); [apply IH; exact H0 |].
    destruct check_abort; [| apply IH; exact H0].
    destruct (fst (MSLEEP_CHECK_ABORTED_SUSPEND env (delay op) _)).
    + cbn [fst] in H0. exfalso. exact (POWER_S3S0_nonzero H0).
    + apply IH. exact H0.
Qed.

(** The S0S3 case of [power_handle_state], step by step. *)
Lemma power_handle_state_S0S3_eq (w : world) :
  power_handle_state env POWER_S0S3 w =
  let w1 := log (EvHookNotify HOOK_CHIPSET_SUSPEND) w in
  let m := MSLEEP_CHECK_ABORTED_SUSPEND env 20 w1 in
  if fst m then (POWER_S3S0, snd m)
  else
    let r := power_seq_run_ops env true s0s3_power_seq (snd m) in
    if truthy (fst r) then (POWER_S3S0, snd r)
    else
      let w3 := log EvEnableSleep (snd r) in
      let pressed := power_button_is_pressed_at env (now w3) in
      let w4 := log (EvPowerButtonIsPressed pressed) w3 in
      (POWER_S3,
       if truthy pressed
       then log (EvHookCallDeferred (-1)) (set_forcing_shutdown 1 w4)
       else w4).
Proof.
  unfold power_handle_state.
  unfold bind at 1, hook_notify, emit. cbv zeta.
  unfold bind at 1.
  destruct (MSLEEP_CHECK_ABORTED_SUSPEND env 20 _) as [aborted w2].
  cbn [fst snd]. destruct aborted; [reflexivity |].
  unfold bind at 1. rewrite power_seq_run_whole_table.
  cbn [seq_addr_eqb seq_at].
  destruct (power_seq_run_ops env true s0s3_power_seq w2) as [rv w3].
  cbn [fst snd]. destruct (truthy rv); [reflexivity |].
  unfold enable_sleep, power_button_is_pressed, hook_call_deferred,
    write_forcing_shutdown, query, emit, bind, ret.
  destruct (truthy (power_button_is_pressed_at env (now (log EvEnableSleep w3))));
    reflexivity.
Qed.

(** The S0S3 case resolves to S3S0 exactly when one of its checks, in the
    first 20 ms window or in the delay of a step, read the AP asking to
    run. *)
Lemma power_handle_state_S0S3_abort_iff (w : world) :
  resume_seen w (snd (power_handle_state env POWER_S0S3 w)) <->
  fst (power_handle_state env POWER_S0S3 w) = POWER_S3S0.
Proof.
  rewrite power_handle_state_S0S3_eq. cbv zeta.
  set (hook := EvHookNotify HOOK_CHIPSET_SUSPEND).
  destruct (msleep_check_loop_spec (msleep_intervals 20) 20 (log hook w))
    as (nm & Hm & _ & _ & Hmf & Hmt).
  fold (MSLEEP_CHECK_ABORTED_SUSPEND env 20) in Hm, Hmf, Hmt.
  set (m := MSLEEP_CHECK_ABORTED_SUSPEND env 20 (log hook w)) in *.
  assert (Hm' : trace (snd m) = trace w ++ hook :: nm).
  { rewrite Hm. cbn [trace log]. rewrite <- app_assoc. reflexivity. }
  destruct (fst m) eqn:Em; cbn [fst snd].
  - split; [reflexivity | intros _].
    exists (hook :: nm). split; [exact Hm' |].
    cbn [existsb resume_read hook].
    exact (ends_in_abort_resume _ _ (Hmt eq_refl)).
  - destruct (power_seq_run_ops_spec true s0s3_power_seq (snd m))
      as (nr & Hr & _ & Hok & Hab).
    set (r := power_seq_run_ops env true s0s3_power_seq (snd m)) in *.
    assert (Hr' : trace (snd r) = trace w ++ hook :: nm ++ nr).
    { rewrite Hr, Hm', <- app_assoc. reflexivity. }
    assert (Hq : existsb resume_read (hook :: nm) = false).
    { cbn [existsb resume_read hook]. exact (Hmf eq_refl). }
    destruct (truthy (fst r)) eqn:Er; cbn [fst snd].
    + split; [reflexivity | intros _].
      apply truthy_true_iff in Er. destruct (Hab Er) as (_ & _ & He & _).
      exists (hook :: nm ++ nr). split; [exact Hr' |].
      change (hook :: nm ++ nr) with ((hook :: nm) ++ nr).
      rewrite existsb_app, Hq. exact (ends_in_abort_resume _ _ He).
    + split; [| discriminate].
      intros (new & Hn & He). exfalso.
      apply truthy_false_iff in Er. destruct (Hok Er) as [_ Hnr].
      set (pressed := power_button_is_pressed_at env _) in *.
      assert (Hfin : exists tail,
                 trace (if truthy pressed
                        then log (EvHookCallDeferred (-1))
                               (set_forcing_shutdown 1
                                  (log (EvPowerButtonIsPressed pressed)
                                     (log EvEnableSleep (snd r))))
                        else log (EvPowerButtonIsPressed pressed)
                               (log EvEnableSleep (snd r))) =
                 trace w ++ (hook :: nm ++ nr) ++ tail /\
                 existsb resume_read tail = false).
      { destruct (truthy pressed);
          cbn [trace log set_forcing_shutdown]; rewrite Hr'.
        - exists [EvEnableSleep; EvPowerButtonIsPressed pressed;
                  EvHookCallDeferred (-1)].
          rewrite <- !app_assoc. split; reflexivity.
        - exists [EvEnableSleep; EvPowerButtonIsPressed pressed].
          rewrite <- !app_assoc. split; reflexivity. }
      destruct Hfin as (tail & Ht & Hqt).
      rewrite Ht in Hn. apply app_inv_head in Hn. subst new.
      change (hook :: nm ++ nr) with ((hook :: nm) ++ nr) in He.
      rewrite !existsb_app, Hq, Hnr, Hqt in He. discriminate.
Qed.

(** Take any split [pre ++ op :: post] of a table run with the abort
    check.  If the steps of [pre] ran without an abort and, during the delay
    after [op], a check read the power signals and saw the AP asking to run,
    then the executor returns [POWER_S3S0], which is non-zero; it stops in
    the world of that check, where [forcing_shutdown] is clear and the last
    calls are the read and the console message; the rail writes made are
    those of [pre] and [op], and none of [post]. *)
Lemma suspend_abort_when_seen :
  forall (pre post : list power_seq_op) (op : power_seq_op) (w : world),
    let w1 := snd (power_seq_run_ops env true pre w) in
    let wd := log (EvGpioSetLevel (signal op) (level op)) w1 in
    let w2 := snd (MSLEEP_CHECK_ABORTED_SUSPEND env (delay op) wd) in
    let res := power_seq_run_ops env true (pre ++ op :: post) w in
    fst (power_seq_run_ops env true pre w) = 0 ->
    truthy (delay op) = true ->
    resume_seen wd w2 ->
    (fst res = power_state_value POWER_S3S0 /\ truthy (fst res) = true) /\
    snd res = w2 /\
    (forcing_shutdown w2 = 0 /\
     exists (before : list event) (v : Z),
       trace w2 =
         trace w ++ before ++
           [EvPowerGetSignals v; EvCprints "suspend aborted" []] /\
       resume_read (EvPowerGetSignals v) = true) /\
    (gpio_writes (trace (snd res)) =
       gpio_writes (trace w) ++ map op_write (pre ++ [op]) /\
     List.length (map op_write (pre ++ [op])) = S (List.length pre)) /\
    (forall w0 : world,
       let m := MSLEEP_CHECK_ABORTED_SUSPEND env 20
                  (log (EvHookNotify HOOK_CHIPSET_SUSPEND) w0) in
       fst m = false -> snd m = w ->
       pre ++ op :: post = s0s3_power_seq ->
       power_handle_state env POWER_S0S3 w0 = (POWER_S3S0, w2)).
Proof.
  intros pre post op w w1 wd w2 res Hpre Hd Hseen.
  (* the check during the delay of [op] *)
  assert (Hm : fst (MSLEEP_CHECK_ABORTED_SUSPEND env (delay op) wd) = true).
  { destruct (msleep_check_loop_spec (msleep_intervals (delay op))
                (delay op) wd) as (new & Htr & _ & _ & Hf & _).
    fold (MSLEEP_CHECK_ABORTED_SUSPEND env (delay op)) in Htr, Hf.
    destruct (fst (MSLEEP_CHECK_ABORTED_SUSPEND env (delay op) wd));
      [reflexivity |].
    destruct Hseen as (new' & Htr' & Hr). unfold w2 in Htr'.
    rewrite Htr in Htr'. apply app_inv_head in Htr'. subst new'.
    rewrite (Hf eq_refl) in Hr. discriminate. }
  assert (Hres : res = (power_state_value POWER_S3S0, w2)).
  { unfold res. rewrite (power_seq_run_ops_app true pre (op :: post) w Hpre).
    rewrite power_seq_run_ops_cons. cbv zeta. rewrite Hd. cbn [negb].
    fold w1. fold wd. rewrite Hm. reflexivity. }
  destruct (msleep_check_loop_spec (msleep_intervals (delay op))
              (delay op) wd) as (new & Htr & Hgw & _ & _ & Hab).
  fold (MSLEEP_CHECK_ABORTED_SUSPEND env (delay op)) in Htr, Hab.
  fold w2 in Htr, Hab.
  destruct (Hab Hm) as [Hfs (before & v & Hnew & Hv & _)].
  destruct (power_seq_run_ops_spec true pre w) as (npre & Hpt & _ & Hok & _).
  fold w1 in Hpt. destruct (Hok Hpre) as [Hpw _].
  assert (Hwd : trace wd =
                trace w ++ npre ++ [EvGpioSetLevel (signal op) (level op)]).
  { unfold wd. cbn [log trace]. rewrite Hpt, <- app_assoc. reflexivity. }
  rewrite Hres. cbn [fst snd].
  split; [split; [reflexivity |] |].
  { apply truthy_true_iff. exact POWER_S3S0_nonzero. }
  split; [reflexivity |].
  split.
  { split; [exact Hfs |].
    exists ((npre ++ [EvGpioSetLevel (signal op) (level op)]) ++ before), v.
    split; [| exact Hv].
    rewrite Htr, Hwd, Hnew, <- !app_assoc. reflexivity. }
  split.
  { split.
    - rewrite Htr, Hwd, !gpio_writes_app, Hgw, Hpw, app_nil_r, map_app.
      reflexivity.
    - rewrite length_map, length_app. cbn [List.length]. lia. }
  intros w0. cbv zeta. intros Hm0 Hw Htab.
  rewrite power_handle_state_S0S3_eq. cbv zeta. rewrite Hm0, Hw.
  rewrite <- Htab. fold res. rewrite Hres. cbn [fst snd].
  assert (Ht : truthy (power_state_value POWER_S3S0) = true)
    by (apply truthy_true_iff; exact POWER_S3S0_nonzero).
  rewrite Ht. reflexivity.
Qed.

(** *** Suspend abort, from what the environment does *)

Lemma delay_checks_step (msec : Z) :
  0 < msec ->
  ((msec - SLEEP_INTERVAL_MS >? 0) = true ->
   delay_checks msec = S (delay_checks (msec - SLEEP_INTERVAL_MS)) /\
   0 < msec - SLEEP_INTERVAL_MS) /\
  ((msec - SLEEP_INTERVAL_MS >? 0) = false -> delay_checks msec = 1%nat).
Proof.
  intros Hpos. unfold delay_checks, SLEEP_INTERVAL_MS. split; intros H.
  - apply Z.gtb_lt in H. split; [| lia].
    replace (msec + 4) with (msec - 5 + 4 + 1 * 5) by lia.
    rewrite Z.div_add by lia.
    assert (0 <= (msec - 5 + 4) / 5) by (apply Z.div_pos; lia).
    lia.
  - assert (msec <= 5)
      by (destruct (Z.gtb_spec (msec - 5) 0); [discriminate | lia]).
    assert (E : (msec + 4) / 5 = 1)
      by (symmetry; apply (Z.div_unique (msec + 4) 5 1 (msec - 1)); lia).
    rewrite E. reflexivity.
Qed.

(** One interval of the macro in which no shutdown is requested and the AP
    stays suspended. *)
Lemma MSLEEP_CHECK_ABORTED_SUSPEND_quiet_step (msec : Z) (w : world) :
  forcing_shutdown w = 0 ->
  shutdown_request_at env (now w) = false ->
  Z.land (power_get_signals_at env (S (now w))) IN_SUSPEND_DEASSERTED = 0 ->
  let w2 := log (EvPowerGetSignals (power_get_signals_at env (S (now w))))
              (log (EvMsleep (Z.min msec SLEEP_INTERVAL_MS)) w) in
  MSLEEP_CHECK_ABORTED_SUSPEND env msec w =
  if msec - SLEEP_INTERVAL_MS >? 0
  then MSLEEP_CHECK_ABORTED_SUSPEND env (msec - SLEEP_INTERVAL_MS) w2
  else (false, w2).
Proof.
  intros Hfs Hreq Hsig. cbv zeta. rewrite MSLEEP_CHECK_ABORTED_SUSPEND_eq.
  destruct w as [fs sra t tr]. cbn [forcing_shutdown now] in Hfs, Hreq, Hsig.
  subst fs. mrun. rewrite Hreq. mrun.
  change (truthy 0) with false. cbn [negb]. mrun.
  apply truthy_false_iff in Hsig. rewrite Hsig.
  destruct (msec - SLEEP_INTERVAL_MS >? 0); reflexivity.
Qed.

(** One interval of the macro after which the AP asks to run. *)
Lemma MSLEEP_CHECK_ABORTED_SUSPEND_resume_step (msec : Z) (w : world) :
  forcing_shutdown w = 0 ->
  shutdown_request_at env (now w) = false ->
  Z.land (power_get_signals_at env (S (now w))) IN_SUSPEND_DEASSERTED <> 0 ->
  MSLEEP_CHECK_ABORTED_SUSPEND env msec w =
  (true,
   log (EvCprints "suspend aborted" [])
     (log (EvPowerGetSignals (power_get_signals_at env (S (now w))))
        (log (EvMsleep (Z.min msec SLEEP_INTERVAL_MS)) w))).
Proof.
  intros Hfs Hreq Hsig. rewrite MSLEEP_CHECK_ABORTED_SUSPEND_eq.
  destruct w as [fs sra t tr]. cbn [forcing_shutdown now] in Hfs, Hreq, Hsig.
  subst fs. mrun. rewrite Hreq. mrun.
  change (truthy 0) with false. cbn [negb]. mrun.
  apply truthy_true_iff in Hsig. rewrite Hsig. reflexivity.
Qed.

(** A delay during which no shutdown is requested and the AP stays
    suspended is not aborted, and takes two calls for each of its checks. *)
Lemma MSLEEP_CHECK_ABORTED_SUSPEND_quiet :
  forall (n : nat) (msec : Z) (w : world),
    0 < msec ->
    delay_checks msec = n ->
    forcing_shutdown w = 0 ->
    suspended_until env (now w) (now w + 2 * n) ->
    fst (MSLEEP_CHECK_ABORTED_SUSPEND env msec w) = false /\
    forcing_shutdown (snd (MSLEEP_CHECK_ABORTED_SUSPEND env msec w)) = 0 /\
    now (snd (MSLEEP_CHECK_ABORTED_SUSPEND env msec w)) = (now w + 2 * n)%nat.
Proof.
  induction n as [| n IH]; intros msec w Hpos Hn Hfs Hq.
  - destruct (delay_checks_step msec Hpos) as [Hmore Hlast].
    destruct (msec - SLEEP_INTERVAL_MS >? 0).
    + destruct (Hmore eq_refl) as [E _]. lia.
    + specialize (Hlast eq_refl). lia.
  - destruct (Hq (now w) ltac:(lia)) as [Hreq _].
    destruct (Hq (S (now w)) ltac:(lia)) as [_ Hsig].
    rewrite (MSLEEP_CHECK_ABORTED_SUSPEND_quiet_step msec w Hfs Hreq Hsig).
    cbv zeta.
    set (w2 := log _ (log _ w)).
    assert (Hnow2 : now w2 = S (S (now w))) by reflexivity.
    assert (Hfs2 : forcing_shutdown w2 = 0) by exact Hfs.
    destruct (delay_checks_step msec Hpos) as [Hmore Hlast].
    destruct (msec - SLEEP_INTERVAL_MS >? 0).
    + destruct (Hmore eq_refl) as [E Hpos'].
      destruct (IH (msec - SLEEP_INTERVAL_MS) w2 Hpos' ltac:(lia) Hfs2)
        as (Hr & Hf & Ht).
      * intros t Ht. apply Hq. lia.
      * split; [exact Hr |]. split; [exact Hf |]. rewrite Ht. lia.
    + specialize (Hlast eq_refl). cbn [fst snd].
      split; [reflexivity |]. split; [exact Hfs2 |]. lia.
Qed.

(** A delay in which the AP asks to run at check [k] (counted from 0), no
    shutdown having been requested and no earlier read having shown it, is
    aborted at that check: after [k + 1] sleeps, with the read of that check
    and the console message as its last calls. *)
Lemma MSLEEP_CHECK_ABORTED_SUSPEND_resume_at :
  forall (k : nat) (msec : Z) (w : world),
    0 < msec ->
    (k < delay_checks msec)%nat ->
    forcing_shutdown w = 0 ->
    suspended_until env (now w) (now w + 2 * k + 1) ->
    Z.land (power_get_signals_at env (now w + 2 * k + 1)%nat)
      IN_SUSPEND_DEASSERTED <> 0 ->
    fst (MSLEEP_CHECK_ABORTED_SUSPEND env msec w) = true /\
    exists before : list event,
      trace (snd (MSLEEP_CHECK_ABORTED_SUSPEND env msec w)) =
        trace w ++ before ++
          [EvPowerGetSignals
             (power_get_signals_at env (now w + 2 * k + 1)%nat);
           EvCprints "suspend aborted" []] /\
      gpio_writes before = [] /\
      List.length (filter is_msleep before) = S k.
Proof.
  induction k as [| k IH]; intros msec w Hpos Hk Hfs Hq Hres.
  - destruct (Hq (now w) ltac:(lia)) as [Hreq _].
    replace (now w + 2 * 0 + 1)%nat with (S (now w)) in * by lia.
    rewrite (MSLEEP_CHECK_ABORTED_SUSPEND_resume_step msec w Hfs Hreq Hres).
    cbn [fst snd]. split; [reflexivity |].
    exists [EvMsleep (Z.min msec SLEEP_INTERVAL_MS)].
    cbn [trace log]. rewrite <- !app_assoc.
    repeat split; reflexivity.
  - destruct (Hq (now w) ltac:(lia)) as [Hreq _].
    destruct (Hq (S (now w)) ltac:(lia)) as [_ Hsig].
    rewrite (MSLEEP_CHECK_ABORTED_SUSPEND_quiet_step msec w Hfs Hreq Hsig).
    cbv zeta.
    set (v := power_get_signals_at env (S (now w))).
    set (sl := EvMsleep (Z.min msec SLEEP_INTERVAL_MS)).
    set (w2 := log (EvPowerGetSignals v) (log sl w)).
    assert (Hnow2 : now w2 = S (S (now w))) by reflexivity.
    assert (Hfs2 : forcing_shutdown w2 = 0) by exact Hfs.
    assert (Htr2 : trace w2 = trace w ++ [sl; EvPowerGetSignals v])
      by (unfold w2; cbn [trace log]; rewrite <- app_assoc; reflexivity).
    destruct (delay_checks_step msec Hpos) as [Hmore Hlast].
    destruct (msec - SLEEP_INTERVAL_MS >? 0).
    + destruct (Hmore eq_refl) as [E Hpos'].
      assert (HT : (now w2 + 2 * k + 1)%nat = (now w + 2 * S k + 1)%nat)
        by (rewrite Hnow2; lia).
      destruct (IH (msec - SLEEP_INTERVAL_MS) w2 Hpos' ltac:(lia) Hfs2)
        as (Hr & before & Htr & Hgw & Hsl).
      * intros t Ht. apply Hq. lia.
      * rewrite HT. exact Hres.
      * split; [exact Hr |].
        exists ([sl; EvPowerGetSignals v] ++ before).
        rewrite Htr, Htr2, HT, <- !app_assoc.
        split; [reflexivity |].
        rewrite gpio_writes_app, filter_app, length_app, Hgw, Hsl.
        split; reflexivity.
    + specialize (Hlast eq_refl). lia.
Qed.

(** A run of steps during which no shutdown is requested and the AP stays
    suspended completes, in [calls_of_run] calls. *)
Lemma power_seq_run_ops_quiet :
  forall (ops : list power_seq_op) (w : world),
    Forall op_in_range ops ->
    forcing_shutdown w = 0 ->
    suspended_until env (now w) (now w + calls_of_run ops) ->
    fst (power_seq_run_ops env true ops w) = 0 /\
    forcing_shutdown (snd (power_seq_run_ops env true ops w)) = 0 /\
    now (snd (power_seq_run_ops env true ops w)) =
      (now w + calls_of_run ops)%nat.
Proof.
  induction ops as [| op rest IH]; intros w Hall Hfs Hq.
  - cbn. repeat split; [exact Hfs | lia].
  - inversion Hall as [| op' rest' [_ Hd] Hrest]; subst.
    cbn [calls_of_run] in Hq |- *.
    rewrite power_seq_run_ops_cons. cbv zeta.
    set (w1 := log (EvGpioSetLevel (signal op) (level op)) w).
    assert (Hnow1 : now w1 = S (now w)) by reflexivity.
    assert (Hfs1 : forcing_shutdown w1 = 0) by exact Hfs.
    destruct (truthy (delay op)) eqn:Ed; cbn [negb].
    + apply truthy_true_iff in Ed.
      destruct (MSLEEP_CHECK_ABORTED_SUSPEND_quiet
                  (delay_checks (delay op)) (delay op) w1)
        as (Hr & Hf & Ht); [lia | reflexivity | exact Hfs1 | |].
      { intros t Ht. apply Hq. lia. }
      rewrite Hr.
      destruct (IH (snd (MSLEEP_CHECK_ABORTED_SUSPEND env (delay op) w1))
                  Hrest Hf) as (Hr' & Hf' & Ht').
      { intros t Ht0. apply Hq. lia. }
      split; [exact Hr' |]. split; [exact Hf' |]. rewrite Ht', Ht. lia.
    + apply truthy_false_iff in Ed. rewrite Ed in Hq |- *.
      change (delay_checks 0) with O in Hq |- *.
      destruct (IH w1 Hrest Hfs1) as (Hr' & Hf' & Ht').
      { intros t Ht0. apply Hq. lia. }
      split; [exact Hr' |]. split; [exact Hf' |]. rewrite Ht'. lia.
Qed.

(** The abort of a run of any steps: the AP asks to run at check [k] of the
    delay after [op]. *)
Lemma power_seq_run_ops_abort_at :
  forall (pre post : list power_seq_op) (op : power_seq_op) (k : nat)
         (w : world),
    Forall op_in_range (pre ++ op :: post) ->
    (k < delay_checks (delay op))%nat ->
    forcing_shutdown w = 0 ->
    let T := (now w + calls_of_run pre + 2 * k + 2)%nat in
    let res := power_seq_run_ops env true (pre ++ op :: post) w in
    suspended_until env (now w) T ->
    Z.land (power_get_signals_at env T) IN_SUSPEND_DEASSERTED <> 0 ->
    fst res = power_state_value POWER_S3S0 /\
    forcing_shutdown (snd res) = 0 /\
    exists before : list event,
      trace (snd res) =
        trace w ++ before ++
          [EvPowerGetSignals (power_get_signals_at env T);
           EvCprints "suspend aborted" []] /\
      gpio_writes before = map op_write (pre ++ [op]).
Proof.
  intros pre post op k w Hall Hk Hfs T res Hq Hres.
  apply Forall_app in Hall. destruct Hall as [Hpre Hop].
  inversion Hop as [| op' post' [_ Hd] _]; subst.
  destruct (power_seq_run_ops_quiet pre w Hpre Hfs) as (Hr1 & Hfs1 & Hnow1).
  { intros t Ht. apply Hq. unfold T. lia. }
  set (w1 := snd (power_seq_run_ops env true pre w)) in *.
  set (wd := log (EvGpioSetLevel (signal op) (level op)) w1).
  assert (Hnowd : now wd = S (now w + calls_of_run pre))
    by (unfold wd; cbn [now log]; rewrite Hnow1; reflexivity).
  assert (Hfsd : forcing_shutdown wd = 0) by exact Hfs1.
  assert (HT : (now wd + 2 * k + 1)%nat = T) by (unfold T; lia).
  assert (Hdpos : 0 < delay op).
  { destruct (Z.eq_dec (delay op) 0) as [E | N]; [| lia].
    rewrite E in Hk. change (delay_checks 0) with O in Hk. lia. }
  destruct (MSLEEP_CHECK_ABORTED_SUSPEND_resume_at k (delay op) wd Hdpos Hk
              Hfsd) as (Hab & before & Htr & Hgw & _).
  { intros t Ht. apply Hq. lia. }
  { rewrite HT. exact Hres. }
  rewrite HT in Htr.
  set (w2 := snd (MSLEEP_CHECK_ABORTED_SUSPEND env (delay op) wd)) in *.
  assert (Hseen : resume_seen wd w2).
  { eexists. split; [exact Htr |].
    rewrite existsb_app. cbn [existsb resume_read].
    apply truthy_true_iff in Hres. rewrite Hres.
    rewrite orb_true_r. reflexivity. }
  assert (Hdt : truthy (delay op) = true) by (apply truthy_true_iff; lia).
  destruct (suspend_abort_when_seen pre post op w Hr1 Hdt Hseen)
    as ([Hv _] & Hsnd & [Hf _] & _ & _).
  destruct (power_seq_run_ops_spec true pre w) as (npre & Hpt & _ & Hok & _).
  destruct (Hok Hr1) as [Hpw _].
  change (fst res = power_state_value POWER_S3S0) in Hv.
  change (snd res = w2) in Hsnd. change (forcing_shutdown w2 = 0) in Hf.
  split; [exact Hv |]. rewrite Hsnd. split; [exact Hf |].
  exists (npre ++ [EvGpioSetLevel (signal op) (level op)] ++ before).
  split.
  - rewrite Htr. unfold wd. cbn [trace log]. fold w1 in Hpt. rewrite Hpt.
    rewrite <- !app_assoc. reflexivity.
  - rewrite !gpio_writes_app, Hpw, Hgw, app_nil_r, map_app. reflexivity.
Qed.

(** C2. Suspend abort.  Take the S0S3 table as [pre ++ op :: post] and a
    check [k] (counted from 0) of the delay after [op]; a delay of [d] ms has
    a check after each 5 ms.  Start with [forcing_shutdown] clear, and let
    the environment be such that up to that check no other task requests a
    shutdown and the power signals show the AP suspended, and that at that
    check they show the AP asking to run.  Then [power_seq_run] on the S0S3
    table returns [POWER_S3S0], which is non-zero; its last calls are the
    read of that check and the console message; the rail writes it has made
    are those of [pre] and of [op], [length pre + 1] of them, and none of
    [post]; and the S0S3 case of [power_handle_state], whose calls before
    the table are the hook and the four checks of its 20 ms, resolves to
    S3S0 with the same rail writes.  The check of [power_seq_run] is call
    [now w + calls_of_run pre + 2 * k + 2] of the task: after the calls of
    [pre], the write of [op], [k] sleeps and reads, and one more sleep. *)
Theorem suspend_abort :
  forall (pre post : list power_seq_op) (op : power_seq_op) (k : nat)
         (w : world),
    s0s3_power_seq = pre ++ op :: post ->
    (k < delay_checks (delay op))%nat ->
    forcing_shutdown w = 0 ->
    (let T := (now w + calls_of_run pre + 2 * k + 2)%nat in
     let res := power_seq_run env addr_s0s3_power_seq
                  (ARRAY_SIZE addr_s0s3_power_seq) w in
     suspended_until env (now w) T ->
     Z.land (power_get_signals_at env T) IN_SUSPEND_DEASSERTED <> 0 ->
     fst res = power_state_value POWER_S3S0 /\
     fst res <> 0 /\
     forcing_shutdown (snd res) = 0 /\
     (exists before : list event,
        trace (snd res) =
          trace w ++ before ++
            [EvPowerGetSignals (power_get_signals_at env T);
             EvCprints "suspend aborted" []] /\
        gpio_writes before = map op_write (pre ++ [op])) /\
     List.length (map op_write (pre ++ [op])) = S (List.length pre)) /\
    (let T := (now w + calls_of_run pre + 2 * k + 11)%nat in
     let res := power_handle_state env POWER_S0S3 w in
     suspended_until env (now w) T ->
     Z.land (power_get_signals_at env T) IN_SUSPEND_DEASSERTED <> 0 ->
     fst res = POWER_S3S0 /\
     forcing_shutdown (snd res) = 0 /\
     exists before : list event,
       trace (snd res) =
         trace w ++ before ++
           [EvPowerGetSignals (power_get_signals_at env T);
            EvCprints "suspend aborted" []] /\
       gpio_writes before = map op_write (pre ++ [op])).
Proof.
  intros pre post op k w Htab Hk Hfs.
  assert (Hall : Forall op_in_range (pre ++ op :: post)).
  { rewrite <- Htab. exact (tables_in_range addr_s0s3_power_seq). }
  split.
  - cbv zeta. intros Hq Hres.
    rewrite power_seq_run_whole_table. cbn [seq_addr_eqb seq_at].
    rewrite Htab.
    destruct (power_seq_run_ops_abort_at pre post op k w Hall Hk Hfs Hq Hres)
      as (Hv & Hf & Hex).
    split; [exact Hv |]. split; [rewrite Hv; exact POWER_S3S0_nonzero |].
    split; [exact Hf |]. split; [exact Hex |].
    rewrite length_map, length_app. cbn [List.length]. lia.
  - cbv zeta. intros Hq Hres.
    rewrite power_handle_state_S0S3_eq. cbv zeta.
    set (hook := EvHookNotify HOOK_CHIPSET_SUSPEND).
    assert (Hnowh : now (log hook w) = S (now w)) by reflexivity.
    destruct (MSLEEP_CHECK_ABORTED_SUSPEND_quiet 4 20 (log hook w))
      as (Hm & Hfm & Hnm); [lia | reflexivity | exact Hfs | |].
    { intros t Ht. apply Hq. rewrite Hnowh in Ht. lia. }
    destruct (msleep_check_loop_spec (msleep_intervals 20) 20 (log hook w))
      as (nm & Htm & Hgm & _).
    fold (MSLEEP_CHECK_ABORTED_SUSPEND env 20) in Htm.
    set (m := MSLEEP_CHECK_ABORTED_SUSPEND env 20 (log hook w)) in *.
    rewrite Hm. rewrite Htab.
    assert (HT : (now (snd m) + calls_of_run pre + 2 * k + 2)%nat =
                 (now w + calls_of_run pre + 2 * k + 11)%nat)
      by (rewrite Hnm, Hnowh; lia).
    destruct (power_seq_run_ops_abort_at pre post op k (snd m) Hall Hk Hfm)
      as (Hv & Hf & before & Htr & Hgw).
    { rewrite HT. intros t Ht. apply Hq. rewrite Hnm, Hnowh in Ht. lia. }
    { rewrite HT. exact Hres. }
    rewrite HT in Htr.
    set (r := power_seq_run_ops env true (pre ++ op :: post) (snd m)) in *.
    assert (Ht : truthy (fst r) = true)
      by (rewrite Hv; apply truthy_true_iff; exact POWER_S3S0_nonzero).
    rewrite Ht. cbn [fst snd].
    split; [reflexivity |]. split; [exact Hf |].
    exists ((hook :: nm) ++ before).
    split.
    + rewrite Htr, Htm. cbn [trace log]. rewrite <- !app_assoc. reflexivity.
    + rewrite gpio_writes_app. cbn [gpio_writes hook]. rewrite Hgm, Hgw.
      reflexivity.
Qed.

(** *** The charger gate of G3S5 *)

Lemma round_now (w : world) :
  now (snd (msleep env CHARGER_INITIALIZED_DELAY_MS
              (snd (charge_prevent_power_on env 0 w)))) = S (S (now w)).
Proof.
  unfold msleep, while_blocked, charge_prevent_power_on, query, emit.
  cbn [fst snd]. destruct (shutdown_request_at env _); reflexivity.
Qed.

Lemma after_rounds_now (j : nat) (w : world) :
  now (after_rounds env j w) = (now w + 2 * j)%nat.
Proof.
  revert w. induction j as [| j IH]; intros w; cbn [after_rounds].
  - lia.
  - rewrite IH, round_now. lia.
Qed.

Lemma after_rounds_sys_reset (j : nat) (w : world) :
  sys_reset_asserted (after_rounds env j w) = sys_reset_asserted w.
Proof.
  revert w. induction j as [| j IH]; intros w; cbn [after_rounds].
  - reflexivity.
  - rewrite IH. unfold msleep, while_blocked, charge_prevent_power_on, query,
      emit. cbn [fst snd].
    destruct (shutdown_request_at env _); reflexivity.
Qed.

(** Without a shutdown request during the sleeps, the rounds leave
    [forcing_shutdown] as it was. *)
Lemma after_rounds_forcing_shutdown (j : nat) (w : world) :
  (forall i : nat, (i < j)%nat ->
     shutdown_request_at env (now w + 2 * i + 1)%nat = false) ->
  forcing_shutdown (after_rounds env j w) = forcing_shutdown w.
Proof.
  revert w. induction j as [| j IH]; intros w Hq; cbn [after_rounds].
  - reflexivity.
  - rewrite IH.
    + unfold msleep, while_blocked, charge_prevent_power_on, query, emit.
      cbn [fst snd log now].
      specialize (Hq O ltac:(lia)).
      replace (now w + 2 * 0 + 1)%nat with (S (now w)) in Hq by lia.
      rewrite Hq. reflexivity.
    + intros i Hi. rewrite round_now.
      specialize (Hq (S i) ltac:(lia)).
      replace (S (S (now w)) + 2 * i + 1)%nat
        with (now w + 2 * S i + 1)%nat by lia.
      exact Hq.
Qed.

(** The rounds never clear [forcing_shutdown]. *)
Lemma after_rounds_forcing_shutdown_set (j : nat) (w : world) :
  forcing_shutdown w = 1 -> forcing_shutdown (after_rounds env j w) = 1.
Proof.
  revert w. induction j as [| j IH]; intros w H; cbn [after_rounds];
    [exact H |].
  apply IH. unfold msleep, while_blocked, charge_prevent_power_on, query, emit.
  cbn [fst snd].
  destruct (shutdown_request_at env _);
    cbn [forcing_shutdown log set_forcing_shutdown]; [reflexivity | exact H].
Qed.

(** A shutdown request during one of the sleeps of the rounds leaves
    [forcing_shutdown] set. *)
Lemma after_rounds_forcing_shutdown_requested (j : nat) (w : world) :
  (exists i : nat,
     (i < j)%nat /\
     shutdown_request_at env (now w + 2 * i + 1)%nat = true) ->
  forcing_shutdown (after_rounds env j w) = 1.
Proof.
  revert w. induction j as [| j IH]; intros w (i & Hi & Hr); [lia |].
  cbn [after_rounds]. destruct i as [| i].
  - apply after_rounds_forcing_shutdown_set.
    unfold msleep, while_blocked, charge_prevent_power_on, query, emit.
    cbn [fst snd log now].
    replace (now w + 2 * 0 + 1)%nat with (S (now w)) in Hr by lia.
    rewrite Hr. reflexivity.
  - apply IH. exists i. split; [lia |]. rewrite round_now.
    replace (S (S (now w)) + 2 * i + 1)%nat
      with (now w + 2 * S i + 1)%nat by lia.
    exact Hr.
Qed.

(** The rounds add [j] polls and [j] sleeps of 100 ms to the trace. *)
Lemma after_rounds_trace (j : nat) (w : world) :
  exists new : list event,
    trace (after_rounds env j w) = trace w ++ new /\
    List.length (filter (is_msleep_of 100) new) = j /\
    List.length (filter is_charger_poll new) = j /\
    List.length new = (2 * j)%nat.
Proof.
  revert w. induction j as [| j IH]; intros w; cbn [after_rounds].
  - exists []. rewrite app_nil_r. repeat split; reflexivity.
  - match goal with |- context [after_rounds env j ?w1] =>
      destruct (IH w1) as (new & Htr & Hs & Hp & Hl);
      assert (Hw1 : trace w1 =
                trace w ++
                  [EvChargePreventPowerOn 0
                     (charge_prevent_power_on_at env (now w) 0);
                   EvMsleep 100])
    end.
    { unfold msleep, while_blocked, charge_prevent_power_on, query, emit.
      cbn [fst snd].
      destruct (shutdown_request_at env _); cbn [trace log set_forcing_shutdown];
        rewrite <- app_assoc; reflexivity. }
    exists ([EvChargePreventPowerOn 0
               (charge_prevent_power_on_at env (now w) 0);
             EvMsleep 100] ++ new).
    split; [rewrite Htr, Hw1, <- app_assoc; reflexivity |].
    cbn. rewrite Hs, Hp, Hl. repeat split; lia.
Qed.

(** One turn of the charger loop. *)
Lemma charger_wait_loop_S (fuel : nat) (tries : Z) (w : world) :
  charger_wait_loop env (S fuel) tries w =
  let w1 := snd (charge_prevent_power_on env 0 w) in
  if truthy (charge_prevent_power_on_at env (now w) 0) then
    if tries <? CHARGER_INITIALIZED_TRIES
    then charger_wait_loop env fuel (tries + 1)
           (snd (msleep env CHARGER_INITIALIZED_DELAY_MS w1))
    else (tries + 1, w1)
  else (tries, w1).
Proof.
  cbn [charger_wait_loop]. unfold bind at 1.
  unfold charge_prevent_power_on, query. cbv zeta. cbn [snd].
  destruct (truthy (charge_prevent_power_on_at env (now w) 0));
    [| reflexivity].
  destruct (tries <? CHARGER_INITIALIZED_TRIES); [| reflexivity].
  unfold bind. destruct (msleep env CHARGER_INITIALIZED_DELAY_MS _) as [[] w1].
  reflexivity.
Qed.

(** Rounds in which the charger prevents power-on, within the budget. *)
Lemma charger_wait_loop_rounds :
  forall (j fuel : nat) (tries : Z) (w : world),
    tries + Z.of_nat j <= CHARGER_INITIALIZED_TRIES ->
    (forall i : nat, (i < j)%nat ->
       charge_prevent_power_on_at env (now w + 2 * i)%nat 0 <> 0) ->
    charger_wait_loop env (j + fuel) tries w =
    charger_wait_loop env fuel (tries + Z.of_nat j) (after_rounds env j w).
Proof.
  induction j as [| j IH]; intros fuel tries w Hle Hprev.
  - cbn. rewrite Z.add_0_r. reflexivity.
  - cbn [Nat.add after_rounds]. rewrite charger_wait_loop_S. cbv zeta.
    assert (H0 := Hprev O ltac:(lia)).
    replace (now w + 2 * 0)%nat with (now w) in H0 by lia.
    apply truthy_true_iff in H0. rewrite H0.
    assert (Hlt : (tries <? CHARGER_INITIALIZED_TRIES) = true)
      by (apply Z.ltb_lt; lia).
    rewrite Hlt. rewrite IH.
    + f_equal. lia.
    + lia.
    + intros i Hi. rewrite round_now.
      replace (S (S (now w)) + 2 * i)%nat with (now w + 2 * S i)%nat by lia.
      apply Hprev. lia.
Qed.

(** The loop stops at the first poll in which the charger allows power-on,
    with [tries] the number of polls before it. *)
Lemma charger_wait_loop_allowed :
  forall (j : nat) (w : world),
    (j <= 40)%nat ->
    (forall i : nat, (i < j)%nat ->
       charge_prevent_power_on_at env (now w + 2 * i)%nat 0 <> 0) ->
    charge_prevent_power_on_at env (now w + 2 * j)%nat 0 = 0 ->
    charger_wait_loop env (charger_wait_bound 0) 0 w =
    (Z.of_nat j, log (EvChargePreventPowerOn 0 0) (after_rounds env j w)).
Proof.
  intros j w Hj Hprev Hstop.
  unfold charger_wait_bound, CHARGER_INITIALIZED_TRIES.
  replace (S (Z.to_nat (40 - 0))) with (j + S (40 - j))%nat by lia.
  rewrite charger_wait_loop_rounds;
    [| unfold CHARGER_INITIALIZED_TRIES; lia | exact Hprev].
  rewrite charger_wait_loop_S. cbv zeta.
  unfold charge_prevent_power_on, query. cbn [snd].
  rewrite after_rounds_now, Hstop. reflexivity.
Qed.

(** The loop gives up when the charger prevented power-on in each of its
    41 polls: [tries] is then 41, one more than the budget. *)
Lemma charger_wait_loop_exhausted :
  forall w : world,
    (forall i : nat, (i <= 40)%nat ->
       charge_prevent_power_on_at env (now w + 2 * i)%nat 0 <> 0) ->
    charger_wait_loop env (charger_wait_bound 0) 0 w =
    (41, log (EvChargePreventPowerOn 0
                (charge_prevent_power_on_at env (now w + 80)%nat 0))
             (after_rounds env 40 w)).
Proof.
  intros w Hprev.
  unfold charger_wait_bound, CHARGER_INITIALIZED_TRIES.
  replace (S (Z.to_nat (40 - 0))) with (40 + 1)%nat by lia.
  rewrite charger_wait_loop_rounds;
    [| unfold CHARGER_INITIALIZED_TRIES; lia | intros i Hi; apply Hprev; lia].
  rewrite charger_wait_loop_S. cbv zeta.
  unfold charge_prevent_power_on, query. cbn [snd].
  rewrite after_rounds_now.
  replace (now w + 2 * 40)%nat with (now w + 80)%nat by lia.
  assert (H40 := Hprev 40%nat ltac:(lia)).
  replace (now w + 2 * 40)%nat with (now w + 80)%nat in H40 by lia.
  apply truthy_true_iff in H40. rewrite H40.
  reflexivity.
Qed.

(** The G3S5 case of [power_handle_state], step by step. *)
Lemma power_handle_state_G3S5_eq (w : world) :
  power_handle_state env POWER_G3S5 w =
  let l := charger_wait_loop env (charger_wait_bound 0) 0
             (set_forcing_shutdown 0 w) in
  let want := charge_want_shutdown_at env (now (snd l)) in
  let w2 := log (EvChargeWantShutdown want) (snd l) in
  if truthy want || (fst l >? CHARGER_INITIALIZED_TRIES)
  then (POWER_G3,
        log EvTaskWake
          (set_forcing_shutdown 1
             (log (EvCprints "chipset_force_shutdown()" [])
                (log (EvCprints "power-up inhibited" []) w2))))
  else (POWER_S5, w2).
Proof.
  unfold power_handle_state. cbv zeta.
  unfold bind at 1, write_forcing_shutdown. unfold bind at 1.
  destruct (charger_wait_loop env (charger_wait_bound 0) 0 _) as [tries w1].
  cbn [fst snd]. unfold bind at 1, charge_want_shutdown, query.
  destruct (truthy (charge_want_shutdown_at env (now w1))
            || (tries >? CHARGER_INITIALIZED_TRIES)); reflexivity.
Qed.

(** When the first poll of the charger allows power-on and the battery does
    not ask for a shutdown, the G3S5 case makes these two calls and goes to
    S5 with [forcing_shutdown] cleared. *)
Lemma power_handle_state_G3S5_allowed (w : world) :
  charge_prevent_power_on_at env (now w) 0 = 0 ->
  charge_want_shutdown_at env (S (now w)) = 0 ->
  power_handle_state env POWER_G3S5 w =
  (POWER_S5,
   log (EvChargeWantShutdown 0)
     (log (EvChargePreventPowerOn 0 0) (set_forcing_shutdown 0 w))).
Proof.
  intros Hp Hw. rewrite power_handle_state_G3S5_eq.
  rewrite (charger_wait_loop_allowed O (set_forcing_shutdown 0 w)).
  - cbv zeta. cbn [fst snd after_rounds now log set_forcing_shutdown].
    rewrite Hw. reflexivity.
  - lia.
  - intros i Hi. lia.
  - cbn [now set_forcing_shutdown].
    replace (now w + 2 * 0)%nat with (now w) by lia. exact Hp.
Qed.

(** The G3S5 case does not look at the value [forcing_shutdown] had. *)
Lemma power_handle_state_G3S5_clears_first (w : world) :
  power_handle_state env POWER_G3S5 w =
  power_handle_state env POWER_G3S5 (set_forcing_shutdown 0 w).
Proof. rewrite !power_handle_state_G3S5_eq. reflexivity. Qed.

(** When poll [j] is the first that allows power-on and the battery does
    not ask for a shutdown, the G3S5 case goes to S5 in the world of the
    flag cleared, [j] rounds, the poll and the question to the battery. *)
Lemma power_handle_state_G3S5_to_S5 (j : nat) (w : world) :
  (j <= 40)%nat ->
  (forall i : nat, (i < j)%nat ->
     charge_prevent_power_on_at env (now w + 2 * i)%nat 0 <> 0) ->
  charge_prevent_power_on_at env (now w + 2 * j)%nat 0 = 0 ->
  charge_want_shutdown_at env (now w + 2 * j + 1)%nat = 0 ->
  power_handle_state env POWER_G3S5 w =
  (POWER_S5,
   log (EvChargeWantShutdown 0)
     (log (EvChargePreventPowerOn 0 0)
        (after_rounds env j (set_forcing_shutdown 0 w)))).
Proof.
  intros Hj Hprev Hstop Hwant.
  rewrite power_handle_state_G3S5_eq.
  rewrite (charger_wait_loop_allowed j (set_forcing_shutdown 0 w) Hj)
    by assumption.
  cbv zeta. cbn [fst snd].
  replace (Z.of_nat j >? CHARGER_INITIALIZED_TRIES) with false
    by (symmetry; unfold CHARGER_INITIALIZED_TRIES;
        destruct (Z.gtb_spec (Z.of_nat j) 40); [lia | reflexivity]).
  rewrite orb_false_r. cbn [now log]. rewrite after_rounds_now.
  cbn [now set_forcing_shutdown].
  replace (S (now w + 2 * j)) with (now w + 2 * j + 1)%nat by lia.
  rewrite Hwant. reflexivity.
Qed.

(** The flag the G3S5 case leaves when it goes to S5: set exactly when
    another task requested a shutdown during one of the sleeps of the
    charger wait, whatever it was at entry. *)
Lemma power_handle_state_G3S5_flag (j : nat) (w : world) :
  (j <= 40)%nat ->
  (forall i : nat, (i < j)%nat ->
     charge_prevent_power_on_at env (now w + 2 * i)%nat 0 <> 0) ->
  charge_prevent_power_on_at env (now w + 2 * j)%nat 0 = 0 ->
  charge_want_shutdown_at env (now w + 2 * j + 1)%nat = 0 ->
  ((forall i : nat, (i < j)%nat ->
      shutdown_request_at env (now w + 2 * i + 1)%nat = false) ->
   forcing_shutdown (snd (power_handle_state env POWER_G3S5 w)) = 0) /\
  ((exists i : nat,
      (i < j)%nat /\
      shutdown_request_at env (now w + 2 * i + 1)%nat = true) ->
   forcing_shutdown (snd (power_handle_state env POWER_G3S5 w)) = 1).
Proof.
  intros Hj Hprev Hstop Hwant.
  rewrite (power_handle_state_G3S5_to_S5 j w Hj Hprev Hstop Hwant).
  cbn [snd forcing_shutdown log]. split.
  - intros Hq. rewrite after_rounds_forcing_shutdown; [reflexivity |].
    exact Hq.
  - intros Hex. apply after_rounds_forcing_shutdown_requested. exact Hex.
Qed.

(** C4. The G3S5 case first clears [forcing_shutdown], then polls the
    charger: each poll that prevents power-on is followed by a sleep of
    100 ms, at most 40 times.  If all 41 polls prevent power-on, the machine
    returns to G3 with [forcing_shutdown] set to 1.  If poll [j] (of polls 0
    to 40) is the first that allows power-on, then [j] sleeps were made, and
    the machine returns to G3 with [forcing_shutdown] set to 1 if
    [charge_want_shutdown] holds after the loop, and goes to S5 otherwise.
    That the flag is cleared first, before the polls, shows in the flag the
    S5 outcome leaves: whatever the flag was at entry, it is 0 when no other
    task requested a shutdown during one of the sleeps, and it is 1 when
    one did, so a request made during the charger wait is not lost. *)
Theorem charger_gate :
  forall w : world,
    let res := power_handle_state env POWER_G3S5 w in
    res = power_handle_state env POWER_G3S5 (set_forcing_shutdown 0 w) /\
    ((forall i : nat, (i <= 40)%nat ->
        charge_prevent_power_on_at env (now w + 2 * i)%nat 0 <> 0) ->
     fst res = POWER_G3 /\ forcing_shutdown (snd res) = 1 /\
     exists new : list event,
       trace (snd res) = trace w ++ new /\
       List.length (filter (is_msleep_of 100) new) = 40%nat /\
       List.length (filter is_charger_poll new) = 41%nat) /\
    (forall j : nat,
       (j <= 40)%nat ->
       (forall i : nat, (i < j)%nat ->
          charge_prevent_power_on_at env (now w + 2 * i)%nat 0 <> 0) ->
       charge_prevent_power_on_at env (now w + 2 * j)%nat 0 = 0 ->
       (exists new : list event,
          trace (snd res) = trace w ++ new /\
          List.length (filter (is_msleep_of 100) new) = j /\
          List.length (filter is_charger_poll new) = S j) /\
       (charge_want_shutdown_at env (now w + 2 * j + 1)%nat <> 0 ->
        fst res = POWER_G3 /\ forcing_shutdown (snd res) = 1) /\
       (charge_want_shutdown_at env (now w + 2 * j + 1)%nat = 0 ->
        fst res = POWER_S5 /\
        ((forall i : nat, (i < j)%nat ->
            shutdown_request_at env (now w + 2 * i + 1)%nat = false) ->
         forcing_shutdown (snd res) = 0) /\
        ((exists i : nat,
            (i < j)%nat /\
            shutdown_request_at env (now w + 2 * i + 1)%nat = true) ->
         forcing_shutdown (snd res) = 1))).
Proof.
  intros w res.
  set (w0 := set_forcing_shutdown 0 w).
  assert (Hnow : now w0 = now w) by reflexivity.
  assert (Htr0 : trace w0 = trace w) by reflexivity.
  split; [| split].
  - unfold res. rewrite !power_handle_state_G3S5_eq. reflexivity.
  - intros Hprev. unfold res. rewrite power_handle_state_G3S5_eq. fold w0.
    rewrite charger_wait_loop_exhausted by (rewrite Hnow; exact Hprev).
    cbv zeta. cbn [fst snd].
    replace (41 >? CHARGER_INITIALIZED_TRIES) with true by reflexivity.
    rewrite orb_true_r. cbn [fst snd].
    split; [reflexivity |]. split; [reflexivity |].
    destruct (after_rounds_trace 40 w0) as (new & Htr & Hs & Hp & _).
    eexists. split.
    + cbn [trace log set_forcing_shutdown]. rewrite Htr, Htr0.
      rewrite <- !app_assoc. reflexivity.
    + rewrite !filter_app, !length_app, Hs, Hp. cbn. split; reflexivity.
  - intros j Hj Hprev Hstop. unfold res.
    rewrite power_handle_state_G3S5_eq. fold w0.
    rewrite (charger_wait_loop_allowed j w0 Hj)
      by (rewrite Hnow; assumption).
    cbv zeta. cbn [fst snd].
    replace (Z.of_nat j >? CHARGER_INITIALIZED_TRIES) with false
      by (symmetry; unfold CHARGER_INITIALIZED_TRIES;
          destruct (Z.gtb_spec (Z.of_nat j) 40); [lia | reflexivity]).
    rewrite orb_false_r.
    cbn [now log]. rewrite after_rounds_now, Hnow.
    replace (S (now w + 2 * j)) with (now w + 2 * j + 1)%nat by lia.
    destruct (after_rounds_trace j w0) as (new & Htr & Hs & Hp & _).
    split; [| split].
    + destruct (truthy (charge_want_shutdown_at env (now w + 2 * j + 1)));
        cbn [snd]; eexists;
        (split;
         [cbn [trace log set_forcing_shutdown]; rewrite Htr, Htr0;
          rewrite <- !app_assoc; reflexivity
         | rewrite !filter_app, !length_app, Hs, Hp; cbn; split; lia]).
    + intros Hwant. apply truthy_true_iff in Hwant. rewrite Hwant.
      split; reflexivity.
    + intros Hwant. rewrite Hwant. cbn [truthy Z.eqb negb fst snd].
      split; [reflexivity |]. split.
      * intros Hq. cbn [forcing_shutdown log].
        rewrite after_rounds_forcing_shutdown; [reflexivity |].
        rewrite Hnow. exact Hq.
      * intros Hex. cbn [forcing_shutdown log].
        apply after_rounds_forcing_shutdown_requested.
        rewrite Hnow. exact Hex.
Qed.

(** *** The debounce of S0 *)


(** *** Which states a case resolves to *)

Lemma returns_in_ret {A : Type} (a : A) (l : list A) :
  In a l -> returns_in (ret a) l.
Proof. intros H w. exact H. Qed.

Lemma returns_in_bind {A B : Type} (c : M A) (k : A -> M B) (l : list B) :
  (forall a : A, returns_in (k a) l) -> returns_in (bind c k) l.
Proof.
  intros H w. unfold bind. destruct (c w) as [a w']. apply H.
Qed.

Lemma returns_in_if {A : Type} (b : bool) (c1 c2 : M A) (l : list A) :
  returns_in c1 l -> returns_in c2 l -> returns_in (if b then c1 else c2) l.
Proof. destruct b; auto. Qed.

Ltac returns_step :=
  first
    [ apply returns_in_ret; simpl; tauto
    | apply returns_in_if
    | apply returns_in_bind; intro ].

Lemma power_handle_state_successors (s : power_state) :
  returns_in (power_handle_state env s) (successors s).
Proof.
  destruct s; unfold power_handle_state, S0_exit_condition; cbv zeta;
    repeat returns_step.
Qed.

(** *** Properties of the world that the code keeps *)

Section Stable.

Variable Q : world -> Prop.

Lemma stable_ret {A : Type} (a : A) : stable Q (ret a).
Proof. intros w H. exact H. Qed.

Lemma stable_bind {A B : Type} (c : M A) (k : A -> M B) :
  stable Q c -> (forall a : A, stable Q (k a)) -> stable Q (bind c k).
Proof.
  intros Hc Hk w H. unfold bind.
  specialize (Hc w H). destruct (c w) as [a w']. apply Hk. exact Hc.
Qed.

Lemma stable_if {A : Type} (b : bool) (c1 c2 : M A) :
  stable Q c1 -> stable Q c2 -> stable Q (if b then c1 else c2).
Proof. destruct b; auto. Qed.

Lemma stable_read_forcing_shutdown : stable Q read_forcing_shutdown.
Proof. intros w H. exact H. Qed.

Lemma stable_read_sys_reset_asserted : stable Q read_sys_reset_asserted.
Proof. intros w H. exact H. Qed.

Hypothesis Q_quiet : quiet_closed env Q.

Lemma stable_emit (e : event) : stable Q (emit e).
Proof. intros w H. apply Q_quiet. exact H. Qed.

Lemma stable_query (answer : nat -> Z) (ev : Z -> event) :
  stable Q (query answer ev).
Proof. intros w H. apply Q_quiet. exact H. Qed.

Lemma stable_while_blocked {A : Type} (c : M A) :
  stable Q c -> stable Q (while_blocked env c).
Proof.
  intros Hc w H. unfold while_blocked.
  specialize (Hc w H). destruct (c w) as [a w']. cbn [snd] in *.
  destruct (shutdown_request_at env (now w)) eqn:E; [| exact Hc].
  apply (proj2 Q_quiet (now w)); assumption.
Qed.

Ltac stable_callee :=
  unfold gpio_set_level, hook_notify, hook_call_deferred, enable_sleep,
    disable_sleep, task_wake, chipset_exit_hard_off, print_system_rtc,
    CPRINTS, udelay, msleep, usleep, power_get_signals, power_has_signals,
    power_wait_signals, power_wait_signals_timeout, charge_prevent_power_on,
    charge_want_shutdown, power_button_is_pressed,
    system_jumped_to_this_image, system_get_reset_flags,
    in_interrupt_context, lid_is_open, chipset_in_state.

Ltac stable_step :=
  first
    [ apply stable_ret
    | apply stable_emit
    | apply stable_query
    | apply stable_read_forcing_shutdown
    | apply stable_read_sys_reset_asserted
    | apply stable_while_blocked
    | apply stable_if
    | apply stable_bind; [| intro]
    | assumption ].

Lemma stable_msleep (ms : Z) : stable Q (msleep env ms).
Proof. stable_callee. repeat stable_step. Qed.

Lemma stable_power_wait_signals (want : Z) :
  stable Q (power_wait_signals env want).
Proof. stable_callee. repeat stable_step. Qed.

Lemma stable_msleep_check_loop (fuel : nat) (rem : Z) :
  stable Q (msleep_check_loop env fuel rem).
Proof.
  revert rem. induction fuel as [| fuel IH]; intros rem;
    cbn [msleep_check_loop]; stable_callee; repeat stable_step.
  apply IH.
Qed.

Lemma stable_power_seq_run_ops (check_abort : bool) (ops : list power_seq_op) :
  stable Q (power_seq_run_ops env check_abort ops).
Proof.
  induction ops as [| op rest IH]; cbn [power_seq_run_ops];
    unfold MSLEEP_CHECK_ABORTED_SUSPEND; stable_callee; repeat stable_step;
    try apply stable_msleep_check_loop; repeat stable_step.
Qed.

Lemma stable_charger_wait_loop (fuel : nat) (tries : Z) :
  stable Q (charger_wait_loop env fuel tries).
Proof.
  revert tries. induction fuel as [| fuel IH]; intros tries;
    cbn [charger_wait_loop]; stable_callee; repeat stable_step.
  apply IH.
Qed.

Lemma stable_chipset_reset (cold_reset : Z) :
  stable Q (chipset_reset env cold_reset).
Proof. unfold chipset_reset. stable_callee. repeat stable_step. Qed.

Lemma stable_power_chipset_init : stable Q (power_chipset_init env).
Proof. unfold power_chipset_init. stable_callee. repeat stable_step. Qed.

Lemma stable_power_button_changed : stable Q (power_button_changed env).
Proof. unfold power_button_changed. stable_callee. repeat stable_step. Qed.

Lemma stable_lid_changed : stable Q (lid_changed env).
Proof. unfold lid_changed. stable_callee. repeat stable_step. Qed.

(** The code that writes 1 to [forcing_shutdown] itself. *)
Hypothesis Q_shutdown : stable Q (write_forcing_shutdown 1).

Lemma stable_chipset_force_shutdown : stable Q chipset_force_shutdown.
Proof.
  unfold chipset_force_shutdown. stable_callee. repeat stable_step.
Qed.

Lemma stable_force_shutdown : stable Q force_shutdown.
Proof. unfold force_shutdown. stable_callee. repeat stable_step. Qed.

(** [power_handle_state] keeps [Q] as far as its three other writes do: the
    write of 0 to [forcing_shutdown] in G3S5, of 1 to [sys_reset_asserted] in
    S5S3 and of 0 to it in S3S0. *)
Lemma stable_power_handle_state (s : power_state) :
  (s = POWER_G3S5 -> stable Q (write_forcing_shutdown 0)) ->
  (s = POWER_S5S3 -> stable Q (write_sys_reset_asserted 1)) ->
  (s = POWER_S3S0 -> stable Q (write_sys_reset_asserted 0)) ->
  stable Q (power_handle_state env s).
Proof.
  intros Hg Hs5 Hs3.
  destruct s;
    try specialize (Hg eq_refl); try specialize (Hs5 eq_refl);
    try specialize (Hs3 eq_refl);
    unfold power_handle_state, S0_exit_condition, power_seq_run,
      MSLEEP_CHECK_ABORTED_SUSPEND; cbv zeta; stable_callee;
    repeat (first [ stable_step
                  | apply stable_power_seq_run_ops
                  | apply stable_msleep_check_loop
                  | apply stable_charger_wait_loop
                  | apply stable_chipset_force_shutdown ]).
Qed.

End Stable.

(** A property of the world that depends on [forcing_shutdown] only through
    facts that a write of 1 keeps. *)
Lemma quiet_closed_intro (Q : world -> Prop) :
  (forall (e : event) (w : world), Q w -> Q (log e w)) ->
  (forall w : world, Q w -> Q (set_forcing_shutdown 1 w)) ->
  quiet_closed env Q /\ stable Q (write_forcing_shutdown 1).
Proof.
  intros Hlog Hsd. split; [split |]; auto.
Qed.

(** *** The forcing_shutdown flag *)

(** C9. Every case of [power_handle_state] but G3S5, and every other entry
    point of the file, leaves [forcing_shutdown] as it was or sets it to 1;
    so once set it stays set.  The G3S5 case clears it, at entry and before
    the charger polls: its outcome is the same from the world with the flag
    cleared; and when it goes to S5 after [j] sleeps of the charger wait,
    the flag is 0 if no other task requested a shutdown during these sleeps,
    whatever it was at entry, and 1 if one did: a request made once the
    power-up attempt has begun persists. *)
Theorem forcing_shutdown_persists :
  forall (s : power_state) (w : world),
    let kept (w' : world) :=
      forcing_shutdown w' = forcing_shutdown w \/ forcing_shutdown w' = 1 in
    (s <> POWER_G3S5 -> kept (snd (power_handle_state env s w))) /\
    kept (snd (chipset_force_shutdown w)) /\
    kept (snd (force_shutdown w)) /\
    (forall cold_reset : Z, kept (snd (chipset_reset env cold_reset w))) /\
    kept (snd (power_chipset_init env w)) /\
    kept (snd (power_button_changed env w)) /\
    kept (snd (lid_changed env w)) /\
    (forcing_shutdown w <> 0 -> s <> POWER_G3S5 ->
     forcing_shutdown (snd (power_handle_state env s w)) <> 0) /\
    power_handle_state env POWER_G3S5 w =
      power_handle_state env POWER_G3S5 (set_forcing_shutdown 0 w) /\
    (charge_prevent_power_on_at env (now w) 0 = 0 ->
     charge_want_shutdown_at env (S (now w)) = 0 ->
     forcing_shutdown (snd (power_handle_state env POWER_G3S5 w)) = 0) /\
    (forall j : nat,
       (j <= 40)%nat ->
       (forall i : nat, (i < j)%nat ->
          charge_prevent_power_on_at env (now w + 2 * i)%nat 0 <> 0) ->
       charge_prevent_power_on_at env (now w + 2 * j)%nat 0 = 0 ->
       charge_want_shutdown_at env (now w + 2 * j + 1)%nat = 0 ->
       fst (power_handle_state env POWER_G3S5 w) = POWER_S5 /\
       ((forall i : nat, (i < j)%nat ->
           shutdown_request_at env (now w + 2 * i + 1)%nat = false) ->
        forcing_shutdown (snd (power_handle_state env POWER_G3S5 w)) = 0) /\
       ((exists i : nat,
           (i < j)%nat /\
           shutdown_request_at env (now w + 2 * i + 1)%nat = true) ->
        forcing_shutdown (snd (power_handle_state env POWER_G3S5 w)) = 1)).
Proof.
  intros s w kept.
  destruct (quiet_closed_intro kept) as [Hq Hsd].
  { intros e w' H. exact H. }
  { intros w' _. right. reflexivity. }
  assert (H0 : kept w) by (left; reflexivity).
  assert (Hh : s <> POWER_G3S5 -> kept (snd (power_handle_state env s w))).
  { intros Hs. refine (stable_power_handle_state kept Hq Hsd s _ _ _ w H0).
    - intros E. contradiction.
    - intros _ w' H. exact H.
    - intros _ w' H. exact H. }
  split; [exact Hh |].
  split; [exact (stable_chipset_force_shutdown kept Hq Hsd w H0) |].
  split; [exact (stable_force_shutdown kept Hq Hsd w H0) |].
  split; [intros c; exact (stable_chipset_reset kept Hq c w H0) |].
  split; [exact (stable_power_chipset_init kept Hq w H0) |].
  split; [exact (stable_power_button_changed kept Hq w H0) |].
  split; [exact (stable_lid_changed kept Hq w H0) |].
  split.
  { intros Hset Hs. destruct (Hh Hs) as [E | E]; rewrite E; [exact Hset | lia]. }
  split; [apply power_handle_state_G3S5_clears_first |].
  split.
  { intros Hp Hw. rewrite (power_handle_state_G3S5_allowed w Hp Hw).
    reflexivity. }
  intros j Hj Hprev Hstop Hwant.
  split.
  { rewrite (power_handle_state_G3S5_to_S5 j w Hj Hprev Hstop Hwant).
    reflexivity. }
  exact (power_handle_state_G3S5_flag j w Hj Hprev Hstop Hwant).
Qed.

(** *** The sys_reset_asserted flag *)

(** The S3S0 case of [power_handle_state], step by step. *)
Lemma power_handle_state_S3S0_eq (w : world) :
  power_handle_state env POWER_S3S0 w =
  let w1 := snd (power_seq_run_ops env false s3s0_power_seq w) in
  let w2 :=
    if truthy (sys_reset_asserted w1)
    then set_sys_reset_asserted 0
           (log (EvGpioSetLevel GPIO_SYS_RST_L 1) (snd (msleep env 10 w1)))
    else w1 in
  let rv := power_wait_signals_at env (now w2) IN_PGOOD_S0 in
  let w3 := snd (power_wait_signals env IN_PGOOD_S0 w2) in
  if truthy rv
  then (POWER_S3S0, snd (chipset_force_shutdown w3))
  else (POWER_S0,
        log EvDisableSleep (log (EvHookNotify HOOK_CHIPSET_RESUME) w3)).
Proof.
  unfold power_handle_state. unfold bind at 1.
  rewrite power_seq_run_whole_table. cbn [seq_addr_eqb seq_at].
  destruct (power_seq_run_ops env false s3s0_power_seq w) as [r w1].
  cbv zeta. cbn [snd].
  unfold bind at 1, read_sys_reset_asserted. unfold bind at 1.
  assert (E : (if truthy (sys_reset_asserted w1)
               then msleep env 10 ;;
                    gpio_set_level GPIO_SYS_RST_L 1 ;;
                    write_sys_reset_asserted 0
               else ret tt) w1 =
              (tt, if truthy (sys_reset_asserted w1)
                   then set_sys_reset_asserted 0
                          (log (EvGpioSetLevel GPIO_SYS_RST_L 1)
                             (snd (msleep env 10 w1)))
                   else w1)).
  { destruct (truthy (sys_reset_asserted w1)); [| reflexivity].
    unfold bind, gpio_set_level, emit, write_sys_reset_asserted.
    destruct (msleep env 10 w1) as [[] w']. reflexivity. }
  rewrite E. clear E.
  set (w2 := if truthy (sys_reset_asserted w1) then _ else w1).
  unfold bind at 1.
  unfold power_wait_signals at 1, while_blocked, query.
  cbn [fst snd].
  destruct (truthy (power_wait_signals_at env (now w2) IN_PGOOD_S0));
    [| reflexivity].
  unfold bind, chipset_force_shutdown, bind, CPRINTS, emit,
    write_forcing_shutdown, task_wake, ret.
  reflexivity.
Qed.

(** [sys_reset_asserted] is 0 after the S3S0 case, however it ends. *)
Lemma power_handle_state_S3S0_clears (w : world) :
  sys_reset_asserted (snd (power_handle_state env POWER_S3S0 w)) = 0.
Proof.
  rewrite power_handle_state_S3S0_eq. cbv zeta.
  set (w1 := snd (power_seq_run_ops env false s3s0_power_seq w)).
  set (w2 := if truthy (sys_reset_asserted w1) then _ else w1).
  assert (H2 : sys_reset_asserted w2 = 0).
  { unfold w2. destruct (truthy (sys_reset_asserted w1)) eqn:E.
    - reflexivity.
    - apply truthy_false_iff. exact E. }
  assert (H3 : sys_reset_asserted (snd (power_wait_signals env IN_PGOOD_S0 w2))
               = 0).
  { unfold power_wait_signals, while_blocked, query. cbn [fst snd].
    destruct (shutdown_request_at env (now w2)); exact H2. }
  destruct (truthy (power_wait_signals_at env (now w2) IN_PGOOD_S0));
    cbn [snd]; exact H3.
Qed.



(** *** A shutdown that is being forced is not aborted *)

Lemma forced_quiet_closed :
  quiet_closed env (fun w => forcing_shutdown w <> 0).
Proof.
  split.
  - intros e w H. exact H.
  - intros t w _ _. cbn. lia.
Qed.

Lemma msleep_check_loop_forced :
  forall (fuel : nat) (rem : Z) (w : world),
    forcing_shutdown w <> 0 ->
    fst (msleep_check_loop env fuel rem w) = false.
Proof.
  induction fuel as [| fuel IH]; intros rem w Hfs; [reflexivity |].
  cbn [msleep_check_loop]. destruct w as [fs sra t tr].
  cbn [forcing_shutdown] in Hfs. mrun.
  set (fs1 := if shutdown_request_at env t then 1 else fs).
  set (sl := EvMsleep (Z.min rem SLEEP_INTERVAL_MS)).
  replace (if shutdown_request_at env t
           then mk_world 1 sra (S t) (tr ++ [sl])
           else mk_world fs sra (S t) (tr ++ [sl]))
    with (mk_world fs1 sra (S t) (tr ++ [sl]))
    by (unfold fs1; destruct (shutdown_request_at env t); reflexivity).
  mrun.
  assert (H1 : fs1 <> 0)
    by (unfold fs1; destruct (shutdown_request_at env t); [lia | exact Hfs]).
  apply truthy_true_iff in H1. rewrite H1. cbn [negb]. mrun.
  destruct (rem - SLEEP_INTERVAL_MS >? 0); [| reflexivity].
  apply IH. cbn [forcing_shutdown]. apply truthy_true_iff. exact H1.
Qed.

Lemma power_seq_run_ops_forced :
  forall (ops : list power_seq_op) (w : world),
    forcing_shutdown w <> 0 ->
    fst (power_seq_run_ops env true ops w) = 0.
Proof.
  induction ops as [| op rest IH]; intros w Hfs; [reflexivity |].
  rewrite power_seq_run_ops_cons. cbv zeta.
  assert (H1 : forcing_shutdown
                 (log (EvGpioSetLevel (signal op) (level op)) w) <> 0)
    by exact Hfs.
  destruct (negb (truthy (delay op))); [apply IH; exact H1 |].
  unfold MSLEEP_CHECK_ABORTED_SUSPEND.
  rewrite msleep_check_loop_forced by exact H1.
  apply IH.
  exact (stable_msleep_check_loop _ forced_quiet_closed _ _ _ H1).
Qed.

(** The S5S3 case of [power_handle_state], step by step. *)
Lemma power_handle_state_S5S3_eq (w : world) :
  power_handle_state env POWER_S5S3 w =
  let w1 := snd (power_seq_run_ops env false s5s3_power_seq w) in
  let w2 := set_sys_reset_asserted 1 w1 in
  let rv := power_wait_signals_at env (now w2) IN_PGOOD_S3 in
  let w3 := snd (power_wait_signals env IN_PGOOD_S3 w2) in
  if truthy rv
  then (POWER_S3S5, snd (chipset_force_shutdown w3))
  else (POWER_S3, log (EvHookNotify HOOK_CHIPSET_STARTUP) w3).
Proof.
  unfold power_handle_state. unfold bind at 1.
  rewrite power_seq_run_whole_table. cbn [seq_addr_eqb seq_at].
  destruct (power_seq_run_ops env false s5s3_power_seq w) as [r w1].
  cbv zeta. cbn [snd].
  unfold bind at 1, write_sys_reset_asserted. unfold bind at 1.
  unfold power_wait_signals at 1, while_blocked, query.
  cbn [fst snd now set_sys_reset_asserted].
  destruct (truthy (power_wait_signals_at env (now w1) IN_PGOOD_S3));
    [| reflexivity].
  unfold bind, chipset_force_shutdown, bind, CPRINTS, task_wake,
    write_forcing_shutdown, emit, ret.
  reflexivity.
Qed.

(** One turn of the task loop. *)
Lemma chipset_task_S (n : nat) (s : power_state) (w : world) :
  chipset_task env (S n) s w =
  (fst (power_handle_state env s w)
     :: fst (chipset_task env n (fst (power_handle_state env s w))
               (snd (power_handle_state env s w))),
   snd (chipset_task env n (fst (power_handle_state env s w))
          (snd (power_handle_state env s w)))).
Proof.
  cbn [chipset_task]. unfold bind at 1.
  destruct (power_handle_state env s w) as [next w1]. cbn [fst snd].
  unfold bind, ret. destruct (chipset_task env n next w1) as [rest w2].
  reflexivity.
Qed.

(** *** The round trip *)

Lemma forced_stays_forced (s : power_state) (w : world) :
  s <> POWER_G3S5 ->
  forcing_shutdown w <> 0 ->
  forcing_shutdown (snd (power_handle_state env s w)) <> 0.
Proof.
  intros Hs Hfs.
  refine (stable_power_handle_state _ forced_quiet_closed _ s _ _ _ w Hfs).
  - intros w' _. cbn. lia.
  - intros E. contradiction.
  - intros _ w' H. exact H.
  - intros _ w' H. exact H.
Qed.

(** With [forcing_shutdown] set, the S0S3 case is not aborted. *)
Lemma power_handle_state_S0S3_forced (w : world) :
  forcing_shutdown w <> 0 ->
  fst (power_handle_state env POWER_S0S3 w) = POWER_S3.
Proof.
  intros Hfs. rewrite power_handle_state_S0S3_eq. cbv zeta.
  assert (H1 : forcing_shutdown (log (EvHookNotify HOOK_CHIPSET_SUSPEND) w)
               <> 0) by exact Hfs.
  unfold MSLEEP_CHECK_ABORTED_SUSPEND.
  rewrite msleep_check_loop_forced by exact H1.
  rewrite power_seq_run_ops_forced
    by exact (stable_msleep_check_loop _ forced_quiet_closed _ _ _ H1).
  reflexivity.
Qed.

(** From S0 with [forcing_shutdown] set, six invocations take the machine
    down to G3. *)
Lemma shutdown_path (w : world) :
  forcing_shutdown w <> 0 ->
  fst (chipset_task env 6 POWER_S0 w) =
  [POWER_S0S3; POWER_S3; POWER_S3S5; POWER_S5; POWER_S5G3; POWER_G3].
Proof.
  intros H0.
  rewrite chipset_task_S. cbn [fst snd].
  rewrite (steady_state_forced POWER_S0 w) by (simpl; tauto).
  cbn [shutdown_transition].
  set (w1 := snd (power_handle_state env POWER_S0 w)).
  assert (H1 : forcing_shutdown w1 <> 0)
    by (apply forced_stays_forced; [discriminate | exact H0]).
  rewrite chipset_task_S. cbn [fst snd].
  rewrite (power_handle_state_S0S3_forced w1 H1).
  set (w2 := snd (power_handle_state env POWER_S0S3 w1)).
  assert (H2 : forcing_shutdown w2 <> 0)
    by (apply forced_stays_forced; [discriminate | exact H1]).
  rewrite chipset_task_S. cbn [fst snd].
  rewrite (steady_state_forced POWER_S3 w2) by (simpl; tauto).
  cbn [shutdown_transition].
  set (w3 := snd (power_handle_state env POWER_S3 w2)).
  assert (H3 : forcing_shutdown w3 <> 0)
    by (apply forced_stays_forced; [discriminate | exact H2]).
  rewrite chipset_task_S. cbn [fst snd].
  assert (E4 : fst (power_handle_state env POWER_S3S5 w3) = POWER_S5).
  { pose proof (power_handle_state_successors POWER_S3S5 w3) as Hin.
    cbn [successors In] in Hin. destruct Hin as [E | []]. symmetry. exact E. }
  rewrite E4.
  set (w4 := snd (power_handle_state env POWER_S3S5 w3)).
  assert (H4 : forcing_shutdown w4 <> 0)
    by (apply forced_stays_forced; [discriminate | exact H3]).
  rewrite chipset_task_S. cbn [fst snd].
  rewrite (steady_state_forced POWER_S5 w4) by (simpl; tauto).
  reflexivity.
Qed.

Section RoundTrip.

(** Power is good throughout, the charger allows power-on and the battery
    does not ask for a shutdown, the AP asks to run whenever it is asked,
    and no task requests a shutdown but for the long press. *)
Hypothesis pgood_has :
  forall (t : nat) (want : Z), power_has_signals_at env t want <> 0.
Hypothesis pgood_wait :
  forall (t : nat) (want : Z), power_wait_signals_at env t want = 0.
Hypothesis charger_ok :
  forall t : nat, charge_prevent_power_on_at env t 0 = 0.
Hypothesis battery_ok :
  forall t : nat, charge_want_shutdown_at env t = 0.
Hypothesis ap_runs :
  forall t : nat,
    Z.land (power_get_signals_at env t) IN_SUSPEND_DEASSERTED <> 0.
Hypothesis no_request :
  forall t : nat, shutdown_request_at env t = false.

Lemma unforced_quiet_closed :
  quiet_closed env (fun w => forcing_shutdown w = 0).
Proof.
  split.
  - intros e w H. exact H.
  - intros t w Hreq _. rewrite no_request in Hreq. discriminate.
Qed.

Lemma power_up_S5S3 (w : world) :
  forcing_shutdown w = 0 ->
  fst (power_handle_state env POWER_S5S3 w) = POWER_S3 /\
  forcing_shutdown (snd (power_handle_state env POWER_S5S3 w)) = 0.
Proof.
  intros Hfs. rewrite power_handle_state_S5S3_eq. cbv zeta.
  rewrite pgood_wait. change (truthy 0) with false. cbn [fst snd].
  split; [reflexivity |].
  cbn [forcing_shutdown log].
  apply (stable_power_wait_signals _ unforced_quiet_closed).
  cbn [forcing_shutdown set_sys_reset_asserted].
  apply (stable_power_seq_run_ops _ unforced_quiet_closed). exact Hfs.
Qed.

Lemma power_up_S3 (w : world) :
  forcing_shutdown w = 0 ->
  fst (power_handle_state env POWER_S3 w) = POWER_S3S0 /\
  forcing_shutdown (snd (power_handle_state env POWER_S3 w)) = 0.
Proof.
  intros Hfs. destruct w as [fs sra t tr]. cbn [forcing_shutdown] in Hfs.
  subst fs. unfold power_handle_state. mrun.
  pose proof (pgood_has t IN_PGOOD_S3) as Hp.
  apply truthy_true_iff in Hp. rewrite Hp.
  change (truthy 0) with false. cbn [negb orb]. mrun.
  pose proof (ap_runs (S t)) as Ha. apply truthy_true_iff in Ha. rewrite Ha.
  split; reflexivity.
Qed.

Lemma power_up_S3S0 (w : world) :
  forcing_shutdown w = 0 ->
  fst (power_handle_state env POWER_S3S0 w) = POWER_S0 /\
  forcing_shutdown (snd (power_handle_state env POWER_S3S0 w)) = 0 /\
  sys_reset_asserted (snd (power_handle_state env POWER_S3S0 w)) = 0.
Proof.
  intros Hfs.
  split; [| split; [| apply power_handle_state_S3S0_clears]];
    rewrite power_handle_state_S3S0_eq; cbv zeta;
    rewrite pgood_wait; change (truthy 0) with false; cbn [fst snd];
    [reflexivity |].
  cbn [forcing_shutdown log].
  apply (stable_power_wait_signals _ unforced_quiet_closed).
  assert (H1 : forcing_shutdown
                 (snd (power_seq_run_ops env false s3s0_power_seq w)) = 0)
    by (apply (stable_power_seq_run_ops _ unforced_quiet_closed); exact Hfs).
  destruct (truthy (sys_reset_asserted _)); [| exact H1].
  cbn [forcing_shutdown set_sys_reset_asserted log].
  apply (stable_msleep _ unforced_quiet_closed). exact H1.
Qed.

(** From G3S5, five invocations take the machine up to S0, with both flags
    0 at the end. *)
Lemma power_up_path (w : world) :
  fst (chipset_task env 5 POWER_G3S5 w) =
    [POWER_S5; POWER_S5S3; POWER_S3; POWER_S3S0; POWER_S0] /\
  forcing_shutdown (snd (chipset_task env 5 POWER_G3S5 w)) = 0 /\
  sys_reset_asserted (snd (chipset_task env 5 POWER_G3S5 w)) = 0.
Proof.
  rewrite chipset_task_S.
  rewrite (power_handle_state_G3S5_allowed w (charger_ok _) (battery_ok _)).
  cbn [fst snd].
  set (w1 := log (EvChargeWantShutdown 0) _).
  assert (H1 : forcing_shutdown w1 = 0) by reflexivity.
  rewrite chipset_task_S.
  assert (E2 : power_handle_state env POWER_S5 w1 = (POWER_S5S3, w1)).
  { unfold power_handle_state, bind, read_forcing_shutdown, ret.
    rewrite H1. reflexivity. }
  rewrite E2. cbn [fst snd].
  rewrite chipset_task_S.
  destruct (power_up_S5S3 w1 H1) as [E3 H3]. rewrite E3. cbn [fst snd].
  set (w3 := snd (power_handle_state env POWER_S5S3 w1)) in *.
  rewrite chipset_task_S.
  destruct (power_up_S3 w3 H3) as [E4 H4]. rewrite E4. cbn [fst snd].
  set (w4 := snd (power_handle_state env POWER_S3 w3)) in *.
  rewrite chipset_task_S.
  destruct (power_up_S3S0 w4 H4) as (E5 & H5 & S5). rewrite E5.
  cbn [fst snd chipset_task ret].
  repeat split; assumption.
Qed.

(** C8. Where power is good throughout, the charger allows power-on, the AP
    asks to run and nobody else requests a shutdown, the round trip from S0
    through the long press, S3, S5, G3, the power-on, S5 and S3 goes through
    exactly these states, ends in S0, and ends with [forcing_shutdown] and
    [sys_reset_asserted] both 0, their initial values. *)
Theorem round_trip_restores_flags :
  forall w : world,
    fst (round_trip env w) =
      [POWER_S0S3; POWER_S3; POWER_S3S5; POWER_S5; POWER_S5G3; POWER_G3;
       POWER_G3S5; POWER_S5; POWER_S5S3; POWER_S3; POWER_S3S0; POWER_S0] /\
    last (fst (round_trip env w)) POWER_G3 = POWER_S0 /\
    forcing_shutdown (snd (round_trip env w)) = forcing_shutdown boot_world /\
    sys_reset_asserted (snd (round_trip env w)) =
      sys_reset_asserted boot_world.
Proof.
  intros w. unfold round_trip. cbv zeta. cbn [fst snd].
  rewrite shutdown_path by (cbn; lia).
  destruct (power_up_path
              (snd (chipset_task env 6 POWER_S0 (snd (force_shutdown w)))))
    as (Hup & Hfs & Hsra).
  rewrite Hup, Hfs, Hsra. repeat split; reflexivity.
Qed.

End RoundTrip.

(** *** The power button held across S0S3 *)

(** C6, as the code has it.  When the S0S3 case completes its sequence
    without an abort and finds the power button pressed, it writes 1 to
    [forcing_shutdown] itself and calls [hook_call_deferred] on the shutdown
    action with the delay -1, which cancels what was pending; these are its
    last calls, and it resolves to S3. *)
Theorem button_held_on_suspend :
  forall w : world,
    let m := MSLEEP_CHECK_ABORTED_SUSPEND env 20
               (log (EvHookNotify HOOK_CHIPSET_SUSPEND) w) in
    let r := power_seq_run_ops env true s0s3_power_seq (snd m) in
    let pressed := power_button_is_pressed_at env (S (now (snd r))) in
    let res := power_handle_state env POWER_S0S3 w in
    fst m = false -> fst r = 0 -> pressed <> 0 ->
    fst res = POWER_S3 /\
    forcing_shutdown (snd res) = 1 /\
    trace (snd res) =
      trace (snd r) ++
        [EvEnableSleep; EvPowerButtonIsPressed pressed;
         EvHookCallDeferred (-1)].
Proof.
  intros w m r pressed res Hm Hr Hp.
  unfold res. rewrite power_handle_state_S0S3_eq. cbv zeta.
  fold m. rewrite Hm. fold r. rewrite Hr. change (truthy 0) with false.
  cbn [now log]. fold pressed.
  apply truthy_true_iff in Hp. rewrite Hp.
  cbn [fst snd forcing_shutdown trace log set_forcing_shutdown].
  rewrite <- !app_assoc. repeat split; reflexivity.
Qed.

(** *** Transient states *)




(** *** The loops end by their own tests *)

(** More fuel than [charger_wait_bound] changes nothing. *)
Lemma charger_wait_loop_fuel :
  forall (fuel : nat) (tries : Z) (w : world),
    (charger_wait_bound tries <= fuel)%nat ->
    charger_wait_loop env fuel tries w =
    charger_wait_loop env (charger_wait_bound tries) tries w.
Proof.
  induction fuel as [| fuel IH]; intros tries w Hle.
  - unfold charger_wait_bound in Hle. lia.
  - unfold charger_wait_bound at 1. rewrite !charger_wait_loop_S. cbv zeta.
    destruct (truthy (charge_prevent_power_on_at env (now w) 0));
      [| reflexivity].
    destruct (Z.ltb_spec tries CHARGER_INITIALIZED_TRIES) as [Hlt | Hge];
      [| reflexivity].
    assert (Hb : charger_wait_bound (tries + 1) =
                 Z.to_nat (CHARGER_INITIALIZED_TRIES - tries))
      by (unfold charger_wait_bound, CHARGER_INITIALIZED_TRIES in *; lia).
    rewrite <- Hb. apply IH.
    unfold charger_wait_bound, CHARGER_INITIALIZED_TRIES in *. lia.
Qed.

(** A check that finds [forcing_shutdown] clear after its sleep and the AP
    asking to run is a check that saw the resume. *)
Lemma resume_seen_at_first_check (msec : Z) (w : world) :
  let w1 := snd (msleep env (Z.min msec SLEEP_INTERVAL_MS) w) in
  forcing_shutdown w1 = 0 ->
  Z.land (power_get_signals_at env (now w1)) IN_SUSPEND_DEASSERTED <> 0 ->
  resume_seen w (snd (MSLEEP_CHECK_ABORTED_SUSPEND env msec w)).
Proof.
  intros w1 Hfs Hsig. rewrite MSLEEP_CHECK_ABORTED_SUSPEND_eq.
  unfold bind at 1.
  assert (E : msleep env (Z.min msec SLEEP_INTERVAL_MS) w = (tt, w1))
    by (unfold w1; destruct (msleep env _ w) as [[] w']; reflexivity).
  rewrite E. unfold bind at 1, read_forcing_shutdown. rewrite Hfs.
  change (truthy 0) with false. cbn [negb].
  unfold bind at 1. unfold bind at 1, power_get_signals, query, ret.
  apply truthy_true_iff in Hsig. rewrite Hsig.
  unfold bind, CPRINTS, emit. cbn [snd].
  assert (H1 : trace w1 = trace w ++ [EvMsleep (Z.min msec SLEEP_INTERVAL_MS)]).
  { unfold w1, msleep, while_blocked, emit. cbn [fst snd].
    destruct (shutdown_request_at env (now w)); reflexivity. }
  exists [EvMsleep (Z.min msec SLEEP_INTERVAL_MS);
          EvPowerGetSignals (power_get_signals_at env (now w1));
          EvCprints "suspend aborted" []].
  split.
  - cbn [trace log]. rewrite H1, <- !app_assoc. reflexivity.
  - cbn [existsb resume_read]. rewrite Hsig. reflexivity.
Qed.

End Properties.

(** The S3 instance of C1 on the version 0 board, in a world where a
    shutdown has been requested. *)
Lemma forced_shutdown_heads_for_G3_witness :
  fst (power_handle_state (P := board_v0) (steady_env (fun _ => 8))
         POWER_S3 shutdown_world) = POWER_S3S5 /\
  toward_S0 (fst (power_handle_state (P := board_v0) (steady_env (fun _ => 8))
                    POWER_S3 shutdown_world)) = false.
Proof.
  apply (forced_shutdown_heads_for_G3 (P := board_v0) (steady_env (fun _ => 8))
           POWER_S3 shutdown_world).
  - simpl. auto.
  - simpl. lia.
Defined.

(** C3 on the S3S5 table of the version 0 board, as the S3S5 case calls
    [power_seq_run]. *)
Lemma sequence_order_preserved_witness :
  fst (power_seq_run (P := board_v0) (steady_env (fun _ => 0))
         addr_s3s5_power_seq (ARRAY_SIZE (P := board_v0) addr_s3s5_power_seq)
         boot_world) = 0 /\
  gpio_writes
    (trace (snd (power_seq_run (P := board_v0) (steady_env (fun _ => 0))
                   addr_s3s5_power_seq
                   (ARRAY_SIZE (P := board_v0) addr_s3s5_power_seq)
                   boot_world))) =
  map op_write (s3s5_power_seq (P := board_v0)).
Proof.
  destruct (sequence_order_preserved (P := board_v0) (steady_env (fun _ => 0))
              addr_s3s5_power_seq
              (ARRAY_SIZE (P := board_v0) addr_s3s5_power_seq)
              false [] boot_world)
    as (Hdone & _ & Horder & _).
  split.
  - apply Hdone. discriminate.
  - apply Horder. vm_compute. reflexivity.
Defined.

(** C2 on the S0S3 table of the version 2 board, which has five steps: the
    AP asks to run at the third check of the 20 ms after the second step
    (call 9 of the task); the executor returns POWER_S3S0 after exactly two
    rail writes. *)
Lemma suspend_abort_witness :
  fst (power_seq_run (P := board_v2) resume_at_9 addr_s0s3_power_seq
         (ARRAY_SIZE (P := board_v2) addr_s0s3_power_seq) boot_world) = 6 /\
  exists before : list event,
    trace (snd (power_seq_run (P := board_v2) resume_at_9 addr_s0s3_power_seq
                  (ARRAY_SIZE (P := board_v2) addr_s0s3_power_seq)
                  boot_world)) =
      before ++ [EvPowerGetSignals 8; EvCprints "suspend aborted" []] /\
    gpio_writes before = [(GPIO_PP1800_S0_EN, 0); (GPIO_AP_CORE_EN, 0)].
Proof.
  destruct (suspend_abort (P := board_v2) resume_at_9
              [mk_op GPIO_PP1800_S0_EN 0 1]
              [mk_op GPIO_PP3300_S0_EN 0 20; mk_op GPIO_PP1800_USB_EN 0 1;
               mk_op GPIO_PP900_S0_EN 0 1]
              (mk_op GPIO_AP_CORE_EN 0 20) 2%nat boot_world)
    as [Hrun _].
  - reflexivity.
  - vm_compute. lia.
  - reflexivity.
  - destruct Hrun as (Hv & _ & _ & Hex & _).
    + intros t Ht. change (now boot_world) with O in Ht.
      change (calls_of_run [mk_op GPIO_PP1800_S0_EN 0 1]) with 3%nat in Ht.
      assert (Hlt : (t < 9)%nat) by lia.
      split; [reflexivity |].
      do 9 (destruct t as [| t]; [reflexivity |]). lia.
    + vm_compute. discriminate.
    + split; [exact Hv | exact Hex].
Defined.

(** C4 where the charger never allows power-on: back to G3, with
    [forcing_shutdown] set; and where it allows power-on at the second poll
    and a shutdown is requested during the sleep before it: on to S5, with
    the request kept. *)
Lemma charger_gate_witness :
  (fst (power_handle_state (P := board_v0) no_battery_env
          POWER_G3S5 boot_world) = POWER_G3 /\
   forcing_shutdown (snd (power_handle_state (P := board_v0) no_battery_env
                            POWER_G3S5 boot_world)) = 1) /\
  (fst (power_handle_state (P := board_v0) late_request_env
          POWER_G3S5 boot_world) = POWER_S5 /\
   forcing_shutdown (snd (power_handle_state (P := board_v0) late_request_env
                            POWER_G3S5 boot_world)) = 1).
Proof.
  split.
  - destruct (charger_gate (P := board_v0) no_battery_env boot_world)
      as (_ & Hex & _).
    destruct Hex as (Hs & Hf & _).
    + intros i _. simpl. lia.
    + split; [exact Hs | exact Hf].
  - destruct (charger_gate (P := board_v0) late_request_env boot_world)
      as (_ & _ & Hal).
    destruct (Hal 1%nat) as (_ & _ & Hgo).
    + lia.
    + intros i Hi. assert (i = O) by lia. subst i. simpl. lia.
    + reflexivity.
    + destruct Hgo as (Hs & _ & Hf); [reflexivity |].
      split; [exact Hs |]. apply Hf. exists O. split; [lia | reflexivity].
Defined.


(** C6 as stated fails: on the version 0 board, with the button held, the
    S0S3 case completes, finds the button pressed, and makes no call of
    [hook_call_deferred] with delay 0; its one call has the delay -1. *)
Lemma button_held_not_armed_with_zero_delay :
  (fst (power_handle_state (P := board_v0) held_button_env
          POWER_S0S3 boot_world) = POWER_S3 /\
   existsb is_button_pressed
     (trace (snd (power_handle_state (P := board_v0) held_button_env
                    POWER_S0S3 boot_world))) = true) /\
  existsb (is_deferred_call 0)
    (trace (snd (power_handle_state (P := board_v0) held_button_env
                   POWER_S0S3 boot_world))) = false /\
  filter (is_deferred_call (-1))
    (trace (snd (power_handle_state (P := board_v0) held_button_env
                   POWER_S0S3 boot_world))) = [EvHookCallDeferred (-1)].
Proof.
  vm_compute. repeat split; reflexivity.
Qed.

(** C6 as the code has it, at the same input. *)
Lemma button_held_on_suspend_witness :
  fst (power_handle_state (P := board_v0) held_button_env
         POWER_S0S3 boot_world) = POWER_S3 /\
  forcing_shutdown (snd (power_handle_state (P := board_v0) held_button_env
                           POWER_S0S3 boot_world)) = 1.
Proof.
  destruct (button_held_on_suspend (P := board_v0) held_button_env boot_world)
    as (Hs & Hf & _).
  - vm_compute. reflexivity.
  - vm_compute. reflexivity.
  - simpl. lia.
  - split; [exact Hs | exact Hf].
Defined.


(** C8 on the version 0 board. *)
Lemma round_trip_restores_flags_witness :
  last (fst (round_trip (P := board_v0) (steady_env (fun _ => 8)) boot_world))
       POWER_G3 = POWER_S0 /\
  forcing_shutdown
    (snd (round_trip (P := board_v0) (steady_env (fun _ => 8)) boot_world))
    = 0 /\
  sys_reset_asserted
    (snd (round_trip (P := board_v0) (steady_env (fun _ => 8)) boot_world))
    = 0.
Proof.
  destruct (round_trip_restores_flags (P := board_v0)
              (steady_env (fun _ => 8))) with (w := boot_world)
    as (_ & Hl & Hf & Hs).
  - intros t want. simpl. lia.
  - intros t want. reflexivity.
  - intros t. reflexivity.
  - intros t. reflexivity.
  - intros t. vm_compute. discriminate.
  - intros t. reflexivity.
  - repeat split; assumption.
Defined.

(** C9 in S3, with a shutdown requested; and in G3S5, entered with the
    flag set, where the charger allows power-on at once (the flag is
    cleared) and where a shutdown is requested during the charger wait (the
    request is kept). *)
Lemma forcing_shutdown_persists_witness :
  forcing_shutdown
    (snd (power_handle_state (P := board_v0) (steady_env (fun _ => 8))
            POWER_S3 shutdown_world)) = 1 /\
  forcing_shutdown
    (snd (power_handle_state (P := board_v0) (steady_env (fun _ => 8))
            POWER_G3S5 shutdown_world)) = 0 /\
  forcing_shutdown
    (snd (power_handle_state (P := board_v0) late_request_env
            POWER_G3S5 shutdown_world)) = 1.
Proof.
  split; [| split].
  - destruct (forcing_shutdown_persists (P := board_v0)
                (steady_env (fun _ => 8)) POWER_S3 shutdown_world)
      as (Hkept & _).
    destruct Hkept as [E | E]; [discriminate | exact E | exact E].
  - destruct (forcing_shutdown_persists (P := board_v0)
                (steady_env (fun _ => 8)) POWER_G3S5 shutdown_world)
      as (_ & _ & _ & _ & _ & _ & _ & _ & _ & _ & Hflag).
    destruct (Hflag O) as (_ & Hclear & _).
    + lia.
    + intros i Hi. lia.
    + reflexivity.
    + reflexivity.
    + apply Hclear. intros i Hi. lia.
  - destruct (forcing_shutdown_persists (P := board_v0)
                late_request_env POWER_G3S5 shutdown_world)
      as (_ & _ & _ & _ & _ & _ & _ & _ & _ & _ & Hflag).
    destruct (Hflag 1%nat) as (_ & _ & Hkeep).
    + lia.
    + intros i Hi. assert (i = O) by lia. subst i. simpl. lia.
    + reflexivity.
    + reflexivity.
    + apply Hkeep. exists O. split; [lia | reflexivity].
Defined.



(** ** Further properties of power/rk3399.c *)

Section MoreProperties.

Context {P : Platform} (env : environment).

(** *** How long the sequencing sleeps *)

Lemma slept_app (a b : list event) : slept (a ++ b) = slept a + slept b.
Proof.
  induction a as [| e a IH]; cbn [app slept]; [lia |].
  destruct e; rewrite IH; lia.
Qed.

Lemma filter_is_msleep_length_app (a b : list event) :
  List.length (filter is_msleep (a ++ b)) =
  (List.length (filter is_msleep a) + List.length (filter is_msleep b))%nat.
Proof. rewrite filter_app, length_app. reflexivity. Qed.

(** The loop of the macro on a positive time: every sleep lasts at most
    [SLEEP_INTERVAL_MS]; the time slept is at most [rem], and exactly [rem],
    in [rem / 5] rounded up sleeps, when the loop is not aborted. *)
Lemma msleep_check_loop_slept :
  forall (fuel : nat) (rem : Z) (w : world),
    0 < rem ->
    (msleep_intervals rem <= fuel)%nat ->
    exists new : list event,
      trace (snd (msleep_check_loop env fuel rem w)) = trace w ++ new /\
      forallb (msleep_at_most SLEEP_INTERVAL_MS) new = true /\
      0 < slept new <= rem /\
      (fst (msleep_check_loop env fuel rem w) = false ->
       slept new = rem /\
       List.length (filter is_msleep new) = Z.to_nat ((rem + 4) / 5)).
Proof.
  induction fuel as [| fuel IH]; intros rem w Hpos Hfuel.
  - unfold msleep_intervals in Hfuel. lia.
  - cbn [msleep_check_loop]. destruct w as [fs sra t tr]. mrun.
    set (fs1 := if shutdown_request_at env t then 1 else fs).
    set (sl := EvMsleep (Z.min rem SLEEP_INTERVAL_MS)).
    replace (if shutdown_request_at env t
             then mk_world 1 sra (S t) (tr ++ [sl])
             else mk_world fs sra (S t) (tr ++ [sl]))
      with (mk_world fs1 sra (S t) (tr ++ [sl]))
      by (unfold fs1; destruct (shutdown_request_at env t); reflexivity).
    mrun.
    assert (Hsl : msleep_at_most SLEEP_INTERVAL_MS sl = true).
    { unfold sl, msleep_at_most, SLEEP_INTERVAL_MS.
      apply andb_true_iff. split; [apply Z.ltb_lt | apply Z.leb_le]; lia. }
    assert (Hlast : (rem - SLEEP_INTERVAL_MS >? 0) = false ->
              Z.min rem SLEEP_INTERVAL_MS = rem /\
              Z.to_nat ((rem + 4) / 5) = 1%nat).
    { unfold SLEEP_INTERVAL_MS. intros Hle.
      assert (rem <= 5) by (destruct (Z.gtb_spec (rem - 5) 0); [discriminate | lia]).
      split; [lia |].
      assert ((rem + 4) / 5 = 1); [| lia].
      symmetry. apply (Z.div_unique (rem + 4) 5 1 (rem - 1)); lia. }
    assert (Hmore : forall w1 : world,
              (rem - SLEEP_INTERVAL_MS >? 0) = true ->
              exists new' : list event,
                trace (snd (msleep_check_loop env fuel
                              (rem - SLEEP_INTERVAL_MS) w1)) =
                  trace w1 ++ new' /\
                forallb (msleep_at_most SLEEP_INTERVAL_MS) new' = true /\
                0 < slept new' <= rem - 5 /\
                (fst (msleep_check_loop env fuel
                        (rem - SLEEP_INTERVAL_MS) w1) = false ->
                 slept new' = rem - 5 /\
                 S (List.length (filter is_msleep new')) =
                   Z.to_nat ((rem + 4) / 5)) /\
                Z.min rem SLEEP_INTERVAL_MS = 5).
    { intros w1 Hgt. unfold SLEEP_INTERVAL_MS in *.
      apply Z.gtb_lt in Hgt.
      assert (Hdiv : (rem - 5) / 5 = rem / 5 - 1).
      { replace (rem - 5) with (rem + (-1) * 5) by lia.
        rewrite Z.div_add by lia. lia. }
      assert (1 <= rem / 5) by (apply Z.div_le_lower_bound; lia).
      destruct (IH (rem - 5) w1) as (new' & Htr & Hall & Hsl' & Hdone).
      - lia.
      - unfold msleep_intervals, SLEEP_INTERVAL_MS in *. rewrite Hdiv. lia.
      - exists new'. split; [exact Htr |]. split; [exact Hall |].
        split; [exact Hsl' |]. split; [| lia].
        intros Hf. destruct (Hdone Hf) as [Hs Hc]. split; [exact Hs |].
        rewrite Hc.
        replace (rem + 4) with (rem - 5 + 4 + 1 * 5) by lia.
        rewrite Z.div_add by lia.
        assert (0 <= (rem - 5 + 4) / 5) by (apply Z.div_pos; lia).
        lia. }
    destruct (truthy fs1) eqn:Hfs1; cbn [negb]; mrun.
    + destruct (rem - SLEEP_INTERVAL_MS >? 0) eqn:Hgt.
      * destruct (Hmore (mk_world fs1 sra (S t) (tr ++ [sl])) eq_refl)
          as (new' & Htr & Hall & Hsl' & Hdone & Hmin).
        exists (sl :: new'). cbn [trace] in Htr.
        split; [rewrite Htr, <- app_assoc; reflexivity |].
        split; [cbn [forallb]; rewrite Hsl, Hall; reflexivity |].
        cbn [slept sl filter is_msleep List.length]. rewrite Hmin.
        split; [lia |].
        intros Hf. destruct (Hdone Hf). split; [lia | assumption].
      * destruct (Hlast eq_refl) as [Hmin Hone].
        exists [sl]. cbn [fst snd trace].
        split; [reflexivity |].
        split; [cbn [forallb]; rewrite Hsl; reflexivity |].
        cbn [slept sl filter is_msleep List.length]. rewrite Hmin, Hone.
        split; [lia |]. intros _. split; [lia | reflexivity].
    + set (v := power_get_signals_at env (S t)).
      destruct (truthy (Z.land v IN_SUSPEND_DEASSERTED)) eqn:Hv.
      * exists [sl; EvPowerGetSignals v; EvCprints "suspend aborted" []].
        cbn [fst snd trace].
        split; [rewrite <- !app_assoc; reflexivity |].
        split; [cbn [forallb msleep_at_most]; rewrite Hsl; reflexivity |].
        cbn [slept sl]. split; [| discriminate].
        unfold SLEEP_INTERVAL_MS. lia.
      * destruct (rem - SLEEP_INTERVAL_MS >? 0) eqn:Hgt.
        -- destruct (Hmore (mk_world fs1 sra (S (S t))
                              ((tr ++ [sl]) ++ [EvPowerGetSignals v]))
                       eq_refl)
             as (new' & Htr & Hall & Hsl' & Hdone & Hmin).
           exists (sl :: EvPowerGetSignals v :: new'). cbn [trace] in Htr.
           split; [rewrite Htr, <- !app_assoc; reflexivity |].
           split; [cbn [forallb msleep_at_most]; rewrite Hsl, Hall;
                   reflexivity |].
           cbn [slept sl filter is_msleep List.length]. rewrite Hmin.
           split; [lia |].
           intros Hf. destruct (Hdone Hf). split; [lia | assumption].
        -- destruct (Hlast eq_refl) as [Hmin Hone].
           exists [sl; EvPowerGetSignals v]. cbn [fst snd trace].
           split; [rewrite <- !app_assoc; reflexivity |].
           split; [cbn [forallb msleep_at_most]; rewrite Hsl; reflexivity |].
           cbn [slept sl filter is_msleep List.length]. rewrite Hmin, Hone.
           split; [lia |]. intros _. split; [lia | reflexivity].
Qed.

(** X1. [MSLEEP_CHECK_ABORTED_SUSPEND] on a positive time sleeps in
    intervals of at most 5 ms; it never sleeps longer than asked, and when
    it is not aborted it has slept exactly the time asked, in the time
    divided by 5, rounded up, sleeps. *)
Theorem abort_checking_sleep_duration :
  forall (msec : Z) (w : world),
    0 < msec ->
    exists new : list event,
      trace (snd (MSLEEP_CHECK_ABORTED_SUSPEND env msec w)) = trace w ++ new /\
      forallb (msleep_at_most 5) new = true /\
      slept new <= msec /\
      (fst (MSLEEP_CHECK_ABORTED_SUSPEND env msec w) = false ->
       slept new = msec /\
       List.length (filter is_msleep new) = Z.to_nat ((msec + 4) / 5)).
Proof.
  intros msec w Hpos.
  destruct (msleep_check_loop_slept (msleep_intervals msec) msec w Hpos
              (Nat.le_refl _)) as (new & Htr & Hall & Hsl & Hdone).
  exists new. unfold MSLEEP_CHECK_ABORTED_SUSPEND.
  split; [exact Htr |]. split; [exact Hall |]. split; [lia | exact Hdone].
Qed.

Lemma total_delay_nonneg (ops : list power_seq_op) :
  Forall (fun op => 0 <= delay op) ops -> 0 <= total_delay ops.
Proof.
  induction 1 as [| op ops Hop _ IH]; cbn [total_delay fold_right];
    [lia |].
  fold (total_delay ops). lia.
Qed.

Lemma power_seq_run_ops_slept :
  forall (check_abort : bool) (ops : list power_seq_op) (w : world),
    Forall (fun op => 0 <= delay op) ops ->
    exists new : list event,
      trace (snd (power_seq_run_ops env check_abort ops w)) = trace w ++ new /\
      slept new <= total_delay ops /\
      (fst (power_seq_run_ops env check_abort ops w) = 0 ->
       slept new = total_delay ops) /\
      (check_abort = true -> forallb (msleep_at_most 5) new = true).
Proof.
  intros check_abort ops. induction ops as [| op rest IH]; intros w Hall.
  - exists []. cbn. rewrite app_nil_r. repeat split; lia.
  - inversion Hall as [| op' rest' Hop Hrest]; subst.
    pose proof (total_delay_nonneg rest Hrest) as Hnn.
    rewrite power_seq_run_ops_cons. cbv zeta.
    set (wr := EvGpioSetLevel (signal op) (level op)).
    change (total_delay (op :: rest)) with (delay op + total_delay rest).
    assert (Hstep : forall (w2 : world) (pre : list event),
               trace w2 = trace (log wr w) ++ pre ->
               slept pre = delay op ->
               (check_abort = true -> forallb (msleep_at_most 5) pre = true) ->
               exists new : list event,
                 trace (snd (power_seq_run_ops env check_abort rest w2)) =
                   trace w ++ new /\
                 slept new <= delay op + total_delay rest /\
                 (fst (power_seq_run_ops env check_abort rest w2) = 0 ->
                  slept new = delay op + total_delay rest) /\
                 (check_abort = true ->
                  forallb (msleep_at_most 5) new = true)).
    { intros w2 pre Htr Hsl Hpre.
      destruct (IH w2 Hrest) as (new & Htr' & Hle & Heq & Hal).
      exists (wr :: pre ++ new).
      split; [rewrite Htr', Htr; cbn [trace log];
              rewrite <- !app_assoc; reflexivity |].
      cbn [slept wr]. rewrite slept_app, Hsl.
      split; [lia |]. split; [intros H0; rewrite (Heq H0); lia |].
      intros Hc. cbn [forallb msleep_at_most]. rewrite forallb_app.
      rewrite (Hpre Hc), (Hal Hc). reflexivity. }
    destruct (truthy (delay op)) eqn:Hd; cbn [negb].
    + apply truthy_true_iff in Hd.
      destruct check_abort.
      * destruct (msleep_check_loop_slept (msleep_intervals (delay op))
                    (delay op) (log wr w))
          as (pre & Htr & Hal & Hle & Hdone); [lia | apply Nat.le_refl |].
        fold (MSLEEP_CHECK_ABORTED_SUSPEND env (delay op)) in Htr, Hdone.
        destruct (fst (MSLEEP_CHECK_ABORTED_SUSPEND env (delay op) (log wr w)))
          eqn:Hab.
        -- exists (wr :: pre). cbn [fst snd].
           split; [rewrite Htr; cbn [trace log]; rewrite <- app_assoc;
                   reflexivity |].
           cbn [slept wr]. split; [lia |].
           split; [intros H0; exfalso; exact (POWER_S3S0_nonzero H0) |].
           intros _. cbn [forallb msleep_at_most]. exact Hal.
        -- destruct (Hdone eq_refl) as [Hs _].
           apply (Hstep _ pre); [exact Htr | exact Hs | intros _; exact Hal].
      * apply (Hstep _ [EvMsleep (delay op)]).
        -- unfold msleep, while_blocked, emit. cbn [fst snd].
           destruct (shutdown_request_at env (now (log wr w))); reflexivity.
        -- cbn [slept]. lia.
        -- discriminate.
    + apply truthy_false_iff in Hd.
      apply (Hstep (log wr w) []).
      * rewrite app_nil_r. reflexivity.
      * cbn [slept]. lia.
      * reflexivity.
Qed.

(** The delays of the tables are not negative. *)
Lemma tables_delays_nonneg (a : seq_addr) :
  Forall (fun op => 0 <= delay op) (seq_at a).
Proof.
  pose proof (tables_in_range a) as H. rewrite Forall_forall in H |- *.
  intros op Hin. destruct (H op Hin) as [_ Hd]. lia.
Qed.

(** X2. A run of [power_seq_run] that returns 0 has slept the sum of the
    delays of the steps it was given, with or without the abort check; an
    aborted run has slept no longer than that; on the S0S3 table no single
    sleep lasts more than 5 ms. *)
Theorem sequence_sleeps_its_delays :
  forall (a : seq_addr) (op_count : nat) (w : world),
    exists new : list event,
      trace (snd (power_seq_run env a op_count w)) = trace w ++ new /\
      slept new <= total_delay (firstn op_count (seq_at a)) /\
      (fst (power_seq_run env a op_count w) = 0 ->
       slept new = total_delay (firstn op_count (seq_at a))) /\
      (a = addr_s0s3_power_seq -> forallb (msleep_at_most 5) new = true).
Proof.
  intros a op_count w. unfold power_seq_run.
  pose proof (tables_delays_nonneg a) as Hall.
  assert (Hfirst : Forall (fun op => 0 <= delay op)
                     (firstn op_count (seq_at a))).
  { rewrite <- (firstn_skipn op_count (seq_at a)) in Hall.
    apply Forall_app in Hall. exact (proj1 Hall). }
  destruct (power_seq_run_ops_slept (seq_addr_eqb a addr_s0s3_power_seq)
              (firstn op_count (seq_at a)) w Hfirst)
    as (new & Htr & Hle & Heq & Hal).
  exists new. split; [exact Htr |]. split; [exact Hle |].
  split; [exact Heq |]. intros ->. apply Hal. reflexivity.
Qed.



(** *** A suspend that is not aborted *)

(** X3. With [forcing_shutdown] set the S0S3 case always resolves to S3.
    Whenever the S0S3 case resolves to S3, it has written every step of the
    S0S3 table, in order, and has slept 20 ms plus the delays of the table,
    5 ms at most at a time. *)
Theorem suspend_runs_to_completion :
  forall w : world,
    (forcing_shutdown w <> 0 ->
     fst (power_handle_state env POWER_S0S3 w) = POWER_S3) /\
    (fst (power_handle_state env POWER_S0S3 w) = POWER_S3 ->
     exists new : list event,
       trace (snd (power_handle_state env POWER_S0S3 w)) = trace w ++ new /\
       gpio_writes new = map op_write s0s3_power_seq /\
       slept new = 20 + total_delay s0s3_power_seq /\
       forallb (msleep_at_most 5) new = true).
Proof.
  intros w. split; [apply power_handle_state_S0S3_forced |].
  rewrite power_handle_state_S0S3_eq. cbv zeta.
  set (hook := EvHookNotify HOOK_CHIPSET_SUSPEND).
  destruct (msleep_check_loop_slept (msleep_intervals 20) 20 (log hook w))
    as (nm & Hm & Hmall & _ & Hmdone); [lia | apply Nat.le_refl |].
  destruct (msleep_check_loop_spec env (msleep_intervals 20) 20 (log hook w))
    as (nm' & Hm' & Hmw & _).
  rewrite Hm in Hm'. apply app_inv_head in Hm'. subst nm'.
  fold (MSLEEP_CHECK_ABORTED_SUSPEND env 20) in Hm, Hmdone.
  set (m := MSLEEP_CHECK_ABORTED_SUSPEND env 20 (log hook w)) in *.
  destruct (fst m); cbn [fst]; [discriminate |].
  destruct (Hmdone eq_refl) as [Hms _].
  destruct (power_seq_run_ops_slept true s0s3_power_seq (snd m)
              (tables_delays_nonneg addr_s0s3_power_seq))
    as (nr & Hr & _ & Hrs & Hrall).
  destruct (power_seq_run_ops_spec env true s0s3_power_seq (snd m))
    as (nr' & Hr' & _ & Hrw & _).
  rewrite Hr in Hr'. apply app_inv_head in Hr'. subst nr'.
  set (r := power_seq_run_ops env true s0s3_power_seq (snd m)) in *.
  destruct (truthy (fst r)) eqn:Er; cbn [fst snd]; [discriminate |].
  intros _. apply truthy_false_iff in Er.
  destruct (Hrw Er) as [Hw _]. specialize (Hrs Er).
  specialize (Hrall eq_refl).
  set (pressed := power_button_is_pressed_at env _).
  assert (Hfin : exists tail : list event,
             trace (if truthy pressed
                    then log (EvHookCallDeferred (-1))
                           (set_forcing_shutdown 1
                              (log (EvPowerButtonIsPressed pressed)
                                 (log EvEnableSleep (snd r))))
                    else log (EvPowerButtonIsPressed pressed)
                           (log EvEnableSleep (snd r))) =
             trace w ++ (hook :: nm ++ nr) ++ tail /\
             gpio_writes tail = [] /\ slept tail = 0 /\
             forallb (msleep_at_most 5) tail = true).
  { destruct (truthy pressed); cbn [trace log set_forcing_shutdown];
      rewrite Hr, Hm; cbn [trace log].
    - exists [EvEnableSleep; EvPowerButtonIsPressed pressed;
              EvHookCallDeferred (-1)].
      cbn [app]. rewrite <- !app_assoc. cbn [app].
      repeat split; reflexivity.
    - exists [EvEnableSleep; EvPowerButtonIsPressed pressed].
      cbn [app]. rewrite <- !app_assoc. cbn [app].
      repeat split; reflexivity. }
  destruct Hfin as (tail & Ht & Htw & Hts & Htall).
  unfold SLEEP_INTERVAL_MS in Hmall.
  exists ((hook :: nm ++ nr) ++ tail). split; [exact Ht |].
  change (hook :: nm ++ nr) with ([hook] ++ nm ++ nr).
  rewrite !gpio_writes_app, !slept_app, !forallb_app.
  rewrite Hmw, Hw, Htw, Hms, Hrs, Hts, Hmall, Hrall, Htall.
  cbn. rewrite app_nil_r. repeat split; lia.
Qed.

(** *** Resume *)

Lemma s3s0_table_leaves_SYS_RST :
  ~ In GPIO_SYS_RST_L (map signal s3s0_power_seq).
Proof.
  unfold s3s0_power_seq.
  destruct (CONFIG_CHIPSET_POWER_SEQ_VERSION =? 2); cbn;
    intros H; repeat destruct H as [H | H]; discriminate || contradiction.
Qed.

(** X4. The rail writes of the S3S0 case are those of the S3S0 table, in
    order, followed by the release of SYS_RST_L when [sys_reset_asserted]
    was set, and by nothing when it was clear; the table itself does not
    write SYS_RST_L, so a resume that does not come from S5 leaves the
    reset line alone. *)
Theorem resume_rail_writes :
  forall w : world,
    gpio_writes (trace (snd (power_handle_state env POWER_S3S0 w))) =
    gpio_writes (trace w) ++ map op_write s3s0_power_seq ++
      (if truthy (sys_reset_asserted w) then [(GPIO_SYS_RST_L, 1)] else []) /\
    (sys_reset_asserted w = 0 ->
     ~ In GPIO_SYS_RST_L
         (map fst (map op_write s3s0_power_seq ++
                   (if truthy (sys_reset_asserted w)
                    then [(GPIO_SYS_RST_L, 1)] else [])))).
Proof.
  intros w. split.
  - rewrite power_handle_state_S3S0_eq. cbv zeta.
    destruct (power_seq_run_ops_spec env false s3s0_power_seq w)
      as (new & Htr & Hsra & Hok & _).
    destruct (Hok (power_seq_run_ops_plain_completes env _ _)) as [Hw _].
    set (w1 := snd (power_seq_run_ops env false s3s0_power_seq w)) in *.
    rewrite Hsra.
    set (w2 := if truthy (sys_reset_asserted w) then _ else w1).
    assert (H2 : gpio_writes (trace w2) =
                 gpio_writes (trace w) ++ map op_write s3s0_power_seq ++
                 (if truthy (sys_reset_asserted w)
                  then [(GPIO_SYS_RST_L, 1)] else [])).
    { unfold w2. destruct (truthy (sys_reset_asserted w)).
      - unfold msleep, while_blocked, emit. cbn [fst snd].
        destruct (shutdown_request_at env (now w1));
          cbn [trace log set_sys_reset_asserted set_forcing_shutdown];
          rewrite Htr, !gpio_writes_app, Hw; cbn [gpio_writes];
          rewrite <- !app_assoc; reflexivity.
      - rewrite Htr, gpio_writes_app, Hw, app_nil_r. reflexivity. }
    assert (H3 : gpio_writes
                   (trace (snd (power_wait_signals env IN_PGOOD_S0 w2))) =
                 gpio_writes (trace w2)).
    { unfold power_wait_signals, while_blocked, query. cbn [fst snd].
      destruct (shutdown_request_at env (now w2));
        cbn [trace log set_forcing_shutdown]; rewrite gpio_writes_app;
        cbn [gpio_writes]; apply app_nil_r. }
    destruct (truthy (power_wait_signals_at env (now w2) IN_PGOOD_S0));
      cbn [snd].
    + unfold chipset_force_shutdown, bind, CPRINTS, task_wake,
        write_forcing_shutdown, emit.
      cbn [snd trace log set_forcing_shutdown].
      rewrite !gpio_writes_app. cbn [gpio_writes]. rewrite !app_nil_r.
      rewrite H3. exact H2.
    + cbn [trace log]. rewrite !gpio_writes_app. cbn [gpio_writes].
      rewrite !app_nil_r. rewrite H3. exact H2.
  - intros H0. rewrite H0. change (truthy 0) with false.
    rewrite app_nil_r, map_map. cbn [op_write fst].
    exact s3s0_table_leaves_SYS_RST.
Qed.

(** *** The charger loop is bounded *)

Lemma charger_wait_loop_bounded :
  forall (fuel : nat) (tries : Z) (w : world),
    exists new : list event,
      trace (snd (charger_wait_loop env fuel tries w)) = trace w ++ new /\
      gpio_writes new = [] /\
      (List.length (filter is_charger_poll new)
       <= S (Z.to_nat (CHARGER_INITIALIZED_TRIES - tries)))%nat /\
      0 <= slept new <=
        CHARGER_INITIALIZED_DELAY_MS *
        Z.max 0 (CHARGER_INITIALIZED_TRIES - tries).
Proof.
  induction fuel as [| fuel IH]; intros tries w.
  - exists []. cbn [charger_wait_loop ret snd]. rewrite app_nil_r.
    unfold CHARGER_INITIALIZED_DELAY_MS, CHARGER_INITIALIZED_TRIES.
    cbn [gpio_writes filter List.length slept]. repeat split; lia.
  - rewrite charger_wait_loop_S. cbv zeta.
    unfold charge_prevent_power_on, query. cbn [snd].
    set (poll := EvChargePreventPowerOn 0 _).
    assert (Hstop : forall tries' : Z,
              exists new : list event,
                trace (snd (tries', log poll w)) = trace w ++ new /\
                gpio_writes new = [] /\
                (List.length (filter is_charger_poll new)
                 <= S (Z.to_nat (CHARGER_INITIALIZED_TRIES - tries)))%nat /\
                0 <= slept new <=
                  CHARGER_INITIALIZED_DELAY_MS *
                  Z.max 0 (CHARGER_INITIALIZED_TRIES - tries)).
    { intros tries'. exists [poll].
      unfold CHARGER_INITIALIZED_DELAY_MS, CHARGER_INITIALIZED_TRIES.
      cbn [snd trace log gpio_writes poll filter is_charger_poll
           List.length slept].
      repeat split; lia. }
    destruct (truthy (charge_prevent_power_on_at env (now w) 0));
      [| apply Hstop].
    destruct (Z.ltb_spec tries CHARGER_INITIALIZED_TRIES) as [Hlt | Hge];
      [| apply Hstop].
    set (w1 := snd (msleep env CHARGER_INITIALIZED_DELAY_MS (log poll w))).
    assert (H1 : trace w1 =
                 trace w ++ [poll; EvMsleep CHARGER_INITIALIZED_DELAY_MS]).
    { unfold w1, msleep, while_blocked, emit. cbn [fst snd].
      destruct (shutdown_request_at env (now (log poll w)));
        cbn [trace log set_forcing_shutdown]; rewrite <- app_assoc;
        reflexivity. }
    destruct (IH (tries + 1) w1) as (new & Htr & Hw & Hp & Hs).
    exists ([poll; EvMsleep CHARGER_INITIALIZED_DELAY_MS] ++ new).
    split; [rewrite Htr, H1, <- app_assoc; reflexivity |].
    unfold CHARGER_INITIALIZED_DELAY_MS, CHARGER_INITIALIZED_TRIES in *.
    cbn [app gpio_writes poll filter is_charger_poll List.length slept].
    split; [exact Hw |]. split; lia.
Qed.

(** X5. Whatever the charger answers, the G3S5 case polls it at most 41
    times, sleeps at most 4000 ms in all, writes no rail, and resolves to G3
    or to S5; it resolves to G3 only with [forcing_shutdown] set to 1. *)
Theorem charger_wait_is_bounded :
  forall w : world,
    (fst (power_handle_state env POWER_G3S5 w) = POWER_G3 /\
     forcing_shutdown (snd (power_handle_state env POWER_G3S5 w)) = 1 \/
     fst (power_handle_state env POWER_G3S5 w) = POWER_S5) /\
    exists new : list event,
      trace (snd (power_handle_state env POWER_G3S5 w)) = trace w ++ new /\
      gpio_writes new = [] /\
      (List.length (filter is_charger_poll new) <= 41)%nat /\
      slept new <= 4000.
Proof.
  intros w. rewrite power_handle_state_G3S5_eq. cbv zeta.
  destruct (charger_wait_loop_bounded (charger_wait_bound 0) 0
              (set_forcing_shutdown 0 w)) as (new & Htr & Hw & Hp & Hs).
  cbn [trace set_forcing_shutdown] in Htr.
  unfold CHARGER_INITIALIZED_DELAY_MS in Hs.
  change (Z.to_nat (CHARGER_INITIALIZED_TRIES - 0)) with 40%nat in Hp.
  change (Z.max 0 (CHARGER_INITIALIZED_TRIES - 0)) with 40 in Hs.
  set (l := charger_wait_loop env (charger_wait_bound 0) 0 _) in *.
  set (want := EvChargeWantShutdown _).
  destruct (truthy _ || (fst l >? CHARGER_INITIALIZED_TRIES)); cbn [fst snd].
  - split; [left; split; reflexivity |].
    exists (new ++ [want; EvCprints "power-up inhibited" [];
                    EvCprints "chipset_force_shutdown()" []; EvTaskWake]).
    cbn [trace log set_forcing_shutdown]. rewrite Htr.
    split; [rewrite <- !app_assoc; reflexivity |].
    rewrite gpio_writes_app, filter_app, length_app, slept_app, Hw.
    cbn [gpio_writes want filter is_charger_poll List.length slept app].
    repeat split; lia.
  - split; [right; reflexivity |].
    exists (new ++ [want]). cbn [trace log]. rewrite Htr.
    split; [rewrite <- !app_assoc; reflexivity |].
    rewrite gpio_writes_app, filter_app, length_app, slept_app, Hw.
    cbn [gpio_writes want filter is_charger_poll List.length slept app].
    repeat split; lia.
Qed.

(** *** Boot *)

(** [s] has every bit of the mask [m]. *)
Lemma land_mask_iff (s m : Z) :
  Z.land s m = m <->
  (forall n : Z, Z.testbit m n = true -> Z.testbit s n = true).
Proof.
  split.
  - intros E n Hn. rewrite <- E in Hn. rewrite Z.land_spec in Hn.
    apply andb_true_iff in Hn. exact (proj1 Hn).
  - intros H. apply Z.bits_inj'. intros n _. rewrite Z.land_spec.
    destruct (Z.testbit m n) eqn:Em.
    + rewrite (H n Em). reflexivity.
    + apply andb_false_r.
Qed.

Lemma land_lor_mask (s a b : Z) :
  Z.land s (Z.lor a b) = Z.lor a b <-> Z.land s a = a /\ Z.land s b = b.
Proof.
  rewrite !land_mask_iff. split.
  - intros H. split; intros n Hn; apply H; rewrite Z.lor_spec, Hn;
      [reflexivity | apply orb_true_r].
  - intros [Ha Hb] n Hn. rewrite Z.lor_spec in Hn.
    apply orb_true_iff in Hn. destruct Hn; auto.
Qed.

Lemma land_signal_mask (s b : Z) :
  0 <= b ->
  (Z.land s (POWER_SIGNAL_MASK b) = POWER_SIGNAL_MASK b <->
   Z.testbit s b = true).
Proof.
  intros Hb. unfold POWER_SIGNAL_MASK. rewrite land_mask_iff. split.
  - intros H. apply H. rewrite Z.shiftl_spec by lia.
    replace (b - b) with 0 by lia. reflexivity.
  - intros H n Hn.
    destruct (Z.eq_dec n b) as [-> | Hne]; [exact H |].
    destruct (Z.lt_ge_cases n 0) as [Hneg | Hpos].
    + rewrite Z.testbit_neg_r in Hn by lia. discriminate.
    + rewrite Z.shiftl_spec in Hn by lia.
      destruct (Z.lt_ge_cases (n - b) 0) as [Hlt | Hge].
      * rewrite Z.testbit_neg_r in Hn by lia. discriminate.
      * assert (0 < n - b) by lia.
        replace (n - b) with (Z.succ (Z.pred (n - b))) in Hn by lia.
        change 1 with (2 * 0 + 1) in Hn.
        rewrite Z.testbit_odd_succ in Hn by lia.
        rewrite Z.testbit_0_l in Hn. discriminate.
Qed.

(** All the inputs of [IN_ALL_S0] are present in [s]. *)
Lemma IN_ALL_S0_present (s : Z) :
  Forall (fun b => 0 <= b) S0_inputs ->
  (Z.land s IN_ALL_S0 = IN_ALL_S0 <->
   Forall (fun b => Z.testbit s b = true) S0_inputs).
Proof.
  unfold S0_inputs, IN_ALL_S0, IN_PGOOD_S0, IN_PGOOD_S3,
    IN_SUSPEND_DEASSERTED, IN_PGOOD_AP, IN_PGOOD_SYS, IN_PGOOD_PP5000,
    IN_PGOOD_PP1250_S3, IN_PGOOD_PP900_S0.
  intros Hpos.
  destruct (CONFIG_CHIPSET_POWER_SEQ_VERSION =? 2);
    inversion Hpos as [| b1 l1 H1 Hr1]; subst;
    inversion Hr1 as [| b2 l2 H2 Hr2]; subst;
    inversion Hr2 as [| b3 l3 H3 Hr3]; subst;
    inversion Hr3 as [| b4 l4 H4 Hr4]; subst;
    rewrite !land_lor_mask, !land_signal_mask by assumption;
    (split;
     [ intros [[[Ha Hb] Hc] Hd]; repeat constructor; assumption
     | intros HF;
       inversion HF as [| ? ? Ha HF1]; subst;
       inversion HF1 as [| ? ? Hb HF2]; subst;
       inversion HF2 as [| ? ? Hc HF3]; subst;
       inversion HF3 as [| ? ? Hd HF4]; subst;
       repeat split; assumption ]).
Qed.

(** X6. [power_chipset_init] returns S0 exactly when the EC jumped between
    images and every input of [IN_ALL_S0] is present in the power signals;
    in every other case it returns G3.  It requests the automatic power-on
    exactly when the EC did not jump and the reset flags do not have
    [RESET_FLAG_AP_OFF]; so never together with S0. *)
Theorem boot_state :
  forall w : world,
    let jumped := system_jumped_to_this_image_at env (now w) in
    let signals := power_get_signals_at env (S (now w)) in
    let flags := system_get_reset_flags_at env (S (now w)) in
    Forall (fun b => 0 <= b) S0_inputs ->
    (fst (power_chipset_init env w) = POWER_S0 <->
     jumped <> 0 /\ Forall (fun b => Z.testbit signals b = true) S0_inputs) /\
    (fst (power_chipset_init env w) <> POWER_S0 ->
     fst (power_chipset_init env w) = POWER_G3) /\
    exists new : list event,
      trace (snd (power_chipset_init env w)) = trace w ++ new /\
      (existsb is_power_on_request new = true <->
       jumped = 0 /\ Z.land flags RESET_FLAG_AP_OFF = 0).
Proof.
  intros w jumped signals flags Hpos.
  unfold power_chipset_init. destruct w as [fs sra t tr]. mrun.
  cbn [now] in jumped, signals, flags. fold jumped.
  destruct (truthy jumped) eqn:Ej; mrun.
  - fold signals. apply truthy_true_iff in Ej.
    destruct (Z.eqb_spec (Z.land signals IN_ALL_S0) IN_ALL_S0) as [E | N];
      mrun.
    + split; [| split].
      * split; [intros _ | reflexivity].
        split; [exact Ej | apply IN_ALL_S0_present; assumption].
      * intros H. contradiction.
      * eexists. split; [rewrite <- !app_assoc; reflexivity |].
        cbn. split; [discriminate | intros [H0 _]; contradiction].
    + split; [| split].
      * split; [discriminate |].
        intros [_ HF]. apply IN_ALL_S0_present in HF; [| assumption].
        contradiction.
      * reflexivity.
      * eexists. split; [rewrite <- !app_assoc; reflexivity |].
        cbn. split; [discriminate | intros [H0 _]; contradiction].
  - fold flags. apply truthy_false_iff in Ej.
    split; [| split].
    + destruct (negb (truthy (Z.land flags RESET_FLAG_AP_OFF))); mrun;
        (split; [discriminate | intros [H _]; contradiction]).
    + destruct (negb (truthy (Z.land flags RESET_FLAG_AP_OFF))); reflexivity.
    + destruct (truthy (Z.land flags RESET_FLAG_AP_OFF)) eqn:Ef;
        cbn [negb]; mrun; eexists;
        (split; [rewrite <- !app_assoc; reflexivity |]); cbn.
      * apply truthy_true_iff in Ef.
        split; [discriminate | intros [_ H]; contradiction].
      * apply truthy_false_iff in Ef. split; auto.
Qed.

(** *** chipset_reset *)

(** X7. [chipset_reset] pulses SYS_RST_L: it writes it low, holds it for
    [SYS_RST_HOLD_US] by a busy wait in interrupt context and by a sleep
    otherwise, and writes it high; these are its only rail writes and its
    last calls, so the reset line is always left released.  It leaves
    [sys_reset_asserted] as it was, whatever [cold_reset] is. *)
Theorem chipset_reset_pulses_SYS_RST :
  forall (cold_reset : Z) (w : world),
    exists (before : list event) (in_irq : Z),
      trace (snd (chipset_reset env cold_reset w)) =
        trace w ++ before ++
          [EvGpioSetLevel GPIO_SYS_RST_L 0;
           EvInInterruptContext in_irq;
           (if truthy in_irq then EvUdelay SYS_RST_HOLD_US
            else EvUsleep SYS_RST_HOLD_US);
           EvGpioSetLevel GPIO_SYS_RST_L 1] /\
      gpio_writes before = [] /\
      final_level (gpio_writes (trace (snd (chipset_reset env cold_reset w))))
        GPIO_SYS_RST_L = Some 1 /\
      sys_reset_asserted (snd (chipset_reset env cold_reset w)) =
        sys_reset_asserted w.
Proof.
  intros cold_reset w. unfold chipset_reset. destruct w as [fs sra t tr].
  assert (Hfinal : forall (tr0 : list event) (e1 e2 : event),
            gpio_writes [e1] = [] -> gpio_writes [e2] = [] ->
            final_level
              (gpio_writes
                 (tr0 ++ [EvGpioSetLevel GPIO_SYS_RST_L 0; e1; e2;
                          EvGpioSetLevel GPIO_SYS_RST_L 1]))
              GPIO_SYS_RST_L = Some 1).
  { intros tr0 e1 e2 H1 H2. rewrite gpio_writes_app.
    change [EvGpioSetLevel GPIO_SYS_RST_L 0; e1; e2;
            EvGpioSetLevel GPIO_SYS_RST_L 1]
      with ([EvGpioSetLevel GPIO_SYS_RST_L 0] ++ [e1] ++ [e2] ++
            [EvGpioSetLevel GPIO_SYS_RST_L 1]).
    rewrite !gpio_writes_app, H1, H2. cbn [app gpio_writes].
    induction (gpio_writes tr0) as [| [g l] ws IH]; [reflexivity |].
    cbn [app final_level]. rewrite IH. reflexivity. }
  set (msg := EvCprints "chipset_reset(%d)" [cold_reset]).
  destruct CONFIG_CMD_RTC; mrun;
    match goal with
    | |- context [EvInInterruptContext ?v] => set (irq := v)
    end;
    [ exists [EvPrintRtc; msg], irq | exists [msg], irq ];
    destruct (truthy irq) eqn:Eirq; mrun;
    try destruct (shutdown_request_at env _);
    cbn [snd trace sys_reset_asserted set_forcing_shutdown];
    rewrite <- !app_assoc; cbn [app];
    (split; [reflexivity |]); (split; [reflexivity |]);
    (split; [| reflexivity]);
    match goal with
    | |- final_level (gpio_writes (tr ++ ?l)) _ = _ =>
        match l with
        | context [EvPrintRtc] =>
            change (tr ++ l) with (tr ++ [EvPrintRtc; msg] ++ skipn 2 l);
            rewrite (app_assoc tr)
        | _ =>
            change (tr ++ l) with (tr ++ [msg] ++ skipn 1 l);
            rewrite (app_assoc tr)
        end
    end;
    cbn [skipn]; apply Hfinal; reflexivity.
Qed.

(** *** The tables undo one another *)

Lemma final_level_app (a b : list (gpio_signal * Z)) (g : gpio_signal) :
  final_level (a ++ b) g =
  match final_level b g with
  | Some l => Some l
  | None => final_level a g
  end.
Proof.
  induction a as [| [g' l'] a IH]; cbn [app final_level].
  - destruct (final_level b g); reflexivity.
  - rewrite IH. destruct (final_level b g); reflexivity.
Qed.

(** The rail writes of the S3S0 table followed by those of the S0S3 table,
    when both run to their end. *)
Lemma resume_then_suspend_writes (w : world) :
  let w1 := snd (power_seq_run env addr_s3s0_power_seq
                   (ARRAY_SIZE addr_s3s0_power_seq) w) in
  let r := power_seq_run env addr_s0s3_power_seq
             (ARRAY_SIZE addr_s0s3_power_seq) w1 in
  fst r = 0 ->
  gpio_writes (trace (snd r)) =
  (gpio_writes (trace w) ++ map op_write s3s0_power_seq) ++
  map op_write s0s3_power_seq.
Proof.
  cbv zeta. rewrite !power_seq_run_whole_table. cbn [seq_addr_eqb seq_at].
  intros H0.
  destruct (power_seq_run_ops_spec env false s3s0_power_seq w)
    as (n1 & Ht1 & _ & Hok1 & _).
  destruct (Hok1 (power_seq_run_ops_plain_completes env _ _)) as [Hw1 _].
  set (w1 := snd (power_seq_run_ops env false s3s0_power_seq w)) in *.
  destruct (power_seq_run_ops_spec env true s0s3_power_seq w1)
    as (n2 & Ht2 & _ & Hok2 & _).
  destruct (Hok2 H0) as [Hw2 _].
  rewrite Ht2, Ht1, !gpio_writes_app, Hw1, Hw2. reflexivity.
Qed.

(** X8. The S0S3 table is the S3S0 table backwards with every level
    inverted, in each sequencing version; so when the S3S0 table has been
    run and then the S0S3 table has run to its end, every rail that the
    S3S0 table wrote is left at the other level. *)
Theorem suspend_undoes_resume :
  map op_write s0s3_power_seq =
    rev (map opposite (map op_write s3s0_power_seq)) /\
  forall (w : world) (g : gpio_signal) (l : Z),
    let w1 := snd (power_seq_run env addr_s3s0_power_seq
                     (ARRAY_SIZE addr_s3s0_power_seq) w) in
    let r := power_seq_run env addr_s0s3_power_seq
               (ARRAY_SIZE addr_s0s3_power_seq) w1 in
    fst r = 0 ->
    In (g, l) (map op_write s3s0_power_seq) ->
    final_level (gpio_writes (trace (snd r))) g = Some (1 - l).
Proof.
  split.
  - unfold s0s3_power_seq, s3s0_power_seq.
    destruct (CONFIG_CHIPSET_POWER_SEQ_VERSION =? 2); reflexivity.
  - intros w g l w1 r H0 Hin. unfold r, w1.
    rewrite (resume_then_suspend_writes w H0), final_level_app.
    revert Hin. unfold s0s3_power_seq, s3s0_power_seq.
    destruct (CONFIG_CHIPSET_POWER_SEQ_VERSION =? 2); cbn [map op_write In
      signal level];
      intros Hin; repeat destruct Hin as [Hin | Hin];
      try contradiction; injection Hin as <- <-; reflexivity.
Qed.

(** The S5S3 table and then the S3S5 table, which both always run to their
    end. *)
Lemma power_up_then_down_writes (w : world) :
  let w1 := snd (power_seq_run env addr_s5s3_power_seq
                   (ARRAY_SIZE addr_s5s3_power_seq) w) in
  gpio_writes
    (trace (snd (power_seq_run env addr_s3s5_power_seq
                   (ARRAY_SIZE addr_s3s5_power_seq) w1))) =
  (gpio_writes (trace w) ++ map op_write s5s3_power_seq) ++
  map op_write s3s5_power_seq.
Proof.
  cbv zeta. rewrite !power_seq_run_whole_table. cbn [seq_addr_eqb seq_at].
  destruct (power_seq_run_ops_spec env false s5s3_power_seq w)
    as (n1 & Ht1 & _ & Hok1 & _).
  destruct (Hok1 (power_seq_run_ops_plain_completes env _ _)) as [Hw1 _].
  set (w1 := snd (power_seq_run_ops env false s5s3_power_seq w)) in *.
  destruct (power_seq_run_ops_spec env false s3s5_power_seq w1)
    as (n2 & Ht2 & _ & Hok2 & _).
  destruct (Hok2 (power_seq_run_ops_plain_completes env _ _)) as [Hw2 _].
  rewrite Ht2, Ht1, !gpio_writes_app, Hw1, Hw2. reflexivity.
Qed.

(** X9. When the S5S3 table has been run and then the S3S5 table, every
    rail that the S5S3 table wrote, but SYS_RST_L, is left at the other
    level, in each sequencing version; SYS_RST_L is not written by the S3S5
    table and stays as the S5S3 table left it. *)
Theorem power_down_undoes_power_up :
  forall (w : world) (g : gpio_signal) (l : Z),
    let w1 := snd (power_seq_run env addr_s5s3_power_seq
                     (ARRAY_SIZE addr_s5s3_power_seq) w) in
    let w2 := snd (power_seq_run env addr_s3s5_power_seq
                     (ARRAY_SIZE addr_s3s5_power_seq) w1) in
    In (g, l) (map op_write s5s3_power_seq) ->
    (g <> GPIO_SYS_RST_L ->
     final_level (gpio_writes (trace w2)) g = Some (1 - l)) /\
    (g = GPIO_SYS_RST_L ->
     final_level (gpio_writes (trace w2)) g = Some l).
Proof.
  intros w g l w1 w2 Hin. unfold w2, w1.
  rewrite (power_up_then_down_writes w), !final_level_app.
  revert Hin. unfold s5s3_power_seq, s3s5_power_seq.
  destruct (CONFIG_CHIPSET_POWER_SEQ_VERSION =? 2);
    [| destruct (CONFIG_CHIPSET_POWER_SEQ_VERSION =? 0)];
    cbn [map op_write In signal level app];
    intros Hin; repeat destruct Hin as [Hin | Hin];
    try contradiction; injection Hin as <- <-;
    (split; [intros Hne; try reflexivity; contradiction
            | intros He; try discriminate He; reflexivity]).
Qed.

(** *** Shutdown paths *)

Lemma chipset_task_next (n : nat) (s next : power_state) (w : world) :
  fst (power_handle_state env s w) = next ->
  chipset_task env (S n) s w =
  (next :: fst (chipset_task env n next (snd (power_handle_state env s w))),
   snd (chipset_task env n next (snd (power_handle_state env s w)))).
Proof. intros <-. apply chipset_task_S. Qed.

(** The S3S5 case of [power_handle_state]. *)
Lemma power_handle_state_S3S5_eq (w : world) :
  power_handle_state env POWER_S3S5 w =
  (POWER_S5,
   snd (power_seq_run_ops env false s3s5_power_seq
          (log (EvHookNotify HOOK_CHIPSET_SHUTDOWN) w))).
Proof.
  unfold power_handle_state. unfold bind at 1, hook_notify, emit.
  unfold bind. rewrite power_seq_run_whole_table. cbn [seq_addr_eqb seq_at].
  destruct (power_seq_run_ops env false s3s5_power_seq _) as [r w1].
  reflexivity.
Qed.

(** With [forcing_shutdown] set: from S3S5 the machine is in G3 after three
    invocations, and has written the S3S5 table and no other rail. *)
Lemma forced_from_S3S5 (w : world) :
  forcing_shutdown w <> 0 ->
  fst (chipset_task env 3 POWER_S3S5 w) = [POWER_S5; POWER_S5G3; POWER_G3] /\
  forcing_shutdown (snd (chipset_task env 3 POWER_S3S5 w)) <> 0 /\
  gpio_writes (trace (snd (chipset_task env 3 POWER_S3S5 w))) =
    gpio_writes (trace w) ++ map op_write s3s5_power_seq.
Proof.
  intros H0.
  pose proof (forced_stays_forced env POWER_S3S5 w ltac:(discriminate) H0)
    as H1.
  rewrite (chipset_task_next _ _ POWER_S5)
    by (rewrite power_handle_state_S3S5_eq; reflexivity).
  assert (Hw : gpio_writes (trace (snd (power_handle_state env POWER_S3S5 w)))
               = gpio_writes (trace w) ++ map op_write s3s5_power_seq).
  { rewrite power_handle_state_S3S5_eq. cbn [snd].
    destruct (power_seq_run_ops_spec env false s3s5_power_seq
                (log (EvHookNotify HOOK_CHIPSET_SHUTDOWN) w))
      as (new & Ht & _ & Hok & _).
    destruct (Hok (power_seq_run_ops_plain_completes env _ _)) as [Hm _].
    rewrite Ht. cbn [trace log]. rewrite !gpio_writes_app, Hm.
    cbn [gpio_writes]. rewrite app_nil_r. reflexivity. }
  set (w1 := snd (power_handle_state env POWER_S3S5 w)) in *.
  assert (E5 : power_handle_state env POWER_S5 w1 = (POWER_S5G3, w1)).
  { unfold power_handle_state, bind, read_forcing_shutdown, ret.
    apply truthy_true_iff in H1. rewrite H1. reflexivity. }
  rewrite (chipset_task_next _ _ POWER_S5G3) by (rewrite E5; reflexivity).
  rewrite E5. cbn [fst snd chipset_task bind ret power_handle_state].
  repeat split; assumption.
Qed.

(** X10. With [forcing_shutdown] set, and whatever the environment does,
    the machine goes from S0 to G3 in six invocations, from S3 in four and
    from S5 in two, through the states of the shutdown path and no other,
    with the flag still set when it arrives; from G3 it does not move. *)
Theorem forced_shutdown_reaches_G3 :
  forall w : world,
    forcing_shutdown w <> 0 ->
    (fst (chipset_task env 6 POWER_S0 w) =
       [POWER_S0S3; POWER_S3; POWER_S3S5; POWER_S5; POWER_S5G3; POWER_G3] /\
     forcing_shutdown (snd (chipset_task env 6 POWER_S0 w)) <> 0) /\
    (fst (chipset_task env 4 POWER_S3 w) =
       [POWER_S3S5; POWER_S5; POWER_S5G3; POWER_G3] /\
     forcing_shutdown (snd (chipset_task env 4 POWER_S3 w)) <> 0) /\
    (fst (chipset_task env 2 POWER_S5 w) = [POWER_S5G3; POWER_G3] /\
     forcing_shutdown (snd (chipset_task env 2 POWER_S5 w)) <> 0) /\
    (forall n : nat,
       chipset_task env n POWER_G3 w = (repeat POWER_G3 n, w)).
Proof.
  intros w H0.
  assert (HS3 : forall w3 : world,
            forcing_shutdown w3 <> 0 ->
            fst (chipset_task env 4 POWER_S3 w3) =
              [POWER_S3S5; POWER_S5; POWER_S5G3; POWER_G3] /\
            forcing_shutdown (snd (chipset_task env 4 POWER_S3 w3)) <> 0).
  { intros w3 H3.
    rewrite (chipset_task_next _ _ POWER_S3S5)
      by (apply (steady_state_forced env POWER_S3); [simpl; tauto | exact H3]).
    cbn [fst snd].
    destruct (forced_from_S3S5 (snd (power_handle_state env POWER_S3 w3)))
      as (Hp & Hf & _).
    { apply forced_stays_forced; [discriminate | exact H3]. }
    rewrite Hp. split; [reflexivity | exact Hf]. }
  split; [| split; [| split]].
  - rewrite (chipset_task_next _ _ POWER_S0S3)
      by (apply (steady_state_forced env POWER_S0); [simpl; tauto | exact H0]).
    set (w1 := snd (power_handle_state env POWER_S0 w)).
    assert (H1 : forcing_shutdown w1 <> 0)
      by (apply forced_stays_forced; [discriminate | exact H0]).
    rewrite (chipset_task_next _ _ POWER_S3)
      by (apply power_handle_state_S0S3_forced; exact H1).
    cbn [fst snd].
    destruct (HS3 (snd (power_handle_state env POWER_S0S3 w1))) as [Hp Hf].
    { apply forced_stays_forced; [discriminate | exact H1]. }
    rewrite Hp. split; [reflexivity | exact Hf].
  - apply HS3. exact H0.
  - assert (E5 : power_handle_state env POWER_S5 w = (POWER_S5G3, w)).
    { unfold power_handle_state, bind, read_forcing_shutdown, ret.
      pose proof H0 as Ht. apply truthy_true_iff in Ht. rewrite Ht.
      reflexivity. }
    rewrite (chipset_task_next _ _ POWER_S5G3) by (rewrite E5; reflexivity).
    rewrite E5. cbn [fst snd chipset_task bind ret power_handle_state].
    split; [reflexivity | exact H0].
  - induction n as [| n IH]; [reflexivity |].
    cbn [chipset_task repeat]. unfold bind at 1.
    cbn [power_handle_state ret]. unfold bind, ret. rewrite IH. reflexivity.
Qed.

(** X11. When the wait for the S3 power good fails in the S5S3 case, the
    machine sets [forcing_shutdown] and is back in G3 after four
    invocations, through S3S5, S5 and S5G3, whatever the environment does
    next; by then it has written the S5S3 table and then the S3S5 table,
    and no other rail. *)
Theorem failed_power_up_unwinds :
  forall w : world,
    let w1 := snd (power_seq_run_ops env false s5s3_power_seq w) in
    power_wait_signals_at env (now w1) IN_PGOOD_S3 <> 0 ->
    fst (chipset_task env 4 POWER_S5S3 w) =
      [POWER_S3S5; POWER_S5; POWER_S5G3; POWER_G3] /\
    forcing_shutdown (snd (power_handle_state env POWER_S5S3 w)) = 1 /\
    gpio_writes (trace (snd (chipset_task env 4 POWER_S5S3 w))) =
      gpio_writes (trace w) ++ map op_write s5s3_power_seq ++
      map op_write s3s5_power_seq.
Proof.
  intros w w1 Hfail.
  assert (E : power_handle_state env POWER_S5S3 w =
              (POWER_S3S5,
               snd (chipset_force_shutdown
                      (snd (power_wait_signals env IN_PGOOD_S3
                              (set_sys_reset_asserted 1 w1)))))).
  { rewrite power_handle_state_S5S3_eq. cbv zeta. fold w1.
    cbn [now set_sys_reset_asserted].
    apply truthy_true_iff in Hfail. rewrite Hfail. reflexivity. }
  assert (Hfs : forcing_shutdown (snd (power_handle_state env POWER_S5S3 w))
                = 1).
  { rewrite E. reflexivity. }
  assert (Hw : gpio_writes (trace (snd (power_handle_state env POWER_S5S3 w)))
               = gpio_writes (trace w) ++ map op_write s5s3_power_seq).
  { rewrite E. cbn [snd].
    destruct (power_seq_run_ops_spec env false s5s3_power_seq w)
      as (new & Ht & _ & Hok & _).
    destruct (Hok (power_seq_run_ops_plain_completes env _ _)) as [Hm _].
    fold w1 in Ht.
    unfold chipset_force_shutdown, bind, CPRINTS, task_wake,
      write_forcing_shutdown, emit, power_wait_signals, while_blocked, query.
    cbn [fst snd].
    destruct (shutdown_request_at env _);
      cbn [trace log set_forcing_shutdown set_sys_reset_asserted];
      rewrite Ht, !gpio_writes_app, Hm; cbn [gpio_writes];
      rewrite !app_nil_r; reflexivity. }
  rewrite (chipset_task_next _ _ POWER_S3S5) by (rewrite E; reflexivity).
  cbn [fst snd].
  destruct (forced_from_S3S5 (snd (power_handle_state env POWER_S5S3 w)))
    as (Hp & _ & Hw').
  { rewrite Hfs. lia. }
  rewrite Hp, Hw', Hw, <- app_assoc. repeat split; [exact Hfs].
Qed.

(** *** Hooks and rails *)

Lemma hooks_notified_app (a b : list event) :
  hooks_notified (a ++ b) = hooks_notified a ++ hooks_notified b.
Proof.
  induction a as [| e a IH]; cbn [app hooks_notified]; [reflexivity |].
  destruct e; rewrite IH; reflexivity.
Qed.

Lemma msleep_check_loop_hooks :
  forall (fuel : nat) (rem : Z) (w : world),
    exists new : list event,
      trace (snd (msleep_check_loop env fuel rem w)) = trace w ++ new /\
      hooks_notified new = [].
Proof.
  induction fuel as [| fuel IH]; intros rem w.
  - exists []. cbn. rewrite app_nil_r. split; reflexivity.
  - cbn [msleep_check_loop]. destruct w as [fs sra t tr]. mrun.
    set (fs1 := if shutdown_request_at env t then 1 else fs).
    set (sl := EvMsleep (Z.min rem SLEEP_INTERVAL_MS)).
    replace (if shutdown_request_at env t
             then mk_world 1 sra (S t) (tr ++ [sl])
             else mk_world fs sra (S t) (tr ++ [sl]))
      with (mk_world fs1 sra (S t) (tr ++ [sl]))
      by (unfold fs1; destruct (shutdown_request_at env t); reflexivity).
    mrun.
    destruct (truthy fs1); cbn [negb]; mrun.
    + destruct (rem - SLEEP_INTERVAL_MS >? 0).
      * destruct (IH (rem - SLEEP_INTERVAL_MS)
                    (mk_world fs1 sra (S t) (tr ++ [sl])))
          as (new & Htr & Hh).
        exists (sl :: new). cbn [trace] in Htr.
        split; [rewrite Htr, <- app_assoc; reflexivity | exact Hh].
      * exists [sl]. split; reflexivity.
    + set (v := power_get_signals_at env (S t)).
      destruct (truthy (Z.land v IN_SUSPEND_DEASSERTED)).
      * exists [sl; EvPowerGetSignals v; EvCprints "suspend aborted" []].
        cbn [fst snd trace].
        split; [rewrite <- !app_assoc; reflexivity | reflexivity].
      * destruct (rem - SLEEP_INTERVAL_MS >? 0).
        -- destruct (IH (rem - SLEEP_INTERVAL_MS)
                       (mk_world fs1 sra (S (S t))
                          ((tr ++ [sl]) ++ [EvPowerGetSignals v])))
             as (new & Htr & Hh).
           exists (sl :: EvPowerGetSignals v :: new). cbn [trace] in Htr.
           split; [rewrite Htr, <- !app_assoc; reflexivity | exact Hh].
        -- exists [sl; EvPowerGetSignals v]. cbn [fst snd trace].
           split; [rewrite <- !app_assoc; reflexivity | reflexivity].
Qed.

Lemma power_seq_run_ops_hooks :
  forall (check_abort : bool) (ops : list power_seq_op) (w : world),
    exists new : list event,
      trace (snd (power_seq_run_ops env check_abort ops w)) = trace w ++ new /\
      hooks_notified new = [].
Proof.
  intros check_abort ops. induction ops as [| op rest IH]; intros w.
  - exists []. cbn. rewrite app_nil_r. split; reflexivity.
  - rewrite power_seq_run_ops_cons. cbv zeta.
    set (wr := EvGpioSetLevel (signal op) (level op)).
    assert (Hstep : forall (w2 : world) (pre : list event),
               trace w2 = trace (log wr w) ++ pre ->
               hooks_notified pre = [] ->
               exists new : list event,
                 trace (snd (power_seq_run_ops env check_abort rest w2)) =
                   trace w ++ new /\
                 hooks_notified new = []).
    { intros w2 pre Htr Hpre.
      destruct (IH w2) as (new & Htr' & Hh).
      exists (wr :: pre ++ new).
      split; [rewrite Htr', Htr; cbn [trace log];
              rewrite <- !app_assoc; reflexivity |].
      cbn [hooks_notified wr]. rewrite hooks_notified_app, Hpre, Hh.
      reflexivity. }
    destruct (truthy (delay op)); cbn [negb].
    + destruct check_abort.
      * destruct (msleep_check_loop_hooks (msleep_intervals (delay op))
                    (delay op) (log wr w)) as (pre & Htr & Hh).
        fold (MSLEEP_CHECK_ABORTED_SUSPEND env (delay op)) in Htr.
        destruct (fst (MSLEEP_CHECK_ABORTED_SUSPEND env (delay op) (log wr w))).
        -- exists (wr :: pre). cbn [fst snd].
           split; [rewrite Htr; cbn [trace log]; rewrite <- app_assoc;
                   reflexivity | exact Hh].
        -- apply (Hstep _ pre); assumption.
      * apply (Hstep _ [EvMsleep (delay op)]); [| reflexivity].
        unfold msleep, while_blocked, emit. cbn [fst snd].
        destruct (shutdown_request_at env (now (log wr w))); reflexivity.
    + apply (Hstep (log wr w) []); [| reflexivity].
      rewrite app_nil_r. reflexivity.
Qed.

(** X12. Hooks are notified while the rails are up.  The two power-down
    cases notify their hook (HOOK_CHIPSET_SUSPEND in S0S3,
    HOOK_CHIPSET_SHUTDOWN in S3S5) as their very first action, before any
    rail is written, and notify no other hook; S0S3 does so even when the
    suspend is then aborted.  The two power-up cases notify their hook
    (HOOK_CHIPSET_STARTUP in S5S3, HOOK_CHIPSET_RESUME in S3S0) only when
    the wait for the power-good signals succeeded, after every rail write;
    when the wait failed they notify no hook at all. *)
Theorem hooks_bracket_rail_changes :
  forall w : world,
    (exists rest : list event,
       trace (snd (power_handle_state env POWER_S0S3 w)) =
         trace w ++ EvHookNotify HOOK_CHIPSET_SUSPEND :: rest /\
       hooks_notified rest = []) /\
    (exists rest : list event,
       trace (snd (power_handle_state env POWER_S3S5 w)) =
         trace w ++ EvHookNotify HOOK_CHIPSET_SHUTDOWN :: rest /\
       hooks_notified rest = []) /\
    (exists pre : list event,
       hooks_notified pre = [] /\
       (fst (power_handle_state env POWER_S5S3 w) = POWER_S3 /\
        trace (snd (power_handle_state env POWER_S5S3 w)) =
          trace w ++ pre ++ [EvHookNotify HOOK_CHIPSET_STARTUP] \/
        fst (power_handle_state env POWER_S5S3 w) = POWER_S3S5 /\
        trace (snd (power_handle_state env POWER_S5S3 w)) = trace w ++ pre)) /\
    (exists pre : list event,
       hooks_notified pre = [] /\
       (fst (power_handle_state env POWER_S3S0 w) = POWER_S0 /\
        trace (snd (power_handle_state env POWER_S3S0 w)) =
          trace w ++ pre ++ [EvHookNotify HOOK_CHIPSET_RESUME; EvDisableSleep]
        \/
        fst (power_handle_state env POWER_S3S0 w) = POWER_S3S0 /\
        trace (snd (power_handle_state env POWER_S3S0 w)) = trace w ++ pre)).
Proof.
  intros w.
  refine (conj _ (conj _ (conj _ _))).
  - (* S0S3 *)
    rewrite power_handle_state_S0S3_eq. cbv zeta.
    set (hook := EvHookNotify HOOK_CHIPSET_SUSPEND).
    destruct (msleep_check_loop_hooks (msleep_intervals 20) 20 (log hook w))
      as (nm & Hm & Hmh).
    fold (MSLEEP_CHECK_ABORTED_SUSPEND env 20) in Hm.
    set (m := MSLEEP_CHECK_ABORTED_SUSPEND env 20 (log hook w)) in *.
    assert (Hm' : trace (snd m) = trace w ++ hook :: nm).
    { rewrite Hm. cbn [trace log]. rewrite <- app_assoc. reflexivity. }
    destruct (fst m); cbn [fst snd].
    + exists nm. split; [exact Hm' | exact Hmh].
    + destruct (power_seq_run_ops_hooks true s0s3_power_seq (snd m))
        as (nr & Hr & Hrh).
      set (r := power_seq_run_ops env true s0s3_power_seq (snd m)) in *.
      assert (Hr' : trace (snd r) = trace w ++ hook :: nm ++ nr).
      { rewrite Hr, Hm', <- app_assoc. reflexivity. }
      destruct (truthy (fst r)); cbn [fst snd].
      * exists (nm ++ nr). split; [exact Hr' |].
        rewrite hooks_notified_app, Hmh, Hrh. reflexivity.
      * set (pressed := power_button_is_pressed_at env _).
        destruct (truthy pressed); cbn [trace log set_forcing_shutdown];
          rewrite Hr'.
        -- exists ((nm ++ nr) ++ [EvEnableSleep; EvPowerButtonIsPressed pressed;
                                  EvHookCallDeferred (-1)]).
           split; [cbn [app]; rewrite <- ?app_assoc; cbn [app];
                   rewrite <- ?app_assoc; reflexivity |].
           rewrite !hooks_notified_app, Hmh, Hrh. reflexivity.
        -- exists ((nm ++ nr) ++ [EvEnableSleep;
                                  EvPowerButtonIsPressed pressed]).
           split; [cbn [app]; rewrite <- ?app_assoc; cbn [app];
                   rewrite <- ?app_assoc; reflexivity |].
           rewrite !hooks_notified_app, Hmh, Hrh. reflexivity.
  - (* S3S5 *)
    rewrite power_handle_state_S3S5_eq. cbn [snd].
    destruct (power_seq_run_ops_hooks false s3s5_power_seq
                (log (EvHookNotify HOOK_CHIPSET_SHUTDOWN) w))
      as (nr & Hr & Hrh).
    exists nr. split; [| exact Hrh].
    rewrite Hr. cbn [trace log]. rewrite <- app_assoc. reflexivity.
  - (* S5S3 *)
    rewrite power_handle_state_S5S3_eq. cbv zeta.
    destruct (power_seq_run_ops_hooks false s5s3_power_seq w)
      as (nr & Hr & Hrh).
    set (w1 := snd (power_seq_run_ops env false s5s3_power_seq w)) in *.
    set (rv := power_wait_signals_at env (now (set_sys_reset_asserted 1 w1))
                 IN_PGOOD_S3).
    assert (H3 : trace (snd (power_wait_signals env IN_PGOOD_S3
                               (set_sys_reset_asserted 1 w1))) =
                 trace w ++ nr ++ [EvPowerWaitSignals IN_PGOOD_S3 rv]).
    { unfold power_wait_signals, while_blocked, query. cbn [fst snd].
      destruct (shutdown_request_at env _);
        cbn [trace log set_forcing_shutdown set_sys_reset_asserted];
        rewrite Hr, <- app_assoc; reflexivity. }
    destruct (truthy rv); cbn [fst snd].
    + exists (nr ++ [EvPowerWaitSignals IN_PGOOD_S3 rv;
                     EvCprints "chipset_force_shutdown()" []; EvTaskWake]).
      split; [rewrite hooks_notified_app, Hrh; reflexivity |].
      right. split; [reflexivity |].
      unfold chipset_force_shutdown, bind, CPRINTS, task_wake,
        write_forcing_shutdown, emit.
      cbn [snd trace log set_forcing_shutdown]. rewrite H3.
      rewrite <- !app_assoc. reflexivity.
    + exists (nr ++ [EvPowerWaitSignals IN_PGOOD_S3 rv]).
      split; [rewrite hooks_notified_app, Hrh; reflexivity |].
      left. split; [reflexivity |].
      cbn [trace log]. rewrite H3. rewrite <- !app_assoc. reflexivity.
  - (* S3S0 *)
    rewrite power_handle_state_S3S0_eq. cbv zeta.
    destruct (power_seq_run_ops_hooks false s3s0_power_seq w)
      as (nr & Hr & Hrh).
    set (w1 := snd (power_seq_run_ops env false s3s0_power_seq w)) in *.
    set (w2 := if truthy (sys_reset_asserted w1) then _ else w1).
    assert (H2 : exists n2 : list event,
               trace w2 = trace w ++ n2 /\ hooks_notified n2 = []).
    { unfold w2. destruct (truthy (sys_reset_asserted w1)).
      - exists (nr ++ [EvMsleep 10; EvGpioSetLevel GPIO_SYS_RST_L 1]).
        split; [| rewrite hooks_notified_app, Hrh; reflexivity].
        unfold msleep, while_blocked, emit. cbn [fst snd].
        destruct (shutdown_request_at env (now w1));
          cbn [trace log set_sys_reset_asserted set_forcing_shutdown];
          rewrite Hr, <- !app_assoc; reflexivity.
      - exists nr. split; [exact Hr | exact Hrh]. }
    destruct H2 as (n2 & H2 & H2h).
    set (rv := power_wait_signals_at env (now w2) IN_PGOOD_S0).
    assert (H3 : trace (snd (power_wait_signals env IN_PGOOD_S0 w2)) =
                 trace w ++ n2 ++ [EvPowerWaitSignals IN_PGOOD_S0 rv]).
    { unfold power_wait_signals, while_blocked, query. cbn [fst snd].
      destruct (shutdown_request_at env (now w2));
        cbn [trace log set_forcing_shutdown];
        rewrite H2, <- app_assoc; reflexivity. }
    destruct (truthy rv); cbn [fst snd].
    + exists (n2 ++ [EvPowerWaitSignals IN_PGOOD_S0 rv;
                     EvCprints "chipset_force_shutdown()" []; EvTaskWake]).
      split; [rewrite hooks_notified_app, H2h; reflexivity |].
      right. split; [reflexivity |].
      unfold chipset_force_shutdown, bind, CPRINTS, task_wake,
        write_forcing_shutdown, emit.
      cbn [snd trace log set_forcing_shutdown]. rewrite H3.
      rewrite <- !app_assoc. reflexivity.
    + exists (n2 ++ [EvPowerWaitSignals IN_PGOOD_S0 rv]).
      split; [rewrite hooks_notified_app, H2h; reflexivity |].
      left. split; [reflexivity |].
      cbn [trace log]. rewrite H3. rewrite <- !app_assoc. reflexivity.
Qed.

(** *** The power button and the lid *)

(** X22. The handlers of the power button and of the lid only make
    requests: they write no rail and leave [forcing_shutdown] and
    [sys_reset_asserted] as they were.  [power_button_changed] makes exactly
    one call on the deferred [force_shutdown]: it schedules it
    [FORCED_SHUTDOWN_DELAY] ahead when the button is pressed, and cancels it when the button is
    released.  It asks for power-on exactly when the button is pressed
    while the chipset is off.  [lid_changed] never touches the deferred
    shutdown, and asks for power-on exactly when the lid is open while the
    chipset is off. *)
Theorem button_and_lid_only_request :
  forall w : world,
    (let pressed := power_button_is_pressed_at env (now w) in
     let off := chipset_in_state_at env (S (now w)) CHIPSET_STATE_ANY_OFF in
     let w' := snd (power_button_changed env w) in
     forcing_shutdown w' = forcing_shutdown w /\
     sys_reset_asserted w' = sys_reset_asserted w /\
     exists new : list event,
       trace w' = trace w ++ new /\
       gpio_writes new = [] /\
       deferred_calls new =
         [if truthy pressed then FORCED_SHUTDOWN_DELAY else -1] /\
       (existsb is_power_on_request new = true <->
        pressed <> 0 /\ off <> 0)) /\
    (let open := lid_is_open_at env (now w) in
     let off := chipset_in_state_at env (S (now w)) CHIPSET_STATE_ANY_OFF in
     let w' := snd (lid_changed env w) in
     forcing_shutdown w' = forcing_shutdown w /\
     sys_reset_asserted w' = sys_reset_asserted w /\
     exists new : list event,
       trace w' = trace w ++ new /\
       gpio_writes new = [] /\
       deferred_calls new = [] /\
       (existsb is_power_on_request new = true <->
        open <> 0 /\ off <> 0)).
Proof.
  intros w. destruct w as [fs sra t tr]. split.
  - cbv zeta. unfold power_button_changed. mrun.
    set (pressed := power_button_is_pressed_at env t).
    destruct (truthy pressed) eqn:Ep; mrun.
    + apply truthy_true_iff in Ep.
      set (off := chipset_in_state_at env (S t) CHIPSET_STATE_ANY_OFF).
      destruct (truthy off) eqn:Eo; mrun.
      * apply truthy_true_iff in Eo.
        split; [reflexivity |]. split; [reflexivity |].
        exists [EvPowerButtonIsPressed pressed;
                EvChipsetInState CHIPSET_STATE_ANY_OFF off;
                EvChipsetExitHardOff;
                EvHookCallDeferred FORCED_SHUTDOWN_DELAY].
        split; [rewrite <- !app_assoc; reflexivity |].
        split; [reflexivity |]. split; [reflexivity |].
        split; [intros _; split; assumption | reflexivity].
      * apply truthy_false_iff in Eo.
        split; [reflexivity |]. split; [reflexivity |].
        exists [EvPowerButtonIsPressed pressed;
                EvChipsetInState CHIPSET_STATE_ANY_OFF off;
                EvHookCallDeferred FORCED_SHUTDOWN_DELAY].
        split; [rewrite <- !app_assoc; reflexivity |].
        split; [reflexivity |]. split; [reflexivity |].
        split; [discriminate | intros [_ H]; contradiction].
    + apply truthy_false_iff in Ep.
      split; [reflexivity |]. split; [reflexivity |].
      exists [EvPowerButtonIsPressed pressed; EvHookCallDeferred (-1)].
      split; [rewrite <- !app_assoc; reflexivity |].
      split; [reflexivity |]. split; [reflexivity |].
      split; [discriminate | intros [H _]; contradiction].
  - cbv zeta. unfold lid_changed. mrun.
    set (open := lid_is_open_at env t).
    destruct (truthy open) eqn:Ep; mrun.
    + apply truthy_true_iff in Ep.
      set (off := chipset_in_state_at env (S t) CHIPSET_STATE_ANY_OFF).
      destruct (truthy off) eqn:Eo; mrun.
      * apply truthy_true_iff in Eo.
        split; [reflexivity |]. split; [reflexivity |].
        exists [EvLidIsOpen open;
                EvChipsetInState CHIPSET_STATE_ANY_OFF off;
                EvChipsetExitHardOff].
        split; [rewrite <- !app_assoc; reflexivity |].
        split; [reflexivity |]. split; [reflexivity |].
        split; [intros _; split; assumption | reflexivity].
      * apply truthy_false_iff in Eo.
        split; [reflexivity |]. split; [reflexivity |].
        exists [EvLidIsOpen open;
                EvChipsetInState CHIPSET_STATE_ANY_OFF off].
        split; [rewrite <- !app_assoc; reflexivity |].
        split; [reflexivity |]. split; [reflexivity |].
        split; [discriminate | intros [_ H]; contradiction].
    + apply truthy_false_iff in Ep.
      split; [reflexivity |]. split; [reflexivity |].
      exists [EvLidIsOpen open].
      split; [reflexivity |].
      split; [reflexivity |]. split; [reflexivity |].
      split; [discriminate | intros [H _]; contradiction].
Qed.

End MoreProperties.


(** ** Properties of chip/lm4/pwm.c *)

Section PwmProperties.

Context {B : Lm4Board}.

Lemma u32_small (v : Z) : 0 <= v < 2 ^ 32 -> u32 v = v.
Proof. intros H. unfold u32. apply Z.mod_small. exact H. Qed.

Lemma u32_range (v : Z) : 0 <= u32 v < 2 ^ 32.
Proof. unfold u32. apply Z.mod_pos_bound. lia. Qed.

Lemma testbit_u32 (v n : Z) :
  0 <= n < 32 -> Z.testbit (u32 v) n = Z.testbit v n.
Proof. intros H. unfold u32. apply Z.mod_pow2_bits_low. lia. Qed.

Lemma testbit_one_shifted (b n : Z) :
  0 <= b -> 0 <= n -> Z.testbit (Z.shiftl 1 b) n = (n =? b).
Proof.
  intros Hb Hn. rewrite Z.shiftl_spec by lia.
  destruct (Z.eqb_spec n b) as [-> | Hne].
  - replace (b - b) with 0 by lia. reflexivity.
  - destruct (Z.lt_ge_cases (n - b) 0) as [Hlt | Hge].
    + apply Z.testbit_neg_r. lia.
    + replace (n - b) with (Z.succ (Z.pred (n - b))) by lia.
      change 1 with (2 * 0 + 1).
      rewrite Z.testbit_odd_succ by lia. apply Z.testbit_0_l.
Qed.

(** The C test [x & (1 << b)]. *)
Lemma truthy_land_bit (x b : Z) :
  0 <= b -> truthy (Z.land x (Z.shiftl 1 b)) = Z.testbit x b.
Proof.
  intros Hb. destruct (Z.testbit x b) eqn:E.
  - apply truthy_true_iff. intros H0.
    assert (Hbit : Z.testbit (Z.land x (Z.shiftl 1 b)) b = true).
    { rewrite Z.land_spec, E, testbit_one_shifted, Z.eqb_refl by lia.
      reflexivity. }
    rewrite H0, Z.testbit_0_l in Hbit. discriminate.
  - apply truthy_false_iff. apply Z.bits_inj'. intros n Hn.
    rewrite Z.land_spec, Z.testbit_0_l, testbit_one_shifted by lia.
    destruct (Z.eqb_spec n b) as [-> | _];
      [rewrite E; reflexivity | apply andb_false_r].
Qed.

Lemma land_MAX_RPM (v : Z) : Z.land v MAX_RPM = v mod 2 ^ 13.
Proof.
  change MAX_RPM with (Z.ones 13). apply Z.land_ones. lia.
Qed.

(** *** The fan target *)

(** X13. [pwm_set_fan_target_rpm] programs the maximum, which reads back
    as 16382 rpm, for a negative request and for one above it; any other
    request reads back rounded down to an even number of rpm.  The value
    read back never exceeds 16382, and the keyboard backlight is not
    changed when it is on another channel. *)
Theorem fan_target_set_then_get :
  forall (rpm : Z) (st : lm4),
    let st' := snd (pwm_set_fan_target_rpm rpm st) in
    pwm_get_fan_target_rpm st' =
      (if (rpm <? 0) || (Z.quot rpm 2 >? MAX_RPM)
       then MAX_RPM * 2 else 2 * Z.quot rpm 2) /\
    0 <= pwm_get_fan_target_rpm st' <= 16382 /\
    fst (pwm_set_fan_target_rpm rpm st) = EC_SUCCESS /\
    (FAN_CH_CPU <> FAN_CH_KBLIGHT ->
     pwm_get_keyboard_backlight st' = pwm_get_keyboard_backlight st).
Proof.
  intros rpm st st'.
  assert (Hget : forall r : Z,
            0 <= r <= MAX_RPM ->
            Z.land (u32 r) MAX_RPM * 2 = 2 * r).
  { intros r Hr. unfold MAX_RPM in Hr.
    rewrite u32_small by lia. rewrite land_MAX_RPM.
    rewrite Z.mod_small by lia. lia. }
  assert (Hval : pwm_get_fan_target_rpm st' =
                 (if (rpm <? 0) || (Z.quot rpm 2 >? MAX_RPM)
                  then MAX_RPM * 2 else 2 * Z.quot rpm 2)).
  { unfold st', pwm_set_fan_target_rpm, pwm_get_fan_target_rpm.
    cbn [snd LM4_FAN_FANCMD set_FANCMD]. unfold reg_store.
    rewrite Z.eqb_refl. unfold CPU_FAN_SCALE.
    destruct (Z.gtb_spec rpm 0) as [Hpos | Hnp].
    - assert (Hq : 0 <= Z.quot rpm 2) by (apply Z.quot_pos; lia).
      replace (rpm <? 0) with false by (symmetry; apply Z.ltb_ge; lia).
      replace (Z.quot rpm 2 <? 0) with false
        by (symmetry; apply Z.ltb_ge; lia).
      cbn [orb].
      destruct (Z.gtb_spec (Z.quot rpm 2) MAX_RPM) as [Hbig | Hok].
      + rewrite Hget by (unfold MAX_RPM; lia). lia.
      + rewrite Hget by lia. reflexivity.
    - destruct (Z.ltb_spec rpm 0) as [Hneg | Hz].
      + cbn [orb]. rewrite Hget by (unfold MAX_RPM; lia). lia.
      + assert (rpm = 0) by lia. subst rpm. cbn [orb].
        change (0 >? MAX_RPM) with false. change (Z.quot 0 2) with 0.
        cbn [orb]. change (0 >? MAX_RPM) with false. cbv iota.
        rewrite Hget by (unfold MAX_RPM; lia). reflexivity. }
  split; [exact Hval |]. split; [| split; [reflexivity |]].
  - rewrite Hval. unfold MAX_RPM.
    destruct ((rpm <? 0) || (Z.quot rpm 2 >? 8191)) eqn:E; [lia |].
    apply orb_false_iff in E. destruct E as [E1 E2].
    apply Z.ltb_ge in E1.
    assert (Z.quot rpm 2 <= 8191)
      by (destruct (Z.gtb_spec (Z.quot rpm 2) 8191); [discriminate | lia]).
    assert (0 <= Z.quot rpm 2) by (apply Z.quot_pos; lia).
    lia.
  - intros Hne. unfold st', pwm_set_fan_target_rpm,
      pwm_get_keyboard_backlight.
    cbn [snd LM4_FAN_FANCMD set_FANCMD]. unfold reg_store.
    replace (FAN_CH_KBLIGHT =? FAN_CH_CPU) with false
      by (symmetry; apply Z.eqb_neq; congruence).
    reflexivity.
Qed.

(** *** The keyboard backlight *)

Lemma shifted_duty_readback (q : Z) :
  0 <= q <= MAX_PWM -> Z.shiftr (u32 (Z.shiftl q 16)) 16 = q.
Proof.
  intros Hq. unfold MAX_PWM in Hq.
  assert (Hs : Z.shiftl q 16 = q * 65536)
    by (rewrite Z.shiftl_mul_pow2 by lia; reflexivity).
  rewrite u32_small by (rewrite Hs; lia).
  rewrite Z.shiftr_shiftl_l by lia. reflexivity.
Qed.

Lemma keyboard_backlight_readback (percent : Z) (st : lm4) :
  0 <= percent <= 100 ->
  pwm_get_keyboard_backlight (snd (pwm_set_keyboard_backlight percent st))
    = percent.
Proof.
  intros Hp.
  unfold pwm_set_keyboard_backlight, pwm_get_keyboard_backlight.
  cbn [snd LM4_FAN_FANCMD set_FANCMD]. unfold reg_store.
  rewrite Z.eqb_refl. unfold MAX_PWM.
  rewrite (Z.quot_div_nonneg (percent * 511 + 50) 100) by lia.
  set (q := (percent * 511 + 50) / 100).
  assert (Hq1 : 100 * q <= percent * 511 + 50)
    by (apply Z.mul_div_le; lia).
  assert (Hq2 : percent * 511 + 50 < 100 * Z.succ q)
    by (apply Z.mul_succ_div_gt; lia).
  assert (Hq0 : 0 <= q) by (apply Z.div_pos; lia).
  rewrite shifted_duty_readback by (unfold MAX_PWM; lia).
  change (Z.quot 511 2) with 255.
  rewrite Z.quot_div_nonneg by lia.
  symmetry. apply (Z.div_unique _ 511 percent (q * 100 + 255 - 511 * percent));
    lia.
Qed.

(** X14. For a percentage from 0 to 100, [pwm_get_keyboard_backlight]
    after [pwm_set_keyboard_backlight] gives back the percentage that was
    set; the fan target is not changed when the fan is on another
    channel. *)
Theorem keyboard_backlight_round_trip :
  forall (percent : Z) (st : lm4),
    0 <= percent <= 100 ->
    pwm_get_keyboard_backlight (snd (pwm_set_keyboard_backlight percent st))
      = percent /\
    (FAN_CH_CPU <> FAN_CH_KBLIGHT ->
     pwm_get_fan_target_rpm (snd (pwm_set_keyboard_backlight percent st)) =
     pwm_get_fan_target_rpm st).
Proof.
  intros percent st Hp. split.
  - apply keyboard_backlight_readback. exact Hp.
  - intros Hne. unfold pwm_set_keyboard_backlight, pwm_get_fan_target_rpm.
    cbn [snd LM4_FAN_FANCMD set_FANCMD]. unfold reg_store.
    replace (FAN_CH_CPU =? FAN_CH_KBLIGHT) with false
      by (symmetry; apply Z.eqb_neq; congruence).
    reflexivity.
Qed.

(** *** The enable bits *)

Lemma testbit_set_bit (ctl b n : Z) :
  0 <= b -> 0 <= n < 32 ->
  Z.testbit (u32 (Z.lor ctl (Z.shiftl 1 b))) n = Z.testbit ctl n || (n =? b).
Proof.
  intros Hb Hn. rewrite testbit_u32, Z.lor_spec, testbit_one_shifted by lia.
  reflexivity.
Qed.

Lemma testbit_clear_bit (ctl b n : Z) :
  0 <= b -> 0 <= n < 32 ->
  Z.testbit (u32 (Z.land ctl (Z.lnot (Z.shiftl 1 b)))) n =
  Z.testbit ctl n && negb (n =? b).
Proof.
  intros Hb Hn.
  rewrite testbit_u32, Z.land_spec, Z.lnot_spec, testbit_one_shifted by lia.
  reflexivity.
Qed.

(** X15. [pwm_enable_keyboard_backlight] makes
    [pwm_get_keyboard_backlight_enabled] answer 1 for a non-zero argument
    and 0 for zero, and leaves the enable bit of the fan as it was;
    [pwm_enable_fan] sets or clears the enable bit of the fan and leaves the
    answer of [pwm_get_keyboard_backlight_enabled] as it was.  The channels
    are two different channels of the module. *)
Theorem enable_bits_are_independent :
  forall (enable : Z) (st : lm4),
    fan_channels_ok ->
    pwm_get_keyboard_backlight_enabled
      (snd (pwm_enable_keyboard_backlight enable st)) =
      (if truthy enable then 1 else 0) /\
    Z.testbit (LM4_FAN_FANCTL (snd (pwm_enable_keyboard_backlight enable st)))
      FAN_CH_CPU = Z.testbit (LM4_FAN_FANCTL st) FAN_CH_CPU /\
    Z.testbit (LM4_FAN_FANCTL (snd (pwm_enable_fan enable st))) FAN_CH_CPU =
      truthy enable /\
    pwm_get_keyboard_backlight_enabled (snd (pwm_enable_fan enable st)) =
      pwm_get_keyboard_backlight_enabled st.
Proof.
  intros enable st (Hc & Hk & Hne).
  unfold pwm_get_keyboard_backlight_enabled, pwm_enable_keyboard_backlight,
    pwm_enable_fan.
  rewrite !truthy_land_bit by lia.
  assert (Hck : (FAN_CH_CPU =? FAN_CH_KBLIGHT) = false)
    by (apply Z.eqb_neq; exact Hne).
  assert (Hkc : (FAN_CH_KBLIGHT =? FAN_CH_CPU) = false)
    by (apply Z.eqb_neq; congruence).
  destruct (truthy enable); cbn [snd LM4_FAN_FANCTL set_FANCTL];
    rewrite ?testbit_set_bit, ?testbit_clear_bit by lia;
    rewrite ?Z.eqb_refl, ?Hck, ?Hkc;
    cbn [negb]; rewrite ?orb_true_r, ?orb_false_r, ?andb_true_r,
      ?andb_false_r;
    repeat split; reflexivity.
Qed.

(** *** The fan duty *)

Ltac lm4_simpl :=
  cbn [fst snd LM4_SYSTEM_RCGCFAN LM4_FAN_FANCTL LM4_FAN_FANSTS LM4_FAN_FANCH
       LM4_FAN_FANCMD LM4_FAN_FANCST lpc_memmap_fan GPIO_PGOOD_5VALW_level
       pwm_calls set_RCGCFAN set_FANCTL set_FANCH set_FANCMD set_memmap_fan
       pwm_call_of].




(** *** Initialisation *)

Lemma one_shifted_range (b : Z) : 0 <= b < 31 -> 0 <= Z.shiftl 1 b < 2 ^ 32.
Proof.
  intros Hb. rewrite Z.shiftl_mul_pow2, Z.mul_1_l by lia. split.
  - apply Z.pow_nonneg. lia.
  - apply Z.pow_lt_mono_r; lia.
Qed.

(** X17. Whatever the registers held before, [pwm_init] leaves the fan
    module with only the keyboard backlight channel enabled: the control
    register is exactly [1 << FAN_CH_KBLIGHT], so the CPU fan is disabled.
    The fan target reads as the maximum, 16382 rpm, the backlight reads as
    0 percent, the CPU fan channel is configured as 0x802c (automatic
    control) and the backlight channel as 1 (manual control), the module's
    clock is on, and the hook returns [EC_SUCCESS]. *)
Theorem pwm_init_postcondition :
  forall st : lm4,
    fan_channels_ok ->
    let st' := snd (pwm_init st) in
    fst (pwm_init st) = EC_SUCCESS /\
    LM4_SYSTEM_RCGCFAN st' = 1 /\
    LM4_FAN_FANCTL st' = Z.shiftl 1 FAN_CH_KBLIGHT /\
    pwm_get_keyboard_backlight_enabled st' = 1 /\
    Z.testbit (LM4_FAN_FANCTL st') FAN_CH_CPU = false /\
    pwm_get_fan_target_rpm st' = 16382 /\
    pwm_get_keyboard_backlight st' = 0 /\
    LM4_FAN_FANCH st' FAN_CH_CPU = 32812 /\
    LM4_FAN_FANCH st' FAN_CH_KBLIGHT = 1.
Proof.
  intros st (Hc & Hk & Hne) st'.
  assert (Hkc : (FAN_CH_KBLIGHT =? FAN_CH_CPU) = false)
    by (apply Z.eqb_neq; congruence).
  assert (Hck : (FAN_CH_CPU =? FAN_CH_KBLIGHT) = false)
    by (apply Z.eqb_neq; congruence).
  assert (Hctl : LM4_FAN_FANCTL st' = Z.shiftl 1 FAN_CH_KBLIGHT).
  { unfold st', pwm_init, pwm_set_keyboard_backlight, pwm_set_fan_target_rpm,
      configure_gpios. lm4_simpl.
    change (u32 0) with 0. rewrite Z.lor_0_l.
    apply u32_small, one_shifted_range. exact Hk. }
  split; [reflexivity |]. split; [reflexivity |]. split; [exact Hctl |].
  split.
  { unfold pwm_get_keyboard_backlight_enabled. rewrite Hctl.
    rewrite truthy_land_bit, testbit_one_shifted, Z.eqb_refl by lia.
    reflexivity. }
  split.
  { rewrite Hctl, testbit_one_shifted by lia. exact Hck. }
  split.
  { unfold st', pwm_init, pwm_get_fan_target_rpm, pwm_set_keyboard_backlight,
      pwm_set_fan_target_rpm, configure_gpios. lm4_simpl.
    unfold reg_store. rewrite Hck, Z.eqb_refl. reflexivity. }
  split.
  { unfold st', pwm_init, pwm_get_keyboard_backlight,
      pwm_set_keyboard_backlight, pwm_set_fan_target_rpm, configure_gpios.
    lm4_simpl. unfold reg_store. rewrite Z.eqb_refl. reflexivity. }
  split.
  { unfold st', pwm_init, pwm_set_keyboard_backlight, pwm_set_fan_target_rpm,
      configure_gpios. lm4_simpl.
    unfold reg_store. rewrite Hck, Z.eqb_refl. reflexivity. }
  { unfold st', pwm_init, pwm_set_keyboard_backlight, pwm_set_fan_target_rpm,
      configure_gpios. lm4_simpl.
    unfold reg_store. rewrite Z.eqb_refl. reflexivity. }
Qed.

(** *** The fan speed in the host's memory map *)

(** X18. [update_lpc_mapped_memory] leaves four 16-bit words at
    [EC_MEMMAP_FAN]: the last three are the "no fan" value 0xffff, and the
    first is 0xfffe when the measured speed is 0 (fan stalled) and the
    measured speed otherwise.  The measured speed is an even number of rpm
    up to 16382, so a turning fan never shows as one of the two marker
    values.  Words after the fourth, and every register, are left as they
    were. *)
Theorem fan_speed_in_memory_map :
  forall st : lm4,
    (4 <= List.length (lpc_memmap_fan st))%nat ->
    let r := pwm_get_fan_rpm st in
    let st' := update_lpc_mapped_memory st in
    firstn 4 (lpc_memmap_fan st') =
      [(if r =? 0 then 65534 else r); 65535; 65535; 65535] /\
    skipn 4 (lpc_memmap_fan st') = skipn 4 (lpc_memmap_fan st) /\
    0 <= r <= 16382 /\
    (nth 0 (lpc_memmap_fan st') 0 = 65534 <-> r = 0) /\
    nth 0 (lpc_memmap_fan st') 0 <> 65535 /\
    LM4_FAN_FANCTL st' = LM4_FAN_FANCTL st /\
    LM4_FAN_FANCMD st' = LM4_FAN_FANCMD st /\
    LM4_FAN_FANCH st' = LM4_FAN_FANCH st /\
    pwm_calls st' = pwm_calls st.
Proof.
  intros st Hlen r st'.
  assert (Hr : 0 <= r <= 16382).
  { unfold r, pwm_get_fan_rpm, CPU_FAN_SCALE. rewrite land_MAX_RPM.
    pose proof (Z.mod_pos_bound (LM4_FAN_FANCST st FAN_CH_CPU) (2 ^ 13)
                  ltac:(lia)) as Hm.
    change (2 ^ 13) with 8192 in *. lia. }
  assert (Hu : u16 r = r) by (unfold u16; apply Z.mod_small; lia).
  assert (Hmem : lpc_memmap_fan st' =
                 (if r =? 0 then 65534 else r) :: 65535 :: 65535 :: 65535
                 :: skipn 4 (lpc_memmap_fan st)).
  { unfold st', update_lpc_mapped_memory. lm4_simpl. fold r.
    destruct (lpc_memmap_fan st) as [| a [| b [| c [| d rest]]]];
      cbn [List.length] in Hlen; try lia.
    cbn [seq fold_left store16 firstn skipn app].
    unfold truthy. destruct (Z.eqb_spec r 0) as [E | E]; cbn [negb].
    - reflexivity.
    - cbn [store16 firstn skipn app]. rewrite Hu. reflexivity. }
  split; [rewrite Hmem; reflexivity |].
  split; [rewrite Hmem; reflexivity |].
  split; [exact Hr |].
  split.
  { rewrite Hmem. cbn [nth].
    destruct (Z.eqb_spec r 0) as [E | E]; split; intros H; try lia;
      reflexivity. }
  split.
  { rewrite Hmem. cbn [nth]. destruct (Z.eqb_spec r 0); lia. }
  repeat split; reflexivity.
Qed.

(** *** The stalled-fan warning *)

(** X19. [check_fan_failure] changes no register; it either does nothing
    or raises the thermal host event and prints the warning, in that
    order.  It warns exactly when the fan has a non-zero target, is
    enabled, and its status field reads 0.  So it stays silent after
    [pwm_suspend], which disables the fan, and after a target of 0 rpm was
    set, whatever the status field shows. *)
Theorem fan_failure_warning :
  forall st : lm4,
    0 <= FAN_CH_CPU < 31 ->
    let warned s := pwm_calls (check_fan_failure s) =
                    pwm_calls s ++
                    [CallLpcSetHostEvents EC_HOST_EVENT_MASK_THERMAL;
                     CallCputs "[Fan stalled!]\n"] in
    let silent s := check_fan_failure s = s in
    (warned st \/ silent st) /\
    (warned st <->
     pwm_get_fan_target_rpm st <> 0 /\
     Z.testbit (LM4_FAN_FANCTL st) FAN_CH_CPU = true /\
     Z.land (Z.shiftr (LM4_FAN_FANSTS st) (2 * FAN_CH_CPU)) 3 = 0) /\
    LM4_FAN_FANCTL (check_fan_failure st) = LM4_FAN_FANCTL st /\
    LM4_FAN_FANCMD (check_fan_failure st) = LM4_FAN_FANCMD st /\
    LM4_FAN_FANCH (check_fan_failure st) = LM4_FAN_FANCH st /\
    lpc_memmap_fan (check_fan_failure st) = lpc_memmap_fan st /\
    silent (snd (pwm_suspend st)) /\
    silent (snd (pwm_set_fan_target_rpm 0 st)).
Proof.
  intros st Hc warned silent.
  assert (Hnot : forall s : lm4, silent s -> ~ warned s).
  { intros s Hs Hw. unfold silent in Hs. unfold warned in Hw.
    rewrite Hs in Hw.
    apply (f_equal (@List.length pwm_call)) in Hw.
    rewrite length_app in Hw. cbn [List.length] in Hw. lia. }
  assert (Hcases :
            forall s : lm4,
              (pwm_get_fan_target_rpm s <> 0 /\
               Z.testbit (LM4_FAN_FANCTL s) FAN_CH_CPU = true /\
               Z.land (Z.shiftr (LM4_FAN_FANSTS s) (2 * FAN_CH_CPU)) 3 = 0 /\
               check_fan_failure s =
               pwm_call_of (CallCputs "[Fan stalled!]\n")
                 (pwm_call_of
                    (CallLpcSetHostEvents EC_HOST_EVENT_MASK_THERMAL) s)) \/
              (~ (pwm_get_fan_target_rpm s <> 0 /\
                  Z.testbit (LM4_FAN_FANCTL s) FAN_CH_CPU = true /\
                  Z.land (Z.shiftr (LM4_FAN_FANSTS s) (2 * FAN_CH_CPU)) 3
                  = 0) /\
               check_fan_failure s = s)).
  { intros s. unfold check_fan_failure.
    rewrite truthy_land_bit by lia.
    destruct (Z.eqb_spec (pwm_get_fan_target_rpm s) 0) as [E1 | E1];
      cbn [negb andb].
    - right. split; [intros (H & _); congruence | reflexivity].
    - destruct (Z.testbit (LM4_FAN_FANCTL s) FAN_CH_CPU) eqn:E2; cbn [andb].
      + destruct (Z.eqb_spec
                    (Z.land (Z.shiftr (LM4_FAN_FANSTS s) (2 * FAN_CH_CPU)) 3)
                    0) as [E3 | E3].
        * left. repeat split; assumption.
        * right. split; [intros (_ & _ & H); congruence | reflexivity].
      + right. split; [intros (_ & H & _); discriminate | reflexivity]. }
  assert (Hw : forall s : lm4,
             check_fan_failure s =
             pwm_call_of (CallCputs "[Fan stalled!]\n")
               (pwm_call_of
                  (CallLpcSetHostEvents EC_HOST_EVENT_MASK_THERMAL) s) ->
             warned s).
  { intros s Hs. unfold warned. rewrite Hs. lm4_simpl.
    rewrite <- app_assoc. reflexivity. }
  split.
  { destruct (Hcases st) as [(_ & _ & _ & H) | (_ & H)];
      [left; apply Hw; exact H | right; exact H]. }
  split.
  { destruct (Hcases st) as [(H1 & H2 & H3 & H) | (Hn & H)]; split.
    - intros _. auto.
    - intros _. apply Hw. exact H.
    - intros Hwd. exfalso. exact (Hnot st H Hwd).
    - intros Hc3. contradiction. }
  assert (Hregs : LM4_FAN_FANCTL (check_fan_failure st) = LM4_FAN_FANCTL st /\
                  LM4_FAN_FANCMD (check_fan_failure st) = LM4_FAN_FANCMD st /\
                  LM4_FAN_FANCH (check_fan_failure st) = LM4_FAN_FANCH st /\
                  lpc_memmap_fan (check_fan_failure st) = lpc_memmap_fan st).
  { destruct (Hcases st) as [(_ & _ & _ & H) | (_ & H)]; rewrite H;
      repeat split; reflexivity. }
  destruct Hregs as (R1 & R2 & R3 & R4).
  split; [exact R1 |]. split; [exact R2 |]. split; [exact R3 |].
  split; [exact R4 |].
  split.
  - destruct (Hcases (snd (pwm_suspend st))) as [(_ & H2 & _) | (_ & H)];
      [| exact H].
    exfalso. revert H2. unfold pwm_suspend, pwm_enable_fan.
    change (truthy 0) with false. lm4_simpl.
    rewrite testbit_clear_bit by lia. rewrite Z.eqb_refl.
    rewrite andb_false_r. discriminate.
  - destruct (Hcases (snd (pwm_set_fan_target_rpm 0 st)))
      as [(H1 & _) | (_ & H)]; [| exact H].
    exfalso. apply H1.
    unfold pwm_set_fan_target_rpm, pwm_get_fan_target_rpm. lm4_simpl.
    unfold reg_store. rewrite Z.eqb_refl. reflexivity.
Qed.

(** *** Console commands *)

(** X20. The console commands reject bad arguments before they touch
    anything.  With no argument, [fanset] and [fanduty] return
    [EC_ERROR_PARAM_COUNT]; with an argument that [strtoi] does not read to
    its end, [fanset], [fanduty] and [kblight] return [EC_ERROR_PARAM1].
    In each of these cases the registers are as before and nothing was
    printed.  [kblight] with no argument is not an error: it prints the
    current backlight and changes no register. *)
Theorem console_commands_reject_bad_arguments :
  forall (argv : list string) (st : lm4),
    ((List.length argv < 2)%nat ->
     command_fan_set argv st = (EC_ERROR_PARAM_COUNT, st) /\
     ec_command_fan_duty argv st = (EC_ERROR_PARAM_COUNT, st) /\
     command_kblight argv st =
       (EC_SUCCESS,
        pwm_call_of (CallCcprintf "Keyboard backlight: %d%%\n"
                       [ArgInt (pwm_get_keyboard_backlight st)]) st)) /\
    ((2 <= List.length argv)%nat ->
     snd (strtoi (nth 1 argv EmptyString)) <> EmptyString ->
     command_fan_set argv st = (EC_ERROR_PARAM1, st) /\
     ec_command_fan_duty argv st = (EC_ERROR_PARAM1, st) /\
     command_kblight argv st = (EC_ERROR_PARAM1, st)).
Proof.
  intros argv st. split.
  - intros Hlen. unfold command_fan_set, ec_command_fan_duty, command_kblight.
    replace (List.length argv <? 2)%nat with true
      by (symmetry; apply Nat.ltb_lt; exact Hlen).
    replace (2 <=? List.length argv)%nat with false
      by (symmetry; apply Nat.leb_gt; exact Hlen).
    repeat split; reflexivity.
  - intros Hlen Hrest.
    unfold command_fan_set, ec_command_fan_duty, command_kblight.
    replace (List.length argv <? 2)%nat with false
      by (symmetry; apply Nat.ltb_ge; exact Hlen).
    replace (2 <=? List.length argv)%nat with true
      by (symmetry; apply Nat.leb_le; exact Hlen).
    destruct (strtoi (nth 1 argv EmptyString)) as [n e]. cbn [snd] in Hrest.
    replace (String.eqb e EmptyString) with false
      by (symmetry; apply String.eqb_neq; exact Hrest).
    repeat split; reflexivity.
Qed.



(** X24. [kblight] with a percentage from 0 to 100 that [strtoi] reads to
    its end sets the backlight and prints the percentage it was given: the
    value printed is read back from the register, and the register gives
    back what was set.  It returns [EC_SUCCESS], and changes the command
    register of the backlight channel and nothing else. *)
Theorem kblight_command_prints_what_it_set :
  forall (argv : list string) (percent : Z) (st : lm4),
    (2 <= List.length argv)%nat ->
    strtoi (nth 1 argv EmptyString) = (percent, EmptyString) ->
    0 <= percent <= 100 ->
    command_kblight argv st =
      (EC_SUCCESS,
       pwm_call_of (CallCcprintf "Keyboard backlight: %d%%\n"
                      [ArgInt percent])
         (snd (pwm_set_keyboard_backlight percent st))) /\
    pwm_get_keyboard_backlight (snd (command_kblight argv st)) = percent /\
    LM4_FAN_FANCTL (snd (command_kblight argv st)) = LM4_FAN_FANCTL st /\
    LM4_FAN_FANCH (snd (command_kblight argv st)) = LM4_FAN_FANCH st /\
    (forall ch : Z,
       ch <> FAN_CH_KBLIGHT ->
       LM4_FAN_FANCMD (snd (command_kblight argv st)) ch =
       LM4_FAN_FANCMD st ch).
Proof.
  intros argv percent st Hlen Hparse Hp.
  assert (Hrun : command_kblight argv st =
                 (EC_SUCCESS,
                  pwm_call_of (CallCcprintf "Keyboard backlight: %d%%\n"
                                 [ArgInt percent])
                    (snd (pwm_set_keyboard_backlight percent st)))).
  { unfold command_kblight.
    replace (2 <=? List.length argv)%nat with true
      by (symmetry; apply Nat.leb_le; exact Hlen).
    rewrite Hparse. cbn [String.eqb negb].
    transitivity
      (EC_SUCCESS,
       pwm_call_of
         (CallCcprintf "Keyboard backlight: %d%%\n"
            [ArgInt (pwm_get_keyboard_backlight
                       (snd (pwm_set_keyboard_backlight percent st)))])
         (snd (pwm_set_keyboard_backlight percent st))).
    - reflexivity.
    - rewrite (keyboard_backlight_readback percent st Hp). reflexivity. }
  split; [exact Hrun |]. rewrite Hrun. cbn [snd].
  split; [exact (keyboard_backlight_readback percent st Hp) |].
  split; [reflexivity |]. split; [reflexivity |].
  intros ch Hch. unfold pwm_set_keyboard_backlight. lm4_simpl.
  unfold reg_store.
  replace (ch =? FAN_CH_KBLIGHT) with false
    by (symmetry; apply Z.eqb_neq; exact Hch).
  reflexivity.
Qed.

(** *** The chipset hooks *)

Lemma testbit_u32_high (v n : Z) : 32 <= n -> Z.testbit (u32 v) n = false.
Proof. intros H. unfold u32. apply Z.mod_pow2_bits_high. lia. Qed.

Lemma testbit_reg_high (c n : Z) :
  0 <= c < 2 ^ 32 -> 32 <= n -> Z.testbit c n = false.
Proof.
  intros Hc Hn. rewrite <- (u32_small c Hc). apply testbit_u32_high. exact Hn.
Qed.

(** The bits of the control register after one bit was set or cleared. *)
Lemma set_bit_bits (c b n : Z) :
  0 <= c < 2 ^ 32 -> 0 <= b < 32 ->
  Z.testbit (u32 (Z.lor c (Z.shiftl 1 b))) n = Z.testbit c n || (n =? b).
Proof.
  intros Hc Hb.
  destruct (Z.lt_ge_cases n 0) as [Hneg | Hnn].
  - rewrite !Z.testbit_neg_r by lia.
    symmetry. apply Z.eqb_neq. lia.
  - destruct (Z.lt_ge_cases n 32) as [Hlow | Hhigh].
    + apply testbit_set_bit; lia.
    + rewrite testbit_u32_high, (testbit_reg_high c n) by lia.
      symmetry. apply Z.eqb_neq. lia.
Qed.

Lemma clear_bit_bits (c b n : Z) :
  0 <= c < 2 ^ 32 -> 0 <= b < 32 ->
  Z.testbit (u32 (Z.land c (Z.lnot (Z.shiftl 1 b)))) n =
  Z.testbit c n && negb (n =? b).
Proof.
  intros Hc Hb.
  destruct (Z.lt_ge_cases n 0) as [Hneg | Hnn].
  - rewrite !Z.testbit_neg_r by lia. reflexivity.
  - destruct (Z.lt_ge_cases n 32) as [Hlow | Hhigh].
    + apply testbit_clear_bit; lia.
    + rewrite testbit_u32_high, (testbit_reg_high c n) by lia. reflexivity.
Qed.

(** X23. The fan follows the chipset: [pwm_resume], the hook on
    HOOK_CHIPSET_RESUME, sets the enable bit of the CPU fan, and
    [pwm_suspend], the hook on HOOK_CHIPSET_SUSPEND, clears it.  Both return
    [EC_SUCCESS], change no other bit of the control register and no other
    register.  A suspend after a resume leaves the control register as a
    suspend alone does, and a resume after a suspend as a resume alone
    does; a suspend of a disabled fan and a resume of an enabled fan leave
    the register as it was. *)
Theorem fan_follows_chipset_hooks :
  forall st : lm4,
    0 <= FAN_CH_CPU < 31 ->
    0 <= LM4_FAN_FANCTL st < 2 ^ 32 ->
    let resumed := snd (pwm_resume st) in
    let suspended := snd (pwm_suspend st) in
    fst (pwm_resume st) = EC_SUCCESS /\
    fst (pwm_suspend st) = EC_SUCCESS /\
    (forall n : Z,
       Z.testbit (LM4_FAN_FANCTL resumed) n =
         (if n =? FAN_CH_CPU then true else Z.testbit (LM4_FAN_FANCTL st) n) /\
       Z.testbit (LM4_FAN_FANCTL suspended) n =
         (if n =? FAN_CH_CPU then false else Z.testbit (LM4_FAN_FANCTL st) n))
    /\
    LM4_FAN_FANCTL (snd (pwm_suspend resumed)) = LM4_FAN_FANCTL suspended /\
    LM4_FAN_FANCTL (snd (pwm_resume suspended)) = LM4_FAN_FANCTL resumed /\
    (Z.testbit (LM4_FAN_FANCTL st) FAN_CH_CPU = false ->
     LM4_FAN_FANCTL suspended = LM4_FAN_FANCTL st) /\
    (Z.testbit (LM4_FAN_FANCTL st) FAN_CH_CPU = true ->
     LM4_FAN_FANCTL resumed = LM4_FAN_FANCTL st) /\
    LM4_FAN_FANCMD resumed = LM4_FAN_FANCMD st /\
    LM4_FAN_FANCH resumed = LM4_FAN_FANCH st /\
    LM4_FAN_FANCMD suspended = LM4_FAN_FANCMD st /\
    LM4_FAN_FANCH suspended = LM4_FAN_FANCH st.
Proof.
  intros st Hc Hr resumed suspended.
  assert (Hres : LM4_FAN_FANCTL resumed =
                 u32 (Z.lor (LM4_FAN_FANCTL st) (Z.shiftl 1 FAN_CH_CPU)))
    by reflexivity.
  assert (Hsus : LM4_FAN_FANCTL suspended =
                 u32 (Z.land (LM4_FAN_FANCTL st)
                        (Z.lnot (Z.shiftl 1 FAN_CH_CPU))))
    by reflexivity.
  assert (Hsr : LM4_FAN_FANCTL (snd (pwm_suspend resumed)) =
                u32 (Z.land (LM4_FAN_FANCTL resumed)
                       (Z.lnot (Z.shiftl 1 FAN_CH_CPU))))
    by reflexivity.
  assert (Hrs : LM4_FAN_FANCTL (snd (pwm_resume suspended)) =
                u32 (Z.lor (LM4_FAN_FANCTL suspended)
                       (Z.shiftl 1 FAN_CH_CPU)))
    by reflexivity.
  assert (Hbr : forall n : Z,
             Z.testbit (LM4_FAN_FANCTL resumed) n =
             (if n =? FAN_CH_CPU then true
              else Z.testbit (LM4_FAN_FANCTL st) n)).
  { intros n. rewrite Hres, set_bit_bits by lia.
    destruct (n =? FAN_CH_CPU); [apply orb_true_r | apply orb_false_r]. }
  assert (Hbs : forall n : Z,
             Z.testbit (LM4_FAN_FANCTL suspended) n =
             (if n =? FAN_CH_CPU then false
              else Z.testbit (LM4_FAN_FANCTL st) n)).
  { intros n. rewrite Hsus, clear_bit_bits by lia.
    destruct (n =? FAN_CH_CPU); [apply andb_false_r | apply andb_true_r]. }
  assert (Hrr : 0 <= LM4_FAN_FANCTL resumed < 2 ^ 32)
    by (rewrite Hres; apply u32_range).
  assert (Hrsus : 0 <= LM4_FAN_FANCTL suspended < 2 ^ 32)
    by (rewrite Hsus; apply u32_range).
  split; [reflexivity |]. split; [reflexivity |].
  split; [intros n; split; [apply Hbr | apply Hbs] |].
  split.
  { apply Z.bits_inj'. intros n _.
    rewrite Hsr, clear_bit_bits, Hbr, Hbs by lia.
    destruct (n =? FAN_CH_CPU); [reflexivity | apply andb_true_r]. }
  split.
  { apply Z.bits_inj'. intros n _.
    rewrite Hrs, set_bit_bits, Hbr, Hbs by lia.
    destruct (n =? FAN_CH_CPU); [reflexivity | apply orb_false_r]. }
  split.
  { intros Hoff. apply Z.bits_inj'. intros n _. rewrite Hbs.
    destruct (Z.eqb_spec n FAN_CH_CPU) as [-> | _];
      [symmetry; exact Hoff | reflexivity]. }
  split.
  { intros Hon. apply Z.bits_inj'. intros n _. rewrite Hbr.
    destruct (Z.eqb_spec n FAN_CH_CPU) as [-> | _];
      [symmetry; exact Hon | reflexivity]. }
  repeat split; reflexivity.
Qed.

End PwmProperties.

(** ** The properties above at concrete inputs *)

(** X1 for the 20 ms of the S0S3 case, with the AP staying suspended: four
    sleeps, 20 ms in all. *)
Lemma abort_checking_sleep_duration_witness :
  exists new : list event,
    trace (snd (MSLEEP_CHECK_ABORTED_SUSPEND (P := board_v0)
                  (steady_env (fun _ => 0)) 20 boot_world)) =
      trace boot_world ++ new /\
    slept new = 20 /\
    List.length (filter is_msleep new) = 4%nat.
Proof.
  destruct (abort_checking_sleep_duration (P := board_v0)
              (steady_env (fun _ => 0)) 20 boot_world)
    as (new & Htr & _ & _ & Hdone).
  - lia.
  - exists new. split; [exact Htr |]. apply Hdone. vm_compute. reflexivity.
Defined.

(** X3 on the version 2 board with the AP staying suspended. *)
Lemma suspend_runs_to_completion_witness :
  exists new : list event,
    trace (snd (power_handle_state (P := board_v2) (steady_env (fun _ => 0))
                  POWER_S0S3 boot_world)) = trace boot_world ++ new /\
    gpio_writes new = map op_write (s0s3_power_seq (P := board_v2)) /\
    slept new = 20 + total_delay (s0s3_power_seq (P := board_v2)).
Proof.
  destruct (suspend_runs_to_completion (P := board_v2)
              (steady_env (fun _ => 0)) boot_world) as [_ Hdone].
  destruct Hdone as (new & Htr & Hw & Hs & _).
  - vm_compute. reflexivity.
  - exists new. split; [exact Htr |]. split; [exact Hw | exact Hs].
Defined.

(** X6 on a warm start of the version 0 board with the AP running. *)
Lemma boot_state_witness :
  fst (power_chipset_init (P := board_v0) warm_start_env boot_world) = POWER_S0.
Proof.
  destruct (boot_state (P := board_v0) warm_start_env boot_world)
    as [Hs0 _].
  - unfold S0_inputs. cbn. repeat constructor; discriminate.
  - apply Hs0. split.
    + vm_compute. discriminate.
    + unfold S0_inputs. cbn. repeat constructor.
Defined.

(** X8 on the version 2 board: PP900_S0_EN, raised by the resume, is low
    after the suspend. *)
Lemma suspend_undoes_resume_witness :
  final_level
    (gpio_writes
       (trace
          (snd (power_seq_run (P := board_v2) (steady_env (fun _ => 0))
                  addr_s0s3_power_seq
                  (ARRAY_SIZE (P := board_v2) addr_s0s3_power_seq)
                  (snd (power_seq_run (P := board_v2)
                          (steady_env (fun _ => 0))
                          addr_s3s0_power_seq
                          (ARRAY_SIZE (P := board_v2) addr_s3s0_power_seq)
                          boot_world))))))
    GPIO_PP900_S0_EN = Some 0.
Proof.
  destruct (suspend_undoes_resume (P := board_v2) (steady_env (fun _ => 0)))
    as [_ H].
  apply (H boot_world GPIO_PP900_S0_EN 1).
  - vm_compute. reflexivity.
  - vm_compute. left. reflexivity.
Defined.

(** X9 on the version 0 board: PP5000_EN, raised on the way up, is low
    after the way down. *)
Lemma power_down_undoes_power_up_witness :
  final_level
    (gpio_writes
       (trace
          (snd (power_seq_run (P := board_v0) (steady_env (fun _ => 0))
                  addr_s3s5_power_seq
                  (ARRAY_SIZE (P := board_v0) addr_s3s5_power_seq)
                  (snd (power_seq_run (P := board_v0)
                          (steady_env (fun _ => 0))
                          addr_s5s3_power_seq
                          (ARRAY_SIZE (P := board_v0) addr_s5s3_power_seq)
                          boot_world))))))
    GPIO_PP5000_EN = Some 0.
Proof.
  destruct (power_down_undoes_power_up (P := board_v0)
              (steady_env (fun _ => 0)) boot_world GPIO_PP5000_EN 1)
    as [H _].
  - vm_compute. tauto.
  - apply H. discriminate.
Defined.

(** X10 from S0 on the version 0 board, with power good and the AP asking
    to run. *)
Lemma forced_shutdown_reaches_G3_witness :
  fst (chipset_task (P := board_v0) (steady_env (fun _ => 8)) 6 POWER_S0
         shutdown_world) =
  [POWER_S0S3; POWER_S3; POWER_S3S5; POWER_S5; POWER_S5G3; POWER_G3].
Proof.
  destruct (forced_shutdown_reaches_G3 (P := board_v0)
              (steady_env (fun _ => 8)) shutdown_world) as [[H _] _].
  - simpl. lia.
  - exact H.
Defined.

(** X11 on the version 0 board when the power-good signals never come. *)
Lemma failed_power_up_unwinds_witness :
  fst (chipset_task (P := board_v0) pgood_lost_env 4 POWER_S5S3 boot_world) =
  [POWER_S3S5; POWER_S5; POWER_S5G3; POWER_G3].
Proof.
  destruct (failed_power_up_unwinds (P := board_v0) pgood_lost_env boot_world)
    as [H _].
  - vm_compute. discriminate.
  - exact H.
Defined.

(** X14 on the link board: a backlight of 37 percent. *)
Lemma keyboard_backlight_round_trip_witness :
  pwm_get_keyboard_backlight (B := link_board)
    (snd (pwm_set_keyboard_backlight (B := link_board) 37
            lm4_running_state)) = 37.
Proof.
  destruct (keyboard_backlight_round_trip (B := link_board) 37
              lm4_running_state) as [H _].
  - lia.
  - exact H.
Defined.

(** X15 on the link board: disabling the backlight leaves the fan enabled. *)
Lemma enable_bits_are_independent_witness :
  pwm_get_keyboard_backlight_enabled (B := link_board)
    (snd (pwm_enable_keyboard_backlight (B := link_board) 0
            lm4_running_state)) = 0 /\
  Z.testbit
    (LM4_FAN_FANCTL (snd (pwm_enable_keyboard_backlight (B := link_board) 0
                            lm4_running_state))) 0 = true.
Proof.
  destruct (enable_bits_are_independent (B := link_board) 0
              lm4_running_state) as (H1 & H2 & _).
  - unfold fan_channels_ok. simpl. lia.
  - split; [exact H1 | exact H2].
Defined.


(** X17 on the link board, from the running module. *)
Lemma pwm_init_postcondition_witness :
  LM4_FAN_FANCTL (snd (pwm_init (B := link_board) lm4_running_state)) = 2 /\
  pwm_get_fan_target_rpm (B := link_board)
    (snd (pwm_init (B := link_board) lm4_running_state)) = 16382.
Proof.
  destruct (pwm_init_postcondition (B := link_board) lm4_running_state)
    as (_ & _ & Hctl & _ & _ & Ht & _).
  - unfold fan_channels_ok. simpl. lia.
  - split; [exact Hctl | exact Ht].
Defined.

(** X18 on the link board: a stalled fan and a fan at 5900 rpm. *)
Lemma fan_speed_in_memory_map_witness :
  lpc_memmap_fan (update_lpc_mapped_memory (B := link_board) lm4_reset_state)
    = [65534; 65535; 65535; 65535] /\
  firstn 4 (lpc_memmap_fan
              (update_lpc_mapped_memory (B := link_board) lm4_running_state))
    = [5900; 65535; 65535; 65535].
Proof.
  split.
  - reflexivity.
  - destruct (fan_speed_in_memory_map (B := link_board) lm4_running_state)
      as [H _].
    + simpl. lia.
    + exact H.
Defined.

(** X19 on the link board: the running module, whose status field reads 1,
    raises no warning. *)
Lemma fan_failure_warning_witness :
  check_fan_failure (B := link_board) (snd (pwm_suspend (B := link_board)
                                              lm4_running_state)) =
  snd (pwm_suspend (B := link_board) lm4_running_state).
Proof.
  destruct (fan_failure_warning (B := link_board) lm4_running_state)
    as (_ & _ & _ & _ & _ & _ & H & _).
  - simpl. lia.
  - exact H.
Defined.


(** X23 on the link board: the running module after a suspend and a
    resume. *)
Lemma fan_follows_chipset_hooks_witness :
  LM4_FAN_FANCTL
    (snd (pwm_resume (B := link_board)
            (snd (pwm_suspend (B := link_board) lm4_running_state)))) = 3.
Proof.
  destruct (fan_follows_chipset_hooks (B := link_board) lm4_running_state)
    as (_ & _ & _ & _ & Hrs & _ & Hon & _).
  - simpl. lia.
  - simpl. lia.
  - rewrite Hrs. rewrite Hon; reflexivity.
Defined.

(** X24 on the link board: [kblight 37]. *)
Lemma kblight_command_prints_what_it_set_witness :
  pwm_get_keyboard_backlight (B := link_board)
    (snd (command_kblight (B := link_board) ["kblight"%string; "37"%string]
            lm4_running_state)) = 37.
Proof.
  destruct (kblight_command_prints_what_it_set (B := link_board)
              ["kblight"%string; "37"%string] 37 lm4_running_state)
    as (_ & H & _).
  - simpl. lia.
  - vm_compute. reflexivity.
  - lia.
  - exact H.
Defined.
